(** * RAPIDpy post-processing: a shallow embedding

    Embeds the parts of RAPIDpy that the specification talks about:
    - [rapid.py]: [compare_qout_files], [generate_qinit_from_past_qout]
      (identifier reindexing through [np.where(arr == x)[0][0]]);
    - [inflow/generate_seasonal_averages.py]: the day-of-year windowing
      and the placement of the statistics;
    - [make_CF_RAPID_output.py]: [log], the [ConvertRAPIDOutputToCF]
      methods and [convert] with its rollback handler;
    - [rapid.py], further: the verdict of [compare_qout_files] and the
      methods of the [RAPID] manager that prepare a run
      ([update_parameters], [update_reach_number_data],
      [generate_namelist_file], [update_namelist_file],
      [make_output_CF_compliant]);
    - [inflow/CreateInflowFileFromERARunoff.py]: [data_validation].

    Python exceptions are values of [exn]; a computation that may raise
    is a [result].  numpy arrays are lists, netCDF files are records held
    in a finite map from paths. *)

From Stdlib Require Import ZArith List Lia Bool Ascii.
From stdpp Require Import gmap strings list sorting.

Local Open Scope Z_scope.

(* ===================================================================== *)
(** ** Python values, exceptions and the error monad                      *)
(* ===================================================================== *)

(** A message built with the [%] operator: the format string and the
    values substituted for its [%s] holes. *)
Inductive text : Type :=
| Text (fmt : string) (args : list arg)
with arg : Type :=
| AInt (z : Z)
| AStr (s : string)
| AText (t : text).

Inductive exn : Type :=
| IndexError (msg : string)
| ValueError (msg : string)
| TypeError (msg : string)
| AttributeError (attr : string)
| KeyError (key : string)
| UnboundLocalError (name : string)
| ZeroDivisionError
| OSError (path : string)
| IOError (path : string)
| Exception (msg : text).

(** [str(e)] as used by ['Conversion Error %s' % e]. *)
Definition str_exn (e : exn) : text :=
  match e with
  | IndexError m | ValueError m | TypeError m => Text m []
  | AttributeError a => Text "'ConvertRAPIDOutputToCF' object has no attribute '%s'" [AStr a]
  | KeyError k => Text "%s" [AStr k]
  | UnboundLocalError n =>
      Text "local variable '%s' referenced before assignment" [AStr n]
  | ZeroDivisionError => Text "division by zero" []
  | OSError p | IOError p => Text "No such file or directory: '%s'" [AStr p]
  | Exception t => t
  end.

(** Does the message carry the integer [id] in one of its holes? *)
Fixpoint mentions (id : Z) (t : text) {struct t} : bool :=
  match t with
  | Text _ args =>
      existsb (fun a => match a with
                        | AInt z => Z.eqb z id
                        | AStr _ => false
                        | AText t' => mentions id t'
                        end) args
  end.

Definition names_identifier (e : exn) (id : Z) : bool :=
  match e with
  | Exception t => mentions id t
  | _ => false
  end.

Inductive result (A : Type) : Type :=
| Ok (a : A)
| Raise (e : exn).
Arguments Ok {A} a.
Arguments Raise {A} e.

Definition bind {A B} (m : result A) (k : A -> result B) : result B :=
  match m with
  | Ok a => k a
  | Raise e => Raise e
  end.

Notation "'let*' x ':=' m 'in' k" := (bind m (fun x => k))
  (at level 10, x pattern, m at level 100, k at level 200).

(** [try: body except Exception: handler] for a pure body. *)
Definition try_except {A} (body : result A) (handler : exn -> result A) : result A :=
  match body with
  | Ok a => Ok a
  | Raise e => handler e
  end.

Definition is_raise {A} (r : result A) : bool :=
  match r with Ok _ => false | Raise _ => true end.

(* ===================================================================== *)
(** ** The numpy operations the sources use                               *)
(* ===================================================================== *)

Module np.

(** [arr == x] for a 1-D integer array and a scalar. *)
Definition eq_scalar (arr : list Z) (x : Z) : list bool :=
  map (fun a => Z.eqb a x) arr.

(** [np.where(mask)[0]]: the positions that hold [True], ascending. *)
Fixpoint where_from (i : nat) (mask : list bool) : list nat :=
  match mask with
  | [] => []
  | b :: rest => if b then i :: where_from (S i) rest else where_from (S i) rest
  end.

Definition where_ (mask : list bool) : list nat := where_from 0 mask.

(** [a[0]] on a 1-D array. *)
Definition item0 {A} (a : list A) : result A :=
  match a with
  | x :: _ => Ok x
  | [] => Raise (IndexError "index 0 is out of bounds for axis 0 with size 0")
  end.

(** [a[i]] for a non-negative index. *)
Definition item {A} (a : list A) (i : nat) : result A :=
  match a !! i with
  | Some x => Ok x
  | None => Raise (IndexError "index out of bounds")
  end.

(** [a[-1]]. *)
Definition item_last {A} (a : list A) : result A :=
  match last a with
  | Some x => Ok x
  | None => Raise (IndexError "index -1 is out of bounds for axis 0 with size 0")
  end.

(** [a[i] = x] on a 1-D array (bounds checked, as numpy does). *)
Definition setitem {A} (a : list A) (i : nat) (x : A) : result (list A) :=
  if decide (i < length a)%nat then Ok (<[i:=x]> a)
  else Raise (IndexError "index out of bounds").

(** The value of [a != b] on two 1-D arrays: an array when the shapes
    agree or broadcast (one side of length 1), and the scalar [True]
    when they do not (numpy as shipped for Python 2: the elementwise
    comparison fails and [!=] answers [True]). *)
Inductive ndbool : Type :=
| BArr (l : list bool)
| BScalar (b : bool).

Definition zip_ne (a b : list Z) : list bool :=
  map (fun p => negb (Z.eqb (fst p) (snd p))) (combine a b).

Definition ne (a b : list Z) : ndbool :=
  if Nat.eqb (length a) (length b) then BArr (zip_ne a b)
  else match a, b with
       | [x], _ => BArr (map (fun y => negb (Z.eqb x y)) b)
       | _, [y] => BArr (map (fun x => negb (Z.eqb x y)) a)
       | _, _ => BScalar true
       end.

(** [np.unique] on booleans: the sorted distinct values. *)
Definition unique (v : ndbool) : list bool :=
  match v with
  | BScalar b => [b]
  | BArr l =>
      (if existsb negb l then [false] else []) ++
      (if existsb (fun b => b) l then [true] else [])
  end.

Definition all (l : list bool) : bool := forallb (fun b => b) l.

(** [np.arange(start, stop, step)] on integers:
    [ceil((stop - start) / step)] values, none when that is negative. *)
Definition arange_len (start stop step : Z) : Z :=
  Z.max 0 (- ((start - stop) / step)).

Definition arange (start stop step : Z) : result (list Z) :=
  if Z.eqb step 0 then Raise ZeroDivisionError
  else Ok (map (fun k => start + Z.of_nat k * step)
               (seq 0 (Z.to_nat (arange_len start stop step)))).

(** [m.transpose()] of a 2-D array given as its list of rows, for a
    known number of columns [ncols]. *)
Definition column {A} (m : list (list A)) (j : nat) : list A :=
  omap (fun row => row !! j) m.

Definition transpose {A} (ncols : nat) (m : list (list A)) : list (list A) :=
  map (column m) (seq 0 ncols).

(** The shape of a 2-D array given as its list of rows (an array without
    rows is taken to have no columns). *)
Definition shape {A} (m : list (list A)) : nat * nat :=
  (length m, match m with row :: _ => length row | [] => 0%nat end).

(** numpy broadcasting of one axis to length [n]: an axis of that length
    is kept, an axis of length 1 is repeated. *)
Definition broadcast_axis {A} (n : nat) (l : list A) : list A :=
  if Nat.eqb (length l) n then l
  else match l with
       | [x] => replicate n x
       | _ => l
       end.

Definition broadcastable (a b : nat) : bool :=
  Nat.eqb a b || Nat.eqb a 1 || Nat.eqb b 1.

Definition broadcast_len (a b : nat) : nat := if Nat.eqb a 1 then b else a.

(** [np.where(mask)[0]] on a 2-D mask: the row index of every [True],
    in row-major order. *)
Fixpoint where_rows_from (i : nat) (mask : list (list bool)) : list nat :=
  match mask with
  | [] => []
  | row :: rest =>
      replicate (length (where_ row)) i ++ where_rows_from (S i) rest
  end.

(** [np.where(a != b)[0]] on two 2-D arrays: the row index of every
    position at which the arrays, broadcast to a common shape, differ, in
    row-major order.  When the shapes do not broadcast, [a != b] is the
    scalar [True], and [np.where] gives the single index 0. *)
Definition where_ne_rows {A} (ne : A -> A -> bool) (a b : list (list A)) : list nat :=
  let '(ra, ca) := shape a in
  let '(rb, cb) := shape b in
  if broadcastable ra rb && broadcastable ca cb then
    let r := broadcast_len ra rb in
    let c := broadcast_len ca cb in
    let mask :=
      zip_with (fun row_a row_b =>
                  zip_with ne (broadcast_axis c row_a) (broadcast_axis c row_b))
        (broadcast_axis r a) (broadcast_axis r b) in
    where_rows_from 0 mask
  else [0%nat].

(** [np.unique] on indices: the distinct values, ascending. *)
Definition unique_nat (l : list nat) : list nat :=
  remove_dups (merge_sort le l).

(** [a.any()] on an integer array: is some element not zero? *)
Definition any_nat (l : list nat) : bool :=
  existsb (fun i => negb (Nat.eqb i 0)) l.

End np.

(** [s.lower()] on ASCII. *)
Definition lower_ascii (c : ascii) : ascii :=
  let n := nat_of_ascii c in
  if andb (Nat.leb 65 n) (Nat.leb n 90) then ascii_of_nat (n + 32) else c.

Fixpoint lower (s : string) : string :=
  match s with
  | EmptyString => EmptyString
  | String c rest => String (lower_ascii c) (lower rest)
  end.

(** [[f(x) for x in xs]] where [f] may raise. *)
Fixpoint mapM {A B} (f : A -> result B) (xs : list A) : result (list B) :=
  match xs with
  | [] => Ok []
  | x :: rest =>
      let* y := f x in
      let* ys := mapM f rest in
      Ok (y :: ys)
  end.

(** [for i, x in enumerate(xs): acc = f(acc, i, x)] where [f] may raise. *)
Fixpoint foldM_from {A St} (f : St -> nat -> A -> result St) (i : nat)
    (xs : list A) (acc : St) : result St :=
  match xs with
  | [] => Ok acc
  | x :: rest =>
      let* acc' := f acc i x in
      foldM_from f (S i) rest acc'
  end.

Definition for_enumerate {A St} (f : St -> nat -> A -> result St)
    (xs : list A) (acc : St) : result St :=
  foldM_from f 0 xs acc.

(* ===================================================================== *)
(** ** rapid.py                                                           *)
(* ===================================================================== *)

Module rapid.
Section Rapid.

(** Flow values are floating point in the source; nothing below depends
    on their arithmetic, so they are kept abstract. [fzero] is [0.0]. *)
Context {F : Type} (fzero : F).

(** What the functions read from a Qout netCDF file. *)
Record Dataset : Type := {
  COMID : list Z;                    (* variables['COMID'][:] *)
  Qout_dimensions : list string;     (* variables['Qout'].dimensions *)
  Qout : list (list F)               (* variables['Qout'][:], row-major *)
}.

(** [np.where(arr == x)[0][0]]. *)
Definition first_index (arr : list Z) (x : Z) : result nat :=
  np.item0 (np.where_ (np.eq_scalar arr x)).

Definition dim_is (dims : list string) (i : nat) (name : string) : bool :=
  match dims !! i with
  | Some d => String.eqb (lower d) name
  | None => false
  end.

(** What [compare_qout_files] has computed when it starts comparing flow
    values: the second dataset's flows as they will be compared, and the
    index list when the reordering branch ran. *)
Record comparison : Type := {
  d2_reordered_comid_list : option (list nat);
  d2_reordered_qout : list (list F)
}.

(** rapid.py, lines 534-537: for each identifier of [target], its
    position in [source]. *)
Definition reindex (source target : list Z) : result (list nat) :=
  mapM (first_index source) target.

(** rapid.py, lines 526-548. *)
Definition compare_qout_files (d1 d2 : Dataset) : result comparison :=
  if negb (np.all (np.unique (np.ne (COMID d1) (COMID d2)))) then
    if negb (Nat.eqb (length (COMID d1)) (length (COMID d2))) then
      Raise (Exception (Text "Length of COMID input not the same." []))
    else
      let d2_comid_list := COMID d2 in
      let* reordered := reindex d2_comid_list (COMID d1) in
      let qout_dimensions := Qout_dimensions d1 in
      if dim_is qout_dimensions 0 "time" && dim_is qout_dimensions 1 "comid" then
        let* q := mapM (fun row => mapM (np.item row) reordered) (Qout d2) in
        Ok {| d2_reordered_comid_list := Some reordered; d2_reordered_qout := q |}
      else if dim_is qout_dimensions 1 "time" && dim_is qout_dimensions 0 "comid" then
        let* q := mapM (np.item (Qout d2)) reordered in
        Ok {| d2_reordered_comid_list := Some reordered; d2_reordered_qout := q |}
      else Raise (Exception (Text "Invalid RAPID Qout file." []))
  else
    Ok {| d2_reordered_comid_list := None; d2_reordered_qout := Qout d2 |}.

(** rapid.py, lines 411-417: the body of the reordering loop and the
    loop.  Any exception inside the [try] is replaced by the
    "not found" one. *)
Definition reorder_step (stream_id_array : list Z) (data_values : list F)
    (init_flows_array : list F) (riv_bas_index : nat) (riv_bas_id : Z)
    : result (list F) :=
  try_except
    (let* data_index := first_index stream_id_array riv_bas_id in
     let* v := np.item data_values riv_bas_index in
     np.setitem init_flows_array data_index v)
    (fun _ => Raise (Exception
       (Text "riv bas id %s not found in connectivity list." [AInt riv_bas_id]))).

Definition reorder_init_flows (stream_id_array riv_bas_id_array : list Z)
    (data_values : list F) : result (list F) :=
  for_enumerate (reorder_step stream_id_array data_values)
    riv_bas_id_array (replicate (length stream_id_array) fzero).

(** rapid.py, lines 395-405: the flow values of the last time step, one
    per identifier of the file, read along the axis that the declared
    dimension order of [Qout] gives. *)
Definition last_time_step_values (Qout_file : string) (data_nc : Dataset)
    : result (list F) :=
  let qout_dimensions := Qout_dimensions data_nc in
  if dim_is qout_dimensions 0 "time" && dim_is qout_dimensions 1 "comid" then
    np.item_last (Qout data_nc)
  else if dim_is qout_dimensions 1 "time" && dim_is qout_dimensions 0 "comid" then
    mapM np.item_last (Qout data_nc)
  else Raise (Exception (Text "Invalid ECMWF forecast file %s" [AStr Qout_file])).

(** rapid.py, lines 394-422.  [Qout_file] is [self.Qout_file];
    [stream_id_array] is column 0 of the connectivity file; the result is
    the list of lines written to [qinit_file]. *)
Definition generate_qinit_from_past_qout (Qout_file : string) (data_nc : Dataset)
    (stream_id_array : list Z) : result (list F) :=
  let riv_bas_id_array := COMID data_nc in
  let* data_values := last_time_step_values Qout_file data_nc in
  reorder_init_flows stream_id_array riv_bas_id_array data_values.

(** The comparison [!=] of two flow values. *)
Context (fne : F -> F -> bool).

(** What the second half of [compare_qout_files] prints (lines 549-579). *)
Inductive report : Type :=
| Same                                   (* "Output Qout data is the same." *)
| Different (number_of_different_timeseries : nat)
            (un_where_diff : list nat)
            (index : nat)
            (d1_example d2_example : list F).

(** rapid.py, lines 549-579: [d1_qout] is [d1.variables[Qout_var][:]].
    The loop over [decimal_test] only prints and is left out. *)
Definition compare_qout_values (d1_qout d2_reordered_qout : list (list F))
    : result report :=
  let where_diff_0 := np.where_ne_rows fne d1_qout d2_reordered_qout in
  let un_where_diff := np.unique_nat where_diff_0 in
  if np.any_nat un_where_diff then
    let* index := np.item0 un_where_diff in
    let* d1_example := np.item d1_qout index in
    let* d2_example := np.item d2_reordered_qout index in
    Ok (Different (length un_where_diff) un_where_diff index d1_example d2_example)
  else Ok Same.

End Rapid.
End rapid.

(* ===================================================================== *)
(** ** inflow/generate_seasonal_averages.py                               *)
(* ===================================================================== *)

Module seasonal.

(** [calendar.isleap]. *)
Definition isleap (year : Z) : bool :=
  (year mod 4 =? 0) && (negb (year mod 100 =? 0) || (year mod 400 =? 0)).

(** The two fields of [time.struct_time] that the worker reads. *)
Record struct_time : Type := {
  tm_year : Z;
  tm_yday : Z
}.

(** [time.gmtime(t)]: the proleptic Gregorian date of [t] seconds after
    1970-01-01T00:00:00Z.  Days are counted from 0000-03-01 in 400-year
    eras, so that the leap day is the last day of a shifted year. *)
Definition gmtime (t : Z) : struct_time :=
  let days := t / 86400 in
  let z := days + 719468 in
  let era := z / 146097 in
  let doe := z - era * 146097 in
  let yoe := (doe - doe / 1460 + doe / 36524 - doe / 146096) / 365 in
  let doy := doe - (365 * yoe + yoe / 4 - yoe / 100) in
  let march_year := yoe + era * 400 in
  if doy <? 306 then
    {| tm_year := march_year;
       tm_yday := doy + 60 + (if isleap march_year then 1 else 0) |}
  else
    {| tm_year := march_year + 1; tm_yday := doy - 305 |}.

(** Attribute assignment on a [time.struct_time].  The type is a
    read-only structseq: [var_time.tm_yday -= 1] evaluates the right-hand
    side and the store then raises. *)
Definition struct_time_setattr (var_time : struct_time) (name : string)
    (value : Z) : result struct_time :=
  Raise (TypeError "readonly attribute").

(** Lines 33-40: one iteration of the loop over the time array. *)
Definition select_step (min_day max_day : Z) (time_indices : list nat)
    (idx : nat) (t : Z) : result (list nat) :=
  let var_time := gmtime t in
  let* var_time :=
    if isleap (tm_year var_time) && (60 <? tm_yday var_time)
    then struct_time_setattr var_time "tm_yday" (tm_yday var_time - 1)
    else Ok var_time in
  if (min_day <=? tm_yday var_time) && (tm_yday var_time <? max_day)
  then Ok (time_indices ++ [idx])
  else Ok time_indices.

(** Lines 27-43: the time indices of the bin [day_of_year]. *)
Definition select_time_indices (time_array : list Z) (day_of_year : Z)
    : result (list nat) :=
  let min_day := day_of_year - 3 in
  let max_day := day_of_year + 3 in
  let* time_indices :=
    for_enumerate (select_step min_day max_day) time_array [] in
  match time_indices with
  | [] => Raise (IndexError "No time steps found within range ...")
  | _ => Ok time_indices
  end.

Section Aggregator.

(** Flow values and their statistics are floating point: kept abstract.
    [np_mean] and [np_std] reduce one identifier's selected values. *)
Context {F : Type} (np_mean np_std : list F -> F) (nc_fill : F).

(** Modelled from the spec: [RAPIDDataset] ([..dataset], not among the
    sources), the Time Series Dataset Reader: it exposes the identifier
    array, the time-index array and windowed reads of the flow matrix,
    here held as one row of values per identifier. *)
Record RAPIDDataset : Type := {
  river_id_array : list Z;
  time_array : list Z;
  qout : list (list F)
}.

Definition size_river_id (d : RAPIDDataset) : nat := length (river_id_array d).

(** [get_qout(time_index_array=...)]: for every identifier, its values at
    the chosen time indices. *)
Definition get_qout (d : RAPIDDataset) (time_index_array : list nat)
    : result (list (list F)) :=
  mapM (fun row => mapM (np.item row) time_index_array) (qout d).

(** The seasonal-average file: [average_flow] and [std_dev_flow] are
    declared with dimensions [('rivid', 'day_of_year')], so each is one
    row per identifier with 365 columns. *)
Record seasonal_nc : Type := {
  rivid : list Z;
  average_flow : list (list F);
  std_dev_flow : list (list F)
}.

Definition day_of_year_len : nat := 365.

(** [var[i] = data] on a two-dimensional netCDF variable: the integer
    selects along the first dimension (a negative one counts from the
    end), and the data must have as many elements as the selected
    slab; data of one element is repeated over the slab. *)
Definition nc_setitem_first (var : list (list F)) (i : Z) (data : list F)
    : result (list (list F)) :=
  let n := Z.of_nat (length var) in
  let i := if i <? 0 then i + n else i in
  if (0 <=? i) && (i <? n) then
    if Nat.eqb (length data) day_of_year_len
    then Ok (<[Z.to_nat i := data]> var)
    else match data with
         | [x] => Ok (<[Z.to_nat i := replicate day_of_year_len x]> var)
         | _ => Raise (IndexError "size of data array does not conform to slice")
         end
  else Raise (IndexError "index exceeds dimension bounds").

(** Lines 17-55 (the lock is not modelled: one worker at a time). *)
Definition generate_single_seasonal_average (qout_nc_file : RAPIDDataset)
    (day_of_year : Z) (return_period_nc : seasonal_nc) : result seasonal_nc :=
  let* time_indices := select_time_indices (time_array qout_nc_file) day_of_year in
  let* streamflow_array := get_qout qout_nc_file time_indices in
  let avg_streamflow_array := map np_mean streamflow_array in
  let std_streamflow_array := map np_std streamflow_array in
  let* avg' := nc_setitem_first (average_flow return_period_nc)
                 (day_of_year - 1) avg_streamflow_array in
  let* std' := nc_setitem_first (std_dev_flow return_period_nc)
                 (day_of_year - 1) std_streamflow_array in
  Ok {| rivid := rivid return_period_nc;
        average_flow := avg'; std_dev_flow := std' |}.

(** Lines 65-103: the preallocated output store. *)
Definition setup_seasonal_average_file (qout_nc_file : RAPIDDataset) : seasonal_nc :=
  let unset := replicate (size_river_id qout_nc_file)
                 (replicate day_of_year_len nc_fill) in
  {| rivid := river_id_array qout_nc_file;
     average_flow := unset; std_dev_flow := unset |}.

(** Lines 105-119: one job per day of the year 1..365; [pool.map]
    re-raises the first failure. *)
Definition generate_seasonal_averages (qout_nc_file : RAPIDDataset)
    : result seasonal_nc :=
  foldM_from
    (fun nc _ day_of_year =>
       generate_single_seasonal_average qout_nc_file day_of_year nc)
    0 (map Z.of_nat (seq 1 365))
    (setup_seasonal_average_file qout_nc_file).

End Aggregator.
End seasonal.

(* ===================================================================== *)
(** ** make_CF_RAPID_output.py                                            *)
(* ===================================================================== *)

Module cf.

(** [p.rfind(c)], counting positions from [i]; [-1] when [c] is absent. *)
Fixpoint rfind_from (i : Z) (c : ascii) (p : list ascii) : Z :=
  match p with
  | [] => -1
  | x :: rest =>
      let k := rfind_from (i + 1) c rest in
      if 0 <=? k then k
      else if Ascii.eqb x c then i else -1
  end.

Definition rfind (c : ascii) (p : list ascii) : Z := rfind_from 0 c p.

(** The [while] loop of [genericpath._splitext]: is there a character
    other than the dot in [p[filenameIndex:dotIndex]]? *)
Definition has_non_dot (p : list ascii) (filenameIndex dotIndex : Z) : bool :=
  existsb (fun x => negb (Ascii.eqb x "."))
    (take (Z.to_nat (dotIndex - filenameIndex)) (drop (Z.to_nat filenameIndex) p)).

(** [os.path.splitext] (posixpath: [sep] is the slash). *)
Definition splitext_list (p : list ascii) : list ascii * list ascii :=
  let sepIndex := rfind "/" p in
  let dotIndex := rfind "." p in
  if (sepIndex <? dotIndex) && has_non_dot p (sepIndex + 1) dotIndex
  then (take (Z.to_nat dotIndex) p, drop (Z.to_nat dotIndex) p)
  else (p, []).

Definition splitext (p : string) : string * string :=
  let '(root, ext) := splitext_list (String.list_ascii_of_string p) in
  (String.string_of_list_ascii root, String.string_of_list_ascii ext).

(** Storage of an integer in an ['i4'] variable. *)
Definition to_i4 (z : Z) : Z := (z + 2147483648) mod 4294967296 - 2147483648.

(** Lines 59-76.  Printing is not modelled. *)
Definition log (message : text) (severity : string) (print_debug : bool)
    : result unit :=
  let print_me := ["WARNING"; "INFO"; "DEBUG"]%string in
  if existsb (String.eqb severity) print_me then Ok tt
  else Raise (Exception (Text "%s: %s" [AStr severity; AText message])).

(** A positional argument of a method call. *)
Inductive pyobj : Type :=
| PyInt (z : Z)
| PyStr (s : string).

Definition as_str (o : pyobj) : result string :=
  match o with
  | PyStr s => Ok s
  | PyInt _ => Raise (TypeError "expected a string")
  end.

Definition as_nat (o : pyobj) : result nat :=
  match o with
  | PyInt z => if 0 <=? z then Ok (Z.to_nat z)
               else Raise (ValueError "negative dimension size")
  | PyStr _ => Raise (TypeError "an integer is required")
  end.

Section CF.

(** Flow and coordinate values are floating point: kept abstract.
    [fzero] is [0.0], [coord_fill] the [-9999.0] fill value of lat, lon
    and z, [nc_fill] the default netCDF fill value, [flt] is [<]. *)
Context {F : Type} (fzero coord_fill nc_fill : F) (flt : F -> F -> bool).

(** A row of the lookup table as the converter reads it:
    [int(float(row[0]))] and [float(row[1])], [float(row[2])],
    [float(row[3])]. *)
Record lookup_row : Type := {
  row_comid : Z;
  row_lat : F;
  row_lon : F;
  row_z : F
}.

(** [helper_functions.csv_to_list] is not among the sources: what it
    returns for the lookup table (header row first) and for the
    initial-flow file (one list of cells per line) is a parameter.
    [utcnow] is the creation timestamp. *)
Context (csv_to_list_lookup : string -> list lookup_row)
        (csv_to_list_qinit : string -> list (list F))
        (utcnow : string).

Inductive ncdata : Type :=
| IntArr (l : list Z)
| FloatArr (l : list F)
| FloatMat (m : list (list F))
| IntScalar.

Record ncvar : Type := {
  var_dimensions : list string;
  var_data : ncdata
}.

Inductive attr : Type :=
| AttrStr (s : string)
| AttrText (t : text)
| AttrFloat (x : F)
| AttrTime (seconds : Z).

Record ncfile : Type := {
  dimensions : gmap string nat;
  variables : gmap string ncvar;
  attributes : gmap string attr
}.

Definition empty_nc : ncfile :=
  {| dimensions := ∅; variables := ∅; attributes := ∅ |}.

Definition setncattr (name : string) (a : attr) (nc : ncfile) : ncfile :=
  {| dimensions := dimensions nc; variables := variables nc;
     attributes := <[name := a]> (attributes nc) |}.

Definition createDimension (name : string) (len : nat) (nc : ncfile) : ncfile :=
  {| dimensions := <[name := len]> (dimensions nc); variables := variables nc;
     attributes := attributes nc |}.

Definition set_variable (name : string) (v : ncvar) (nc : ncfile) : ncfile :=
  {| dimensions := dimensions nc; variables := <[name := v]> (variables nc);
     attributes := attributes nc |}.

Definition dim_len (nc : ncfile) (name : string) : result nat :=
  match dimensions nc !! name with
  | Some n => Ok n
  | None => Raise (KeyError name)
  end.

Definition get_variable (nc : ncfile) (name : string) : result ncvar :=
  match variables nc !! name with
  | Some v => Ok v
  | None => Raise (KeyError name)
  end.

(** [createVariable(name, 'i4', (dim,))]. *)
Definition createVariable_int1 (name dim : string) (nc : ncfile) : result ncfile :=
  let* n := dim_len nc dim in
  Ok (set_variable name
        {| var_dimensions := [dim];
           var_data := IntArr (replicate n (-2147483647)) |} nc).

(** [createVariable(name, 'f8', (dim,), fill_value=fill)]. *)
Definition createVariable_float1 (name dim : string) (fill : F) (nc : ncfile)
    : result ncfile :=
  let* n := dim_len nc dim in
  Ok (set_variable name
        {| var_dimensions := [dim];
           var_data := FloatArr (replicate n fill) |} nc).

(** [createVariable(name, 'f4', (dim0, dim1))]. *)
Definition createVariable_float2 (name dim0 dim1 : string) (nc : ncfile)
    : result ncfile :=
  let* n0 := dim_len nc dim0 in
  let* n1 := dim_len nc dim1 in
  Ok (set_variable name
        {| var_dimensions := [dim0; dim1];
           var_data := FloatMat (replicate n0 (replicate n1 nc_fill)) |} nc).

Definition ncdata_size (d : ncdata) : nat :=
  match d with
  | IntArr l => length l
  | FloatArr l => length l
  | FloatMat m => length (concat m)
  | IntScalar => 1
  end.

(** [nc.variables[name][:] = data]: the data must fill the variable. *)
Definition assign_variable (name : string) (data : ncdata) (nc : ncfile)
    : result ncfile :=
  let* v := get_variable nc name in
  if Nat.eqb (ncdata_size data) (ncdata_size (var_data v)) then
    Ok (set_variable name
          {| var_dimensions := var_dimensions v; var_data := data |} nc)
  else Raise (IndexError "size of data array does not conform to slice").

Definition read_ints (nc : ncfile) (name : string) : result (list Z) :=
  let* v := get_variable nc name in
  match var_data v with
  | IntArr l => Ok l
  | _ => Raise (TypeError "not an integer array")
  end.

Definition read_floats (nc : ncfile) (name : string) : result (list F) :=
  let* v := get_variable nc name in
  match var_data v with
  | FloatArr l => Ok l
  | _ => Raise (TypeError "not a float array")
  end.

(** A two-dimensional array with its shape. *)
Record array2 : Type := {
  shape0 : nat;
  shape1 : nat;
  rows : list (list F)
}.

(** [nc.variables[name][:]] for a two-dimensional variable: a fresh
    numpy array holding a copy of the values. *)
Definition read_matrix (nc : ncfile) (name : string) : result array2 :=
  let* v := get_variable nc name in
  match var_dimensions v, var_data v with
  | [d0; d1], FloatMat m =>
      let* n0 := dim_len nc d0 in
      let* n1 := dim_len nc d1 in
      Ok {| shape0 := n0; shape1 := n1; rows := m |}
  | _, _ => Raise (TypeError "not a two-dimensional float variable")
  end.

Definition transpose (a : array2) : array2 :=
  {| shape0 := shape1 a; shape1 := shape0 a;
     rows := np.transpose (shape1 a) (rows a) |}.

(** numpy broadcasting of one axis: a length that matches is kept, a
    length of 1 is stretched. *)
Definition broadcastable (src tgt : nat) : bool :=
  Nat.eqb src tgt || Nat.eqb src 1.

Definition stretch {A} (src tgt : nat) (l : list A) : list A :=
  if Nat.eqb src tgt then l
  else match l with
       | x :: _ => replicate tgt x
       | [] => []
       end.

(** [a[start:] = src] on numpy arrays: [src] is broadcast to the shape of
    the slice, or the assignment raises. *)
Definition setitem_rows_from (a : array2) (start : nat) (src : array2)
    : result array2 :=
  let n := (shape0 a - start)%nat in
  if broadcastable (shape0 src) n && broadcastable (shape1 src) (shape1 a) then
    Ok {| shape0 := shape0 a; shape1 := shape1 a;
          rows := take start (rows a) ++
                  stretch (shape0 src) n
                    (map (stretch (shape1 src) (shape1 a)) (rows src)) |}
  else Raise (ValueError "could not broadcast input array").

(** The attributes set by [__init__]. *)
Record ConvertRAPIDOutputToCF : Type := {
  rapid_output_file : string;
  start_datetime : Z;              (* seconds since 1970-01-01T00:00:00 *)
  time_step : Z;
  qinit_file : string;
  comid_lat_lon_z_file : string;
  project_name : string;
  output_id_dim_name : string;
  output_flow_var_name : string;
  print_debug : bool;
  cf_compliant_file : string
}.

(** Lines 83-103. *)
Definition __init__ (rapid_output_file : string) (start_datetime time_step : Z)
    (qinit_file comid_lat_lon_z_file project_name output_id_dim_name
     output_flow_var_name : string) (print_debug : bool)
    : ConvertRAPIDOutputToCF :=
  {| rapid_output_file := rapid_output_file;
     start_datetime := start_datetime;
     time_step := time_step;
     qinit_file := qinit_file;
     comid_lat_lon_z_file := comid_lat_lon_z_file;
     project_name := project_name;
     output_id_dim_name := output_id_dim_name;
     output_flow_var_name := output_flow_var_name;
     print_debug := print_debug;
     cf_compliant_file := (fst (splitext rapid_output_file) +:+ "_CF.nc")%string |}.

(** Reading a datetime attribute of the instance by name: [__init__]
    binds [start_datetime] and no other. *)
Definition getattr_datetime (self : ConvertRAPIDOutputToCF) (name : string)
    : result Z :=
  if String.eqb name "start_datetime" then Ok (start_datetime self)
  else Raise (AttributeError name).

(** The files on disk and the two dataset handles of the instance
    ([self.raw_nc], [self.cf_nc]; [None] until assigned). *)
Record state : Type := {
  fs : gmap string ncfile;
  raw_nc : option ncfile;
  cf_nc : option ncfile
}.

Definition IO (A : Type) : Type := state -> state * result A.

Definition ret {A} (a : A) : IO A := fun s => (s, Ok a).
Definition raise {A} (e : exn) : IO A := fun s => (s, Raise e).
Definition lift {A} (r : result A) : IO A := fun s => (s, r).

Definition iobind {A B} (m : IO A) (k : A -> IO B) : IO B :=
  fun s => match m s with
           | (s', Ok a) => k a s'
           | (s', Raise e) => (s', Raise e)
           end.

(** [try: body except Exception, e: handler]. *)
Definition try_except_io {A} (body : IO A) (handler : exn -> IO A) : IO A :=
  fun s => match body s with
           | (s', Ok a) => (s', Ok a)
           | (s', Raise e) => handler e s'
           end.

(** [try: body except OSError: pass]. *)
Definition ignore_OSError (body : IO unit) : IO unit :=
  try_except_io body
    (fun e => match e with OSError _ => ret tt | _ => raise e end).

Notation "'do*' x ':=' m 'in' k" := (iobind m (fun x => k))
  (at level 10, x pattern, m at level 100, k at level 200).

Definition with_fs (f : gmap string ncfile) (s : state) : state :=
  {| fs := f; raw_nc := raw_nc s; cf_nc := cf_nc s |}.

(** [Dataset(path)]: open for reading. *)
Definition Dataset_read (path : string) : IO ncfile :=
  fun s => match fs s !! path with
           | Some nc => (s, Ok nc)
           | None => (s, Raise (IOError path))
           end.

(** [Dataset(path, 'w')]: create (or truncate) the file. *)
Definition Dataset_write (path : string) : IO ncfile :=
  fun s => (with_fs (<[path := empty_nc]> (fs s)) s, Ok empty_nc).

Definition set_raw_nc (nc : ncfile) : IO unit :=
  fun s => ({| fs := fs s; raw_nc := Some nc; cf_nc := cf_nc s |}, Ok tt).

Definition set_cf_nc (nc : ncfile) : IO unit :=
  fun s => ({| fs := fs s; raw_nc := raw_nc s; cf_nc := Some nc |}, Ok tt).

Definition get_raw_nc : IO ncfile :=
  fun s => match raw_nc s with
           | Some nc => (s, Ok nc)
           | None => (s, Raise (AttributeError "raw_nc"))
           end.

Definition get_cf_nc : IO ncfile :=
  fun s => match cf_nc s with
           | Some nc => (s, Ok nc)
           | None => (s, Raise (AttributeError "cf_nc"))
           end.

(** An update of the dataset behind [self.cf_nc]. *)
Definition update_cf (f : ncfile -> result ncfile) : IO unit :=
  do* nc := get_cf_nc in
  do* nc' := lift (f nc) in
  set_cf_nc nc'.

(** [self.cf_nc.close()]: the values reach the file. *)
Definition close_cf (path : string) : IO unit :=
  do* nc := get_cf_nc in
  fun s => (with_fs (<[path := nc]> (fs s)) s, Ok tt).

(** [os.remove(path)]. *)
Definition os_remove (path : string) : IO unit :=
  fun s => match fs s !! path with
           | Some _ => (with_fs (delete path (fs s)) s, Ok tt)
           | None => (s, Raise (OSError path))
           end.

(** [os.rename(src, dst)] (POSIX: an existing [dst] is replaced). *)
Definition os_rename (src dst : string) : IO unit :=
  fun s => match fs s !! src with
           | Some nc => (with_fs (<[dst := nc]> (delete src (fs s))) s, Ok tt)
           | None => (s, Raise (OSError src))
           end.

Definition contains {V} (m : gmap string V) (k : string) : bool :=
  match m !! k with Some _ => true | None => false end.

(** Lines 105-157. *)
Definition _validate_raw_nc (self : ConvertRAPIDOutputToCF)
    : IO (string * nat * nat * string) :=
  do* nc := Dataset_read (rapid_output_file self) in
  do* _ := set_raw_nc nc in
  let dims := dimensions nc in
  do* id_dim_name :=
    (if contains dims "COMID" then ret "COMID"%string
     else if contains dims "FEATUREID" then ret "FEATUREID"%string
     else raise (Exception (Text
            "Could not find ID dimension. Looked for COMID and FEATUREID." []))) in
  do* id_len := lift (dim_len nc id_dim_name) in
  do* time_dim :=
    (match dims !! "Time" with
     | Some n => ret n
     | None => raise (Exception (Text
                 "Could not find time dimension. Looked for Time." []))
     end) in
  let time_len := (time_dim + 1)%nat in
  let vars := variables nc in
  let id_var_name :=
    if contains dims "COMID" then Some "COMID"%string
    else if contains dims "FEATUREID" then Some "FEATUREID"%string
    else None in
  do* _ :=
    (match id_var_name with
     | Some v =>
         if negb (String.eqb v id_dim_name) then
           lift (log (Text "ID dimension name (%s) does not equal ID variable name (%s)."
                        [AStr id_dim_name; AStr v]) "WARNING" true)
         else ret tt
     | None => ret tt
     end) in
  do* q_var_name :=
    (if contains vars "Qout" then ret "Qout"%string
     else if contains vars "m3_riv" then ret "m3_riv"%string
     else
       do* _ := lift (log (Text
                  "Could not find flow variable. Looked for Qout and m3_riv." [])
                  "ERROR" true) in
       raise (UnboundLocalError "q_var_name")) in
  ret (id_dim_name, id_len, time_len, q_var_name).

(** The constant global attributes of lines 178-211. *)
Definition global_attributes : list (string * string) :=
  [("featureType", "timeSeries");
   ("Metadata_Conventions", "Unidata Dataset Discovery v1.0");
   ("Conventions", "CF-1.6");
   ("cdm_data_type", "Station");
   ("nodc_template_version", "NODC_NetCDF_TimeSeries_Orthogonal_Template_v1.1");
   ("standard_name_vocabulary",
    "NetCDF Climate and Forecast (CF) Metadata Convention Standard Name Table v28");
   ("title", "RAPID Result");
   ("summary",
    "Results of RAPID river routing simulation. Each river reach (i.e., feature) is represented by a point feature at its midpoint, and is identified by the reach's unique NHDPlus COMID identifier.");
   ("time_coverage_resolution", "point");
   ("geospatial_lat_units", "degrees_north");
   ("geospatial_lat_resolution", "midpoint of stream feature");
   ("geospatial_lon_units", "degrees_east");
   ("geospatial_lon_resolution", "midpoint of stream feature");
   ("geospatial_vertical_units", "m");
   ("geospatial_vertical_resolution", "midpoint of stream feature");
   ("geospatial_vertical_positive", "up");
   ("processing_level", "Raw simulation result");
   ("keywords_vocabulary",
    "NASA/Global Change Master Directory (GCMD) Earth Science Keywords. Version 8.0.0.0.0");
   ("keywords", "DISCHARGE/FLOW")]%string.

Definition zero_bounds : list string :=
  ["geospatial_lat_min"; "geospatial_lat_max"; "geospatial_lon_min";
   "geospatial_lon_max"; "geospatial_vertical_min"; "geospatial_vertical_max"]%string.

(** Lines 160-270.  The method has four parameters besides [self];
    [args] are the positional arguments of the call, and a call with
    another number of them raises before the body runs.  Variable
    attributes (long_name, units, axis) are not modelled. *)
Definition _initialize_output (self : ConvertRAPIDOutputToCF) (args : list pyobj)
    : IO unit :=
  match args with
  | [id_dim_name; time_len; id_len; time_step_seconds] =>
      do* _ := lift (log (Text "Initializing new file %s"
                            [AStr (cf_compliant_file self)]) "INFO" true) in
      do* nc := Dataset_write (cf_compliant_file self) in
      do* _ := set_cf_nc nc in
      do* _ := update_cf (fun nc =>
        let nc := foldl (fun nc kv => setncattr (fst kv) (AttrStr (snd kv)) nc)
                    nc global_attributes in
        let nc := foldl (fun nc k => setncattr k (AttrFloat fzero) nc)
                    nc zero_bounds in
        let nc := setncattr "project" (AttrStr (project_name self)) nc in
        let step := match time_step_seconds with
                    | PyInt z => AInt z
                    | PyStr s => AStr s
                    end in
        let nc := setncattr "comment"
                    (AttrText (Text "Result time step (seconds): %s" [step])) nc in
        let nc := setncattr "date_created" (AttrStr (utcnow +:+ "Z")) nc in
        let nc := setncattr "history"
                    (AttrText (Text "%sZ; added time, lat, lon, z, crs variables; added metadata to conform to NODC_NetCDF_TimeSeries_Orthogonal_Template_v1.1"
                                 [AStr utcnow])) nc in
        Ok nc) in
      do* _ := update_cf (fun nc =>
        let* n := as_nat time_len in Ok (createDimension "time" n nc)) in
      do* _ := update_cf (fun nc =>
        let* name := as_str id_dim_name in
        let* n := as_nat id_len in
        Ok (createDimension name n nc)) in
      do* _ := update_cf (fun nc =>
        let* name := as_str id_dim_name in
        let* nc := createVariable_int1 name name nc in
        let* nc := createVariable_int1 "time" "time" nc in
        let* nc := createVariable_float1 "lat" name coord_fill nc in
        let* nc := createVariable_float1 "lon" name coord_fill nc in
        let* nc := createVariable_float1 "z" name coord_fill nc in
        Ok (set_variable "crs"
              {| var_dimensions := []; var_data := IntScalar |} nc)) in
      ret tt
  | _ =>
      raise (TypeError "_initialize_output() takes exactly 5 arguments")
  end.

Definition update_min (m : option F) (x : F) : option F :=
  match m with
  | None => Some x
  | Some v => if flt x v then Some x else m
  end.

Definition update_max (m : option F) (x : F) : option F :=
  match m with
  | None => Some x
  | Some v => if flt v x then Some x else m
  end.

(** The local variables of the lookup loop (lines 291-329). *)
Record lookup_locals : Type := {
  lookup_index : option nat;       (* unbound before the first hit *)
  lats : list F;
  lons : list F;
  zs : list F;
  lat_min : option F;
  lat_max : option F;
  lon_min : option F;
  lon_max : option F;
  z_min : option F;
  z_max : option F
}.

(** Lines 303-329: one iteration. *)
Definition lookup_step (lookup_table : list lookup_row) (lookup_comids : list Z)
    (loc : lookup_locals) (nc_index : nat) (nc_comid : Z) : result lookup_locals :=
  let* found :=
    try_except
      (let* i := np.item0 (np.where_ (np.eq_scalar lookup_comids nc_comid)) in
       Ok (Some (i + 1)%nat))
      (fun _ =>
         let* _ := log (Text "COMID %s misssing in comid_lat_lon_z file"
                          [AInt nc_comid]) "ERROR" true in
         Ok (lookup_index loc)) in
  let* index := match found with
                | Some i => Ok i
                | None => Raise (UnboundLocalError "lookup_index")
                end in
  let* row := np.item lookup_table index in
  let lat := row_lat row in
  let* lats' := np.setitem (lats loc) nc_index lat in
  let lon := row_lon row in
  let* lons' := np.setitem (lons loc) nc_index lon in
  let z := row_z row in
  let* zs' := np.setitem (zs loc) nc_index z in
  Ok {| lookup_index := Some index;
        lats := lats'; lons := lons'; zs := zs';
        lat_min := update_min (lat_min loc) lat;
        lat_max := update_max (lat_max loc) lat;
        lon_min := update_min (lon_min loc) lon;
        lon_max := update_max (lon_max loc) lon;
        z_min := update_min (z_min loc) z;
        z_max := update_max (z_max loc) z |}.

Definition set_bound (name : string) (b : option F) (nc : ncfile) : ncfile :=
  match b with
  | Some x => setncattr name (AttrFloat x) nc
  | None => nc
  end.

(** Lines 272-350, on the dataset behind [self.cf_nc]. *)
Definition _write_comid_lat_lon_z (self : ConvertRAPIDOutputToCF) (cf_nc : ncfile)
    : result ncfile :=
  if negb (String.eqb (comid_lat_lon_z_file self) "") then
    let lookup_table := csv_to_list_lookup (comid_lat_lon_z_file self) in
    let lookup_comids := map row_comid (tail lookup_table) in
    let* nc_comids := read_ints cf_nc (output_id_dim_name self) in
    let* lats0 := read_floats cf_nc "lat" in
    let* lons0 := read_floats cf_nc "lon" in
    let* zs0 := read_floats cf_nc "z" in
    let* loc := for_enumerate (lookup_step lookup_table lookup_comids) nc_comids
                  {| lookup_index := None;
                     lats := lats0; lons := lons0; zs := zs0;
                     lat_min := None; lat_max := None;
                     lon_min := None; lon_max := None;
                     z_min := None; z_max := None |} in
    let* nc := assign_variable "lat" (FloatArr (lats loc)) cf_nc in
    let* nc := assign_variable "lon" (FloatArr (lons loc)) nc in
    let* nc := assign_variable "z" (FloatArr (zs loc)) nc in
    let nc := set_bound "geospatial_lat_min" (lat_min loc) nc in
    let nc := set_bound "geospatial_lat_max" (lat_max loc) nc in
    let nc := set_bound "geospatial_lon_min" (lon_min loc) nc in
    let nc := set_bound "geospatial_lon_max" (lon_max loc) nc in
    let nc := set_bound "geospatial_vertical_min" (z_min loc) nc in
    let nc := set_bound "geospatial_vertical_max" (z_max loc) nc in
    Ok nc
  else
    let* _ := log (Text "No comid_lat_lon_z file. Not adding values ..." [])
                "INFO" true in
    Ok cf_nc.

(** [float(init_flow)] at line 373: [init_flow] is one line of the file
    as [csv_to_list] gives it, a list of cells, and [float] takes a
    string or a number. *)
Definition float_of_row (init_flow : list F) : result F :=
  Raise (TypeError "float() argument must be a string or a number").

(** [q_var[index][0] = value]: [q_var[index]] reads row [index] of the
    netCDF variable into a fresh numpy array, and the store goes to that
    array. *)
Definition set_first_of_row_copy (nc : ncfile) (q_var : string) (index : nat)
    (value : F) : result unit :=
  let* m := read_matrix nc q_var in
  let* row := np.item (rows m) index in
  let* _ := np.setitem row 0 value in
  Ok tt.

(** Lines 352-376, on the datasets behind [self.raw_nc] and
    [self.cf_nc].  [q_var[:][1:] = ...] reads the whole variable into a
    fresh numpy array and assigns to rows 1.. of that array; the array is
    then dropped. *)
Definition _copy_streamflow_values (self : ConvertRAPIDOutputToCF)
    (input_flow_var_name : string) (raw_nc cf_nc : ncfile) : result ncfile :=
  let q_var := output_flow_var_name self in
  let* cf_nc := createVariable_float2 q_var (output_id_dim_name self) "time" cf_nc in
  let* _ := log (Text "Copying streamflow values" []) "INFO" true in
  let* raw_values := read_matrix raw_nc input_flow_var_name in
  let* q_copy := read_matrix cf_nc q_var in
  let* _ := setitem_rows_from q_copy 1 (transpose raw_values) in
  let* _ :=
    if negb (String.eqb (qinit_file self) "") then
      for_enumerate
        (fun _ index init_flow =>
           let* value := float_of_row init_flow in
           set_first_of_row_copy cf_nc q_var index value)
        (csv_to_list_qinit (qinit_file self)) tt
    else
      let* comids := read_ints cf_nc (output_id_dim_name self) in
      for_enumerate
        (fun _ index (comid : Z) => set_first_of_row_copy cf_nc q_var index fzero)
        comids tt in
  Ok cf_nc.

(** Lines 397-408 of [convert]: the time values.  [d1970] is second 0,
    so [secs_start] is the start instant itself. *)
Definition populate_time_values (self : ConvertRAPIDOutputToCF) (time_len : nat)
    (cf_nc : ncfile) : result ncfile :=
  let total_seconds := time_step self * Z.of_nat time_len in
  let* start_date := getattr_datetime self "start_date" in
  let end_date := start_date + (total_seconds - time_step self) in
  let secs_start := start_date in
  let secs_end := secs_start + total_seconds in
  let* times := np.arange secs_start secs_end (time_step self) in
  let* nc := assign_variable "time" (IntArr (map to_i4 times)) cf_nc in
  let nc := setncattr "time_coverage_start" (AttrTime start_date) nc in
  Ok (setncattr "time_coverage_end" (AttrTime end_date) nc).

(** Lines 385-434: the body of the [try].  Closing the raw dataset and
    reading the clock have no effect on the files and are left out. *)
Definition convert_body (self : ConvertRAPIDOutputToCF) : IO unit :=
  do* _ := lift (log (Text "Processing %s" [AStr (rapid_output_file self)])
                   "INFO" true) in
  do* _ := lift (log (Text "validating input netCDF file" []) "INFO" true) in
  do* validated := _validate_raw_nc self in
  let '(input_id_dim_name, id_len, time_len, input_flow_var_name) := validated in
  do* _ := lift (log (Text "initializing output" []) "INFO" true) in
  do* _ := _initialize_output self
             [PyInt (Z.of_nat time_len); PyInt (Z.of_nat id_len)] in
  do* _ := lift (log (Text "writing times" []) "INFO" true) in
  do* _ := update_cf (populate_time_values self time_len) in
  do* _ := lift (log (Text "writing comid lat lon z" []) "INFO" true) in
  do* raw := get_raw_nc in
  do* ids := lift (read_ints raw input_id_dim_name) in
  do* _ := update_cf (assign_variable (output_id_dim_name self) (IntArr ids)) in
  do* _ := update_cf (_write_comid_lat_lon_z self) in
  do* _ := lift (log (Text "Lookup Duration (s): " []) "INFO" true) in
  do* _ := lift (log (Text "Creating streamflow variable" []) "INFO" true) in
  do* _ := update_cf (_copy_streamflow_values self input_flow_var_name raw) in
  do* _ := close_cf (cf_compliant_file self) in
  do* _ := ignore_OSError (os_remove (rapid_output_file self)) in
  do* _ := os_rename (cf_compliant_file self) (rapid_output_file self) in
  lift (log (Text "Time to process" []) "INFO" true).

(** Lines 435-441: the handler of [except Exception, e]. *)
Definition rollback (self : ConvertRAPIDOutputToCF) (e : exn) : IO unit :=
  do* _ := ignore_OSError (os_remove (cf_compliant_file self)) in
  lift (log (Text "Conversion Error %s" [AText (str_exn e)]) "ERROR" true).

(** Lines 379-441. *)
Definition convert (self : ConvertRAPIDOutputToCF) : IO unit :=
  try_except_io (convert_body self) (rollback self).

End CF.
End cf.

(* ===================================================================== *)
(** ** rapid.py: the [RAPID] manager class                                *)
(* ===================================================================== *)

Module manager.

(** The values the attributes of a manager take: booleans, integers,
    strings and [None]. *)
Inductive value : Type :=
| VBool (b : bool)
| VInt (z : Z)
| VStr (s : string)
| VNone.

(** [bool(v)]. *)
Definition truthy (v : value) : bool :=
  match v with
  | VBool b => b
  | VInt z => negb (Z.eqb z 0)
  | VStr s => negb (String.eqb s "")
  | VNone => false
  end.

(** [isinstance(v, int)]: [bool] is a subclass of [int]. *)
Definition isinstance_int (v : value) : bool :=
  match v with
  | VBool _ | VInt _ => true
  | VStr _ | VNone => false
  end.

(** [v == True]. *)
Definition eq_True (v : value) : bool :=
  match v with
  | VBool b => b
  | VInt z => Z.eqb z 1
  | VStr _ | VNone => false
  end.

(** [str(v)] and [str(v).lower()] as arguments of a format. *)
Definition str (v : value) : arg :=
  match v with
  | VBool true => AStr "True"
  | VBool false => AStr "False"
  | VInt z => AInt z
  | VStr s => AStr s
  | VNone => AStr "None"
  end.

Definition str_lower (v : value) : arg :=
  match v with
  | VBool true => AStr "true"
  | VBool false => AStr "false"
  | VInt z => AInt z
  | VStr s => AStr (lower s)
  | VNone => AStr "none"
  end.

(** [s.startswith(prefix)]. *)
Definition startswith (s prefix : string) : bool := String.prefix prefix s.

(** The names [dir] finds on the class [RAPID]: its methods and what it
    inherits from [object]. *)
Definition class_names : list string :=
  ["__class__"; "__delattr__"; "__dict__"; "__doc__"; "__format__";
   "__getattribute__"; "__hash__"; "__init__"; "__module__"; "__new__";
   "__reduce__"; "__reduce_ex__"; "__repr__"; "__setattr__"; "__sizeof__";
   "__str__"; "__subclasshook__"; "__weakref__";
   "_create_symlink_cygwin"; "_dos2unix_cygwin"; "_get_cygwin_path";
   "compare_qout_files"; "generate_namelist_file";
   "generate_qinit_from_past_qout"; "generate_usgs_avg_daily_flows_opt";
   "make_output_CF_compliant"; "run"; "update_namelist_file";
   "update_parameters"; "update_reach_number_data"]%string.

(** An instance is its [__dict__]. *)
Abbreviation RAPID := (gmap string value).

(** [key in dir(self)]. *)
Definition in_dir (self : RAPID) (key : string) : bool :=
  bool_decide (key ∈ dom self) || bool_decide (key ∈ class_names).

(** [setattr(self, key, value)]. *)
Definition setattr (self : RAPID) (key : string) (v : value) : RAPID :=
  <[key := v]> self.

(** [self.name] for a name that no method bears. *)
Definition getattr (self : RAPID) (name : string) : result value :=
  match self !! name with
  | Some v => Ok v
  | None => Raise (AttributeError name)
  end.

(** Lines 209-218.  [kwargs] in the order in which [iteritems] yields
    them; the instance is returned as the call leaves it, also when it
    raises. *)
Fixpoint update_parameters (self : RAPID) (kwargs : list (string * value))
    : RAPID * result unit :=
  match kwargs with
  | [] => (self, Ok tt)
  | (key, v) :: rest =>
      if in_dir self key && negb (startswith key "_") then
        update_parameters (setattr self key v) rest
      else
        (self, Raise (Exception (Text "Invalid RAPID parameter %s." [AStr key])))
  end.

(** The attributes given a constant by [__init__] (lines 44-161). *)
Definition defaults : list (string * value) :=
  [("BS_opt_Qinit", VBool false); ("BS_opt_Qfinal", VBool false);
   ("BS_opt_dam", VBool false); ("BS_opt_for", VBool false);
   ("BS_opt_influence", VBool false);
   ("IS_opt_routing", VInt 1); ("IS_opt_run", VInt 1); ("IS_opt_phi", VInt 1);
   ("ZS_TauR", VInt 0); ("ZS_dtR", VInt 0); ("ZS_TauM", VInt 0);
   ("ZS_dtM", VInt 0); ("ZS_TauO", VInt 0); ("ZS_dtO", VInt 0);
   ("ZS_dtF", VInt 0);
   ("IS_riv_tot", VInt 0); ("rapid_connect_file", VStr "");
   ("IS_max_up", VInt 2); ("Vlat_file", VStr "");
   ("IS_riv_bas", VInt 0); ("riv_bas_id_file", VStr "");
   ("Qinit_file", VStr ""); ("Qfinal_file", VStr "");
   ("IS_dam_tot", VInt 0); ("dam_tot_id_file", VStr "");
   ("IS_dam_use", VInt 0); ("dam_use_id_file", VStr "");
   ("IS_for_tot", VInt 0); ("for_tot_id_file", VStr ""); ("Qfor_file", VStr "");
   ("IS_for_use", VInt 0); ("for_use_id_file", VStr "");
   ("babsmax_file", VStr ""); ("QoutRabsmin_file", VStr "");
   ("QoutRabsmax_file", VStr "");
   ("k_file", VStr ""); ("x_file", VStr ""); ("Qout_file", VStr "");
   ("ZS_phifac", VInt 0);
   ("kfac_file", VStr ""); ("xfac_file", VStr "");
   ("ZS_knorm_init", VInt 0); ("ZS_xnorm_init", VInt 0);
   ("IS_obs_tot", VInt 0); ("obs_tot_id_file", VStr ""); ("Qobs_file", VStr "");
   ("Qobsbarrec_file", VStr ""); ("IS_obs_use", VInt 0);
   ("obs_use_id_file", VStr ""); ("IS_strt_opt", VInt 0)]%string.

(** [max(l)] on a list of integers. *)
Definition py_max (l : list Z) : result Z :=
  match l with
  | [] => Raise (ValueError "max() arg is an empty sequence")
  | x :: rest => Ok (foldl Z.max x rest)
  end.

Section Manager.

(** The platform: [os.name], [os.path.exists], [os.path.join] and
    [multiprocessing.cpu_count()]. *)
Context (os_name : string) (path_exists : string -> bool)
        (path_join : string -> string -> string) (cpu_count : Z).

(** [helper_functions.csv_to_list] is not among the sources: what it
    returns for a path, one list of cells per line, is a parameter, and
    so is the number [int(float(cell))] reads from a cell. *)
Context (csv_to_list : value -> result (list (list string)))
        (int_of_float : string -> result Z).

(** [_get_cygwin_path] (lines 167-180) asks the [cygpath] program. *)
Context (_get_cygwin_path : string -> result string).

(** Lines 26-165. *)
Definition __init__ (rapid_executable_location num_processors
                     use_all_processors : value) (cygwin_bin_location : string)
    (kwargs : list (string * value)) : result RAPID :=
  let self : RAPID := ∅ in
  let self := setattr self "_rapid_executable_location" rapid_executable_location in
  let self := setattr self "_num_processors" num_processors in
  if String.eqb os_name "nt" &&
     (String.eqb cygwin_bin_location "" || negb (path_exists cygwin_bin_location))
  then Raise (Exception (Text
         "Required to have cygwin_bin_location set if using windows!" []))
  else
    let self := setattr self "_cygwin_bin_location" (VStr cygwin_bin_location) in
    let self := setattr self "_cygwin_bash_exe_location"
                  (VStr (path_join cygwin_bin_location "bash.exe")) in
    let self := if eq_True use_all_processors
                then setattr self "_num_processors" (VInt cpu_count)
                else self in
    let self := foldl (fun self kv => setattr self (fst kv) (snd kv)) self defaults in
    match update_parameters self kwargs with
    | (self, Ok _) => Ok self
    | (_, Raise e) => Raise e
    end.

(** Lines 220-231.  The instance is returned as the call leaves it, also
    when it raises. *)
Definition update_reach_number_data (self : RAPID) : RAPID * result unit :=
  match (let* path := getattr self "rapid_connect_file" in csv_to_list path) with
  | Raise e => (self, Raise e)
  | Ok rapid_connect_table =>
      let self := setattr self "IS_riv_tot"
                    (VInt (Z.of_nat (length rapid_connect_table))) in
      match (let* column :=
               mapM (fun row => let* cell := np.item row 2 in int_of_float cell)
                 rapid_connect_table in
             py_max column) with
      | Raise e => (self, Raise e)
      | Ok max_up =>
          let self := setattr self "IS_max_up" (VInt max_up) in
          match (let* path := getattr self "riv_bas_id_file" in csv_to_list path) with
          | Raise e => (self, Raise e)
          | Ok riv_bas_id_table =>
              (setattr self "IS_riv_bas"
                 (VInt (Z.of_nat (length riv_bas_id_table))), Ok tt)
          end
      end
  end.

(** Lines 247-258: what the loop writes for one attribute, if anything.
    A line is given without its final newline. *)
Definition namelist_line (attr : string) (v : value) : result (option text) :=
  if negb (startswith attr "_") then
    if startswith attr "BS" then
      Ok (Some (Text "%s = .%s." [AStr attr; str_lower v]))
    else if isinstance_int v then
      Ok (Some (Text "%s = %s" [AStr attr; str v]))
    else if truthy v then
      match v with
      | VStr s =>
          let* s := (if String.eqb os_name "nt" then _get_cygwin_path s else Ok s) in
          Ok (Some (Text "%s = '%s'" [AStr attr; AStr s]))
      | _ => Ok None
      end
    else Ok None
  else Ok None.

Fixpoint write_attributes (items : list (string * value)) (written : list text)
    : list text * result unit :=
  match items with
  | [] => (written, Ok tt)
  | (attr, v) :: rest =>
      match namelist_line attr v with
      | Ok (Some line) => write_attributes rest (written ++ [line])
      | Ok None => write_attributes rest written
      | Raise e => (written, Raise e)
      end
  end.

(** Lines 234-259.  A file is the list of its lines; [self.__dict__] is
    gone through in the order of [map_to_list], which stands for the
    order of the dictionary. *)
Definition generate_namelist_file (self : RAPID) (file_path : string)
    (fs : gmap string (list text)) : gmap string (list text) * result unit :=
  let fs := delete file_path fs in
  match write_attributes (map_to_list self) [Text "&NL_namelist" []] with
  | (written, Ok _) => (<[file_path := written ++ [Text "/" []]]> fs, Ok tt)
  | (written, Raise e) => (<[file_path := written]> fs, Raise e)
  end.

End Manager.

(** Python's whitespace and letters (ASCII). *)
Definition isspace (c : ascii) : bool :=
  let n := nat_of_ascii c in
  Nat.eqb n 32 || (Nat.leb 9 n && Nat.leb n 13).

Definition isalpha (c : ascii) : bool :=
  let n := nat_of_ascii c in
  (Nat.leb 65 n && Nat.leb n 90) || (Nat.leb 97 n && Nat.leb n 122).

(** [s.strip()]. *)
Fixpoint lstrip (s : string) : string :=
  match s with
  | String c rest => if isspace c then lstrip rest else s
  | EmptyString => EmptyString
  end.

Fixpoint rstrip (s : string) : string :=
  match s with
  | String c rest =>
      match rstrip rest with
      | EmptyString => if isspace c then EmptyString else String c EmptyString
      | rest' => String c rest'
      end
  | EmptyString => EmptyString
  end.

Definition strip (s : string) : string := rstrip (lstrip s).

(** [s.split()]: the maximal runs of characters that are not whitespace.
    [word] is the run being read, if any. *)
Fixpoint split_from (word : option string) (s : string) : list string :=
  match s with
  | EmptyString => match word with Some w => [w] | None => [] end
  | String c rest =>
      if isspace c then
        match word with
        | Some w => w :: split_from None rest
        | None => split_from None rest
        end
      else
        split_from (Some (match word with
                          | Some w => w +:+ String c EmptyString
                          | None => String c EmptyString
                          end)) rest
  end.

Definition split (s : string) : list string := split_from None s.

(** [line[:1].isalpha()]. *)
Definition starts_with_letter (line : string) : bool :=
  match line with
  | String c _ => isalpha c
  | EmptyString => false
  end.

(** [attr in container] for the values a manager holds: a substring test
    on a string; the other values are not iterable. *)
Definition contains (container : value) (attr : string) : result bool :=
  match container with
  | VStr s => Ok (match String.index 0 attr s with Some _ => true | None => false end)
  | _ => Raise (TypeError "argument is not iterable")
  end.

(** Lines 268-285: one line of the file. *)
Definition update_from_line (self : RAPID) (line : string) : RAPID * result unit :=
  let line := strip line in
  if negb (starts_with_letter line) || String.eqb line "" then (self, Ok tt)
  else
    let line_split := split line in
    match np.item line_split 0 with
    | Raise e => (self, Raise e)
    | Ok attr =>
        match (match line_split with
               | _ :: second :: _ => Ok (VStr second)
               | _ =>
                   let* no_value_attr_list := getattr self "_no_value_attr_list" in
                   let* listed := contains no_value_attr_list attr in
                   Ok (if listed then VBool true else VNone)
               end) with
        | Raise e => (self, Raise e)
        | Ok v =>
            if in_dir self attr && negb (startswith attr "_") then
              match self !! attr with
              | Some current =>
                  if negb (truthy current) then (setattr self attr v, Ok tt)
                  else (self, Ok tt)
              | None => (self, Ok tt)      (* a method: true *)
              end
            else (self, Ok tt)             (* "Invalid argument ... Skipping" *)
        end
    end.

Fixpoint update_from_lines (self : RAPID) (lines : list string) : RAPID * result unit :=
  match lines with
  | [] => (self, Ok tt)
  | line :: rest =>
      match update_from_line self line with
      | (self, Ok _) => update_from_lines self rest
      | (self, Raise e) => (self, Raise e)
      end
  end.

(** Lines 261-291.  A file is the list of its lines as they are read.
    [generate_input_file] is a method the class does not have. *)
Definition update_namelist_file (self : RAPID) (file_path : string)
    (fs : gmap string (list string)) : RAPID * result unit :=
  match fs !! file_path with
  | Some old_file =>
      if negb (String.eqb file_path "") then
        match update_from_lines self old_file with
        | (self, Ok _) =>
            (self,
             match self !! "generate_input_file"%string with
             | Some _ => Raise (TypeError "object is not callable")
             | None => Raise (AttributeError "generate_input_file")
             end)
        | (self, Raise e) => (self, Raise e)
        end
      else (self, Raise (Exception (Text "RAPID namelist file to update not found." [])))
  | None => (self, Raise (Exception (Text "RAPID namelist file to update not found." [])))
  end.

Section Convert.
Context {F : Type} (fzero coord_fill nc_fill : F) (flt : F -> F -> bool).
Context (csv_to_list_lookup : string -> list (cf.lookup_row (F := F)))
        (csv_to_list_qinit : string -> list (list F))
        (utcnow : string).

(** The parameters of [ConvertRAPIDOutputToCF.__init__] besides [self]
    (make_CF_RAPID_output.py, lines 83-92). *)
Definition init_parameters : list string :=
  ["rapid_output_file"; "start_datetime"; "time_step"; "qinit_file";
   "comid_lat_lon_z_file"; "project_name"; "output_id_dim_name";
   "output_flow_var_name"; "print_debug"]%string.

(** The value bound to a parameter: the keyword if given, the default
    otherwise; a parameter without default must be given. *)
Definition keyword (kwargs : list (string * value)) (name : string)
    (default : option value) : result value :=
  match List.find (fun kv => String.eqb (fst kv) name) kwargs, default with
  | Some kv, _ => Ok (snd kv)
  | None, Some v => Ok v
  | None, None => Raise (TypeError "__init__() takes at least 4 arguments")
  end.

Definition as_str (v : value) : result string :=
  match v with VStr s => Ok s | _ => Raise (TypeError "not a string") end.

Definition as_int (v : value) : result Z :=
  match v with VInt z => Ok z | _ => Raise (TypeError "not a number") end.

(** A call of [ConvertRAPIDOutputToCF] with keyword arguments: a keyword that names no
    parameter raises [TypeError] before the body of [__init__] runs.
    The converter record holds strings and numbers; a call that binds a
    value of another kind is not followed further. *)
Definition new_ConvertRAPIDOutputToCF (kwargs : list (string * value))
    : result cf.ConvertRAPIDOutputToCF :=
  match List.find (fun kv => negb (bool_decide (fst kv ∈ init_parameters))) kwargs with
  | Some kv =>
      Raise (TypeError ("__init__() got an unexpected keyword argument '"
                        +:+ fst kv +:+ "'"))
  | None =>
      let* rapid_output_file :=
        (let* v := keyword kwargs "rapid_output_file" None in as_str v) in
      let* start_datetime :=
        (let* v := keyword kwargs "start_datetime" None in as_int v) in
      let* time_step :=
        (let* v := keyword kwargs "time_step" None in as_int v) in
      let* qinit_file :=
        (let* v := keyword kwargs "qinit_file" (Some (VStr "")) in as_str v) in
      let* comid_lat_lon_z_file :=
        (let* v := keyword kwargs "comid_lat_lon_z_file" (Some (VStr "")) in as_str v) in
      let* project_name :=
        (let* v := keyword kwargs "project_name"
                     (Some (VStr "Default RAPID Project")) in as_str v) in
      let* output_id_dim_name :=
        (let* v := keyword kwargs "output_id_dim_name" (Some (VStr "COMID")) in
         as_str v) in
      let* output_flow_var_name :=
        (let* v := keyword kwargs "output_flow_var_name" (Some (VStr "Qout")) in
         as_str v) in
      let* print_debug := keyword kwargs "print_debug" (Some (VBool false)) in
      Ok (cf.__init__ rapid_output_file start_datetime time_step qinit_file
            comid_lat_lon_z_file project_name output_id_dim_name
            output_flow_var_name (truthy print_debug))
  end.

(** Lines 293-310.  The start instant is given in seconds since
    1970-01-01T00:00:00, as the converter holds it. *)
Definition make_output_CF_compliant (self : RAPID) (simulation_start_datetime : Z)
    (comid_lat_lon_z_file project_name : string) : cf.IO (F := F) unit :=
  cf.iobind
    (cf.lift
       (let* Qout_file := getattr self "Qout_file" in
        let* ZS_TauR := getattr self "ZS_TauR" in
        let* Qinit_file := getattr self "Qinit_file" in
        let* rapid_connect_file := getattr self "rapid_connect_file" in
        new_ConvertRAPIDOutputToCF
          [("rapid_output_file", Qout_file);
           ("start_datetime", VInt simulation_start_datetime);
           ("time_step", ZS_TauR);
           ("qinit_file", Qinit_file);
           ("comid_lat_lon_z_file", VStr comid_lat_lon_z_file);
           ("rapid_connect_file", rapid_connect_file);
           ("project_name", VStr project_name);
           ("output_id_dim_name", VStr "COMID");
           ("output_flow_var_name", VStr "Qout");
           ("print_debug", VBool false)]%string))
    (fun cv => cf.convert fzero coord_fill nc_fill flt csv_to_list_lookup
                 csv_to_list_qinit utcnow cv).

End Convert.
Section Qinit.
Context {F : Type} (fzero : F).

(** [Dataset(path, mode="r")] as the method reads it, [csv_to_list] and
    the number [int(float(cell))] reads from a cell are parameters, as
    above. *)
Context (Dataset : string -> result (rapid.Dataset (F := F)))
        (csv_to_list : value -> result (list (list string)))
        (int_of_float : string -> result Z).

(** Lines 387-426, as a method of the manager.  The second component is
    the list of values written to [qinit_file], one per line.  The
    instance is returned as the call leaves it, also when it raises. *)
Definition generate_qinit_from_past_qout (self : RAPID) (qinit_file : string)
    : RAPID * result (list F) :=
  match (let* Qout_file := getattr self "Qout_file" in
         let* Qout_file := as_str Qout_file in
         let* data_nc := Dataset Qout_file in
         let riv_bas_id_array := rapid.COMID data_nc in
         let* data_values := rapid.last_time_step_values Qout_file data_nc in
         let* rapid_connect_file := getattr self "rapid_connect_file" in
         let* rapid_connect_array := csv_to_list rapid_connect_file in
         let* stream_id_array :=
           mapM (fun row => let* cell := np.item row 0 in int_of_float cell)
             rapid_connect_array in
         rapid.reorder_init_flows fzero stream_id_array riv_bas_id_array data_values)
  with
  | Ok init_flows_array =>
      (setattr (setattr self "Qinit_file" (VStr qinit_file))
         "BS_opt_Qinit" (VBool true),
       Ok init_flows_array)
  | Raise e => (self, Raise e)
  end.

End Qinit.
End manager.

(* ===================================================================== *)
(** ** inflow/CreateInflowFileFromERARunoff.py                            *)
(* ===================================================================== *)

Module era.

(** The class attributes of lines 24-27. *)
Definition dims_oi : list (list string) :=
  [["lon"; "lat"; "time"]; ["longitude"; "latitude"; "time"];
   ["time"; "lon"; "lat"]; ["time"; "longitude"; "latitude"]]%string.

Definition vars_oi : list (list string) :=
  [["lon"; "lat"; "time"; "RO"]; ["time"; "lon"; "lat"; "ro"];
   ["time"; "lon"; "lat"; "RO"]; ["time"; "longitude"; "latitude"; "RO"];
   ["time"; "longitude"; "latitude"; "ro"];
   ["longitude"; "latitude"; "time"; "ro"];
   ["longitude"; "latitude"; "time"; "RO"]]%string.

(** What [data_validation] reads from a netCDF file: the names of its
    dimensions and of its variables, in the order of the file. *)
Record Dataset : Type := {
  dimensions : list string;
  variables : list string
}.

(** [self.runoff_vars] as [__init__] sets it (line 32). *)
Definition __init__ : list string := ["ro"%string].

(** [nc_vars == self.vars_oi[i]]. *)
Definition is_vars_oi (nc_vars : list string) (i : nat) : bool :=
  match vars_oi !! i with
  | Some v => bool_decide (nc_vars = v)
  | None => false
  end.

(** [[self.vars_oi[i][-1]]]. *)
Definition last_of_vars_oi (i : nat) : result (list string) :=
  let* v := np.item vars_oi i in
  let* x := np.item_last v in
  Ok [x].

Section Validation.

(** [error_messages] belongs to the parent class
    [CreateInflowFileFromGriddedRunoff], which is not among the sources:
    its value is a parameter. *)
Context (error_messages : list string).

(** A message made by ["{0} {1}".format(message, names)]; the names are
    carried as the arguments of a nested text. *)
Definition format_error (message : string) (names : list string) : exn :=
  Exception (Text "{0} {1}" [AStr message; AText (Text "%s" (map AStr names))]).

(** Lines 35-65.  [runoff_vars] is [self.runoff_vars]; it is returned as
    the call leaves it, also when the call raises. *)
Definition data_validation (fs : gmap string Dataset) (in_nc : string)
    (runoff_vars : list string) : list string * result unit :=
  match fs !! in_nc with
  | None => (runoff_vars, Raise (IOError in_nc))
  | Some data_nc =>
      let dims := dimensions data_nc in
      if negb (bool_decide (dims ∈ dims_oi)) then
        (runoff_vars,
         let* message := np.item error_messages 1 in
         Raise (format_error message dims))
      else
        let nc_vars := variables data_nc in
        let assign (i : nat) : list string * result unit :=
          match last_of_vars_oi i with
          | Ok v => (v, Ok tt)
          | Raise e => (runoff_vars, Raise e)
          end in
        if is_vars_oi nc_vars 0 then assign 0%nat
        else if is_vars_oi nc_vars 1 then assign 1%nat
        else if is_vars_oi nc_vars 2 then assign 2%nat
        else if is_vars_oi nc_vars 3 then assign 3%nat
        else if is_vars_oi nc_vars 4 then assign 4%nat
        else if is_vars_oi nc_vars 5 then assign 5%nat
        else if is_vars_oi nc_vars 6 then assign 6%nat
        else
          (runoff_vars,
           let* message := np.item error_messages 2 in
           Raise (format_error message nc_vars))
  end.

End Validation.
End era.

(* ===================================================================== *)
(** ** Auxiliary notions and concrete stores used by the properties       *)
(* ===================================================================== *)

(** What line 417 raises for the identifier [riv_bas_id]. *)
Definition not_found (riv_bas_id : Z) : exn :=
  Exception (Text "riv bas id %s not found in connectivity list." [AInt riv_bas_id]).

(** A dataset whose [Qout] is declared with dimensions [(Time, COMID)];
    flow values in [Z]. *)
Definition time_major (ids : list Z) (q : list (list Z)) : rapid.Dataset :=
  {| rapid.COMID := ids;
     rapid.Qout_dimensions := ["Time"; "COMID"]%string;
     rapid.Qout := q |}.

(** Does the leap-year branch of line 36 fire for the time step [t]? *)
Definition leap_adjusts (t : Z) : bool :=
  seasonal.isleap (seasonal.tm_year (seasonal.gmtime t)) &&
  (60 <? seasonal.tm_yday (seasonal.gmtime t)).

(** The window test of line 39 on the day of the year of [t] as
    [gmtime] gives it. *)
Definition in_window (day_of_year t : Z) : bool :=
  (day_of_year - 3 <=? seasonal.tm_yday (seasonal.gmtime t)) &&
  (seasonal.tm_yday (seasonal.gmtime t) <? day_of_year + 3).

(** An action that leaves the files on disk as they are. *)
Definition keeps_files {F A} (m : cf.IO (F := F) A) : Prop :=
  forall s, cf.fs (fst (m s)) = cf.fs s.

(** What [log] raises at line 307 for the identifier [nc_comid]. *)
Definition comid_missing (nc_comid : Z) : exn :=
  Exception (Text "%s: %s"
    [AStr "ERROR";
     AText (Text "COMID %s misssing in comid_lat_lon_z file" [AInt nc_comid])]).

(** What the handler of [convert] raises (lines 439-441) after the
    failure [e]. *)
Definition conversion_error (e : exn) : exn :=
  Exception (Text "%s: %s"
    [AStr "ERROR"; AText (Text "Conversion Error %s" [AText (str_exn e)])]).

(** A raw store: [ids] on the identifier dimension, [flow] declared with
    dimensions [(Time, COMID)], one row per time step. *)
Definition raw_store (ids : list Z) (flow : list (list Z)) : cf.ncfile (F := Z) :=
  {| cf.dimensions := {[ "COMID"%string := length ids;
                         "Time"%string := length flow ]};
     cf.variables :=
       {[ "COMID"%string := {| cf.var_dimensions := ["COMID"%string];
                               cf.var_data := cf.IntArr ids |};
          "Qout"%string := {| cf.var_dimensions := ["Time"; "COMID"]%string;
                              cf.var_data := cf.FloatMat flow |} ]};
     cf.attributes := ∅ |}.

(** A converter for the raw file [Qout_example.nc], starting
    2000-01-01T00:00:00Z with a daily step and no initial-flow file. *)
Definition converter (comid_lat_lon_z_file : string) : cf.ConvertRAPIDOutputToCF :=
  cf.__init__ "Qout_example.nc" 946684800 86400 "" comid_lat_lon_z_file
    "Example" "COMID" "Qout" false.

(** The output store as [_initialize_output] builds it when called with
    the four arguments it declares, with the identifiers copied in. *)
Definition output_store (ids : list Z) (time_len : nat) : cf.ncfile (F := Z) :=
  let s0 := {| cf.fs := ∅; cf.raw_nc := None; cf.cf_nc := None |} in
  let s1 := fst (cf._initialize_output 0 (-9999) "2000-01-01T00:00:00"
                   (converter "")
                   [cf.PyStr "COMID"; cf.PyInt (Z.of_nat time_len);
                    cf.PyInt (Z.of_nat (length ids)); cf.PyInt 86400] s0) in
  match cf.cf_nc s1 with
  | Some nc =>
      match cf.assign_variable "COMID" (cf.IntArr ids) nc with
      | Ok nc' => nc'
      | Raise _ => nc
      end
  | None => cf.empty_nc
  end.

(** No initial-flow file is read. *)
Definition no_qinit (path : string) : list (list Z) := [].

(** A lookup table with its header row and one data row, for 102. *)
Definition lookup_102 (path : string) : list (cf.lookup_row (F := Z)) :=
  [ {| cf.row_comid := 0; cf.row_lat := 0; cf.row_lon := 0; cf.row_z := 0 |};
    {| cf.row_comid := 102; cf.row_lat := 31; cf.row_lon := -97; cf.row_z := 150 |} ].

(** The first data row of the lookup table (the header row skipped)
    whose identifier is [c]. *)
Definition first_row_of {F} (lookup_table : list (cf.lookup_row (F := F))) (c : Z)
    (row : cf.lookup_row (F := F)) : Prop :=
  exists j, tail lookup_table !! j = Some row /\ cf.row_comid row = c /\
    forall j' row', (j' < j)%nat -> tail lookup_table !! j' = Some row' ->
                    cf.row_comid row' <> c.

(** [flt] orders the values as [<] orders the reals. *)
Definition strict_weak_order {F} (flt : F -> F -> bool) : Prop :=
  (forall x, flt x x = false) /\
  (forall x y z, flt x y = true -> flt y z = true -> flt x z = true) /\
  (forall x y z, flt x z = true -> flt x y = true \/ flt y z = true).

(** The attributes [attr_min] and [attr_max] are the least and the
    greatest of the values stored in [var]. *)
Definition bounded_by {F} (flt : F -> F -> bool) (nc : cf.ncfile (F := F))
    (var attr_min attr_max : string) : Prop :=
  exists vals lo hi,
    cf.read_floats nc var = Ok vals /\
    cf.attributes nc !! attr_min = Some (cf.AttrFloat lo) /\
    cf.attributes nc !! attr_max = Some (cf.AttrFloat hi) /\
    lo ∈ vals /\ hi ∈ vals /\
    forall y, y ∈ vals -> flt y lo = false /\ flt hi y = false.

(** A lookup table with its header row and data rows for 102 and,
    twice, for 101. *)
Definition lookup_both (path : string) : list (cf.lookup_row (F := Z)) :=
  [ {| cf.row_comid := 0; cf.row_lat := 0; cf.row_lon := 0; cf.row_z := 0 |};
    {| cf.row_comid := 102; cf.row_lat := 31; cf.row_lon := -97; cf.row_z := 150 |};
    {| cf.row_comid := 101; cf.row_lat := 30; cf.row_lon := -98; cf.row_z := 200 |};
    {| cf.row_comid := 101; cf.row_lat := 1; cf.row_lon := 2; cf.row_z := 3 |} ].

(** The output store for 101 and 102 after the enrichment with
    [lookup_both]. *)
Definition enriched_store : cf.ncfile (F := Z) :=
  match cf._write_comid_lat_lon_z Z.ltb lookup_both (converter "comid_lat_lon_z.csv")
          (output_store [101; 102] 3) with
  | Ok nc => nc
  | Raise _ => cf.empty_nc
  end.

(** A record of 365 identifiers with one time step, on 1970-01-01. *)
Definition one_step_365 : seasonal.RAPIDDataset (F := Z) :=
  {| seasonal.river_id_array := map Z.of_nat (seq 1 365);
     seasonal.time_array := [0];
     seasonal.qout := replicate 365 [7] |}.

(** The mean of a single value. *)
Definition head_or_zero (l : list Z) : Z := hd 0 l.

(** The seasonal store of [one_step_365] (fill value -1) after bin 1. *)
Definition bin_1_stored : seasonal.seasonal_nc (F := Z) :=
  {| seasonal.rivid := map Z.of_nat (seq 1 365);
     seasonal.average_flow := <[0%nat := replicate 365 7]> (replicate 365 (replicate 365 (-1)));
     seasonal.std_dev_flow := <[0%nat := replicate 365 0]> (replicate 365 (replicate 365 (-1))) |}.

(** Row [r] of the two arrays differs at some column. *)
Definition row_differs {F} (fne : F -> F -> bool) (a b : list (list F)) (r : nat)
    : Prop :=
  exists row_a row_b j x y,
    a !! r = Some row_a /\ b !! r = Some row_b /\
    row_a !! j = Some x /\ row_b !! j = Some y /\ fne x y = true.

(** A keyword that [update_parameters] accepts for the instance. *)
Definition valid_parameter (self : manager.RAPID) (key : string) : bool :=
  manager.in_dir self key && negb (manager.startswith key "_").

(** The instance after [setattr] for every keyword, in order. *)
Definition set_all (self : manager.RAPID) (kwargs : list (string * manager.value))
    : manager.RAPID :=
  foldl (fun self kv => manager.setattr self (fst kv) (snd kv)) self kwargs.

(** The instance [self'] differs from [self] only in public attributes
    that [self] holds with a false value. *)
Definition fills_unset_only (self self' : manager.RAPID) : Prop :=
  dom self' = dom self /\
  forall attr v, self !! attr = Some v ->
    manager.truthy v = true \/ manager.startswith attr "_" = true ->
    self' !! attr = Some v.

(** No character of [s] is whitespace. *)
Fixpoint no_whitespace (s : string) : bool :=
  match s with
  | EmptyString => true
  | String c rest => negb (manager.isspace c) && no_whitespace rest
  end.

(** [x != y] on integers. *)
Definition Z_ne (x y : Z) : bool := negb (Z.eqb x y).

(** The connectivity table of two reaches and the basin table, as
    [csv_to_list] gives them, and the numbers in their cells. *)
Definition example_csv_to_list (path : manager.value) : result (list (list string)) :=
  match path with
  | manager.VStr "rapid_connect.csv" =>
      Ok [["10"; "20"; "1"; "0"]; ["20"; "0"; "3"; "10"]]%string
  | manager.VStr "riv_bas_id.csv" => Ok [["10"]; ["20"]]%string
  | manager.VStr p => Raise (IOError p)
  | _ => Raise (TypeError "coercing to Unicode: need string or buffer")
  end.

Definition example_int_of_float (cell : string) : result Z :=
  match cell with
  | "0"%string => Ok 0
  | "1"%string => Ok 1
  | "3"%string => Ok 3
  | "10"%string => Ok 10
  | "20"%string => Ok 20
  | _ => Raise (ValueError "could not convert string to float")
  end.

(** A manager with the two tables named. *)
Definition example_manager : manager.RAPID :=
  set_all (list_to_map manager.defaults)
    [("rapid_connect_file", manager.VStr "rapid_connect.csv");
     ("riv_bas_id_file", manager.VStr "riv_bas_id.csv")]%string.



(** The public methods of [RAPID]. *)
Definition public_methods : list string :=
  ["compare_qout_files"; "generate_namelist_file";
   "generate_qinit_from_past_qout"; "generate_usgs_avg_daily_flows_opt";
   "make_output_CF_compliant"; "run"; "update_namelist_file";
   "update_parameters"; "update_reach_number_data"]%string.

(** [os.path.join] off Windows, for a relative second path. *)
Definition posix_join (a b : string) : string :=
  if String.eqb a "" then b else (a +:+ "/" +:+ b)%string.

(** No path exists. *)
Definition nothing_exists (path : string) : bool := false.

(** A store of two reaches and the connectivity file of three. *)
Definition example_Dataset (path : string) : result (rapid.Dataset (F := Z)) :=
  if String.eqb path "Qout.nc" then Ok (time_major [20; 10] [[1; 2]; [3; 4]])
  else Raise (IOError path).

(** The connectivity file, as [csv_to_list] gives it. *)
Definition example_connectivity (path : manager.value)
    : result (list (list string)) :=
  match path with
  | manager.VStr "rapid_connect.csv" =>
      Ok [["10"; "20"; "1"]; ["20"; "0"; "3"]; ["3"; "0"; "0"]]%string
  | manager.VStr p => Raise (IOError p)
  | _ => Raise (TypeError "coercing to Unicode: need string or buffer")
  end.

(** A manager with the store and the connectivity file named. *)
Definition qinit_manager : manager.RAPID :=
  set_all (list_to_map manager.defaults)
    [("Qout_file", manager.VStr "Qout.nc");
     ("rapid_connect_file", manager.VStr "rapid_connect.csv")]%string.

(* ===================================================================== *)
(** * Properties                                                          *)
(* ===================================================================== *)

(** Closes a decidable proposition on concrete data by evaluation. *)
Ltac decide_true := apply (bool_decide_unpack _); vm_compute; exact I.

(** ** The identifier reindexer ([np.where(arr == x)[0][0]]) *)

Lemma where_from_shift (i : nat) (mask : list bool) :
  np.where_from (S i) mask = map S (np.where_from i mask).
Proof.
  revert i. induction mask as [|b mask IH]; intros i; simpl; [reflexivity|].
  destruct b; simpl; rewrite IH; reflexivity.
Qed.

Lemma first_index_cons (a : Z) (arr : list Z) (x : Z) :
  rapid.first_index (a :: arr) x =
  if Z.eqb a x then Ok 0%nat
  else let* j := rapid.first_index arr x in Ok (S j).
Proof.
  unfold rapid.first_index, np.where_, np.eq_scalar. simpl.
  destruct (Z.eqb a x); [reflexivity|].
  rewrite where_from_shift.
  destruct (np.where_from 0 (map (fun a0 => Z.eqb a0 x) arr)); reflexivity.
Qed.

Lemma first_index_absent (arr : list Z) (x : Z) :
  x ∉ arr ->
  rapid.first_index arr x =
  Raise (IndexError "index 0 is out of bounds for axis 0 with size 0").
Proof.
  induction arr as [|a arr IH]; intros Hx; [reflexivity|].
  rewrite first_index_cons.
  apply not_elem_of_cons in Hx as [Hne Hx].
  destruct (Z.eqb_spec a x); [congruence|].
  rewrite (IH Hx). reflexivity.
Qed.

Lemma first_index_present (arr : list Z) (x : Z) :
  x ∈ arr ->
  exists j, rapid.first_index arr x = Ok j /\ arr !! j = Some x.
Proof.
  induction arr as [|a arr IH]; intros Hx; [by apply elem_of_nil in Hx|].
  rewrite first_index_cons.
  destruct (Z.eqb_spec a x) as [->|Hne].
  - exists 0%nat. split; reflexivity.
  - apply elem_of_cons in Hx as [Heq|Hx]; [congruence|].
    destruct (IH Hx) as (j & Hj & Hl). rewrite Hj. simpl.
    exists (S j). split; [reflexivity | exact Hl].
Qed.

Lemma first_index_NoDup (arr : list Z) (j : nat) (x : Z) :
  NoDup arr -> arr !! j = Some x -> rapid.first_index arr x = Ok j.
Proof.
  intros Hnd Hj.
  destruct (first_index_present arr x) as (k & Hk & Hl).
  { eapply list_elem_of_lookup_2; eauto. }
  rewrite Hk. f_equal. eapply NoDup_lookup; eauto.
Qed.

Lemma mapM_first_index_suffix (pre ids : list Z) :
  NoDup (pre ++ ids) ->
  mapM (rapid.first_index (pre ++ ids)) ids = Ok (seq (length pre) (length ids)).
Proof.
  revert pre. induction ids as [|x ids IH]; intros pre Hnd; [reflexivity|].
  simpl.
  rewrite (first_index_NoDup (pre ++ x :: ids) (length pre) x Hnd).
  2:{ rewrite lookup_app_r by lia. by rewrite Nat.sub_diag. }
  simpl.
  specialize (IH (pre ++ [x])).
  rewrite <- app_assoc in IH. simpl in IH.
  rewrite IH by exact Hnd.
  simpl. rewrite length_app. simpl.
  replace (length pre + 1)%nat with (S (length pre)) by lia. reflexivity.
Qed.

Lemma reindex_self (ids : list Z) :
  NoDup ids -> rapid.reindex ids ids = Ok (seq 0 (length ids)).
Proof.
  intros Hnd. exact (mapM_first_index_suffix [] ids Hnd).
Qed.

Lemma reindex_missing (source target : list Z) (id : Z) :
  id ∈ target -> id ∉ source ->
  rapid.reindex source target =
  Raise (IndexError "index 0 is out of bounds for axis 0 with size 0").
Proof.
  unfold rapid.reindex.
  induction target as [|t target IH]; intros Hin Hout;
    [by apply elem_of_nil in Hin|].
  simpl.
  destruct (decide (t ∈ source)) as [Ht|Ht].
  - destruct (first_index_present source t Ht) as (j & Hj & _).
    rewrite Hj. simpl.
    apply elem_of_cons in Hin as [->|Hin]; [contradiction|].
    rewrite (IH Hin Hout). reflexivity.
  - rewrite (first_index_absent source t Ht). reflexivity.
Qed.

Section RapidProps.
Context {F : Type} (fzero : F).

Lemma reorder_step_found (stream : list Z) (vals acc : list F)
    (i j : nat) (r : Z) (v : F) :
  rapid.first_index stream r = Ok j -> vals !! i = Some v ->
  (j < length acc)%nat ->
  rapid.reorder_step stream vals acc i r = Ok (<[j := v]> acc).
Proof.
  intros Hj Hv Hlt. unfold rapid.reorder_step, np.item, np.setitem.
  rewrite Hj. simpl. rewrite Hv. simpl.
  destruct (decide (j < length acc)%nat); [reflexivity | contradiction].
Qed.

Lemma reorder_step_absent (stream : list Z) (vals acc : list F) (i : nat) (r : Z) :
  r ∉ stream ->
  rapid.reorder_step stream vals acc i r = Raise (not_found r).
Proof.
  intros Hr. unfold rapid.reorder_step.
  rewrite (first_index_absent stream r Hr). reflexivity.
Qed.

Lemma reorder_fold_ok (stream : list Z) (vals : list F) :
  forall (rivs : list Z) (i : nat) (acc : list F),
    length acc = length stream ->
    (forall id, id ∈ rivs -> id ∈ stream) ->
    (i + length rivs <= length vals)%nat ->
    exists out,
      foldM_from (rapid.reorder_step stream vals) i rivs acc = Ok out /\
      length out = length stream /\
      (forall j id, stream !! j = Some id -> id ∉ rivs -> out !! j = acc !! j) /\
      (NoDup stream -> NoDup rivs ->
       forall k j id, rivs !! k = Some id -> stream !! j = Some id ->
                      out !! j = vals !! (i + k)%nat).
Proof.
  induction rivs as [|r rivs IH]; intros i acc Hlen Hin Hvals.
  - exists acc. split; [reflexivity|]. split; [exact Hlen|].
    split; [reflexivity|]. intros _ _ k j id Hk. by rewrite lookup_nil in Hk.
  - simpl in Hvals.
    destruct (first_index_present stream r) as (j0 & Hj0 & Hs0).
    { apply Hin. left. }
    destruct (lookup_lt_is_Some_2 vals i) as [v Hv]; [lia|].
    assert (Hlt : (j0 < length acc)%nat).
    { rewrite Hlen. eapply lookup_lt_Some; eauto. }
    destruct (IH (S i) (<[j0 := v]> acc)) as (out & Hout & Hlo & Hkeep & Hput).
    { by rewrite length_insert. }
    { intros id Hid. apply Hin. by right. }
    { lia. }
    exists out. simpl.
    rewrite (reorder_step_found stream vals acc i j0 r v Hj0 Hv Hlt). simpl.
    split; [exact Hout|]. split; [exact Hlo|]. split.
    + intros j id Hj Hnot.
      apply not_elem_of_cons in Hnot as [Hne Hnot].
      rewrite (Hkeep j id Hj Hnot).
      apply list_lookup_insert_ne. intros ->. congruence.
    + intros Hnds Hndr k j id Hk Hj.
      apply NoDup_cons in Hndr as [Hr Hndr].
      destruct k as [|k]; simpl in Hk.
      * injection Hk as <-.
        assert (j = j0) as -> by exact (NoDup_lookup stream j j0 r Hnds Hj Hs0).
        rewrite (Hkeep j0 r Hs0 Hr).
        rewrite list_lookup_insert_eq by exact Hlt.
        rewrite Nat.add_0_r. by rewrite Hv.
      * rewrite (Hput Hnds Hndr k j id Hk Hj). f_equal. lia.
Qed.

Lemma reorder_fold_missing (stream : list Z) (vals : list F) :
  forall (rivs : list Z) (i : nat) (acc : list F),
    length acc = length stream ->
    (i + length rivs <= length vals)%nat ->
    (exists id, id ∈ rivs /\ id ∉ stream) ->
    exists id', id' ∈ rivs /\ (id' ∉ stream) /\
      foldM_from (rapid.reorder_step stream vals) i rivs acc = Raise (not_found id').
Proof.
  induction rivs as [|r rivs IH]; intros i acc Hlen Hvals (id & Hid & Hmiss).
  - by apply elem_of_nil in Hid.
  - simpl in Hvals. simpl.
    destruct (decide (r ∈ stream)) as [Hr|Hr].
    + destruct (first_index_present stream r Hr) as (j0 & Hj0 & Hs0).
      destruct (lookup_lt_is_Some_2 vals i) as [v Hv]; [lia|].
      assert (Hlt : (j0 < length acc)%nat).
      { rewrite Hlen. eapply lookup_lt_Some; eauto. }
      rewrite (reorder_step_found stream vals acc i j0 r v Hj0 Hv Hlt). simpl.
      destruct (IH (S i) (<[j0 := v]> acc)) as (id' & Hin' & Hout' & Hraise).
      { by rewrite length_insert. }
      { lia. }
      { exists id. split; [|exact Hmiss].
        apply elem_of_cons in Hid as [->|Hid]; [contradiction | exact Hid]. }
      exists id'. split; [by right|]. split; [exact Hout' | exact Hraise].
    + exists r. split; [by left|]. split; [exact Hr|].
      by rewrite (reorder_step_absent stream vals acc i r Hr).
Qed.

End RapidProps.

Section RapidClaims.
Context {F : Type} (fzero : F).

(** The reindexer on sequences.  Resolving a sequence of unique
    identifiers against itself gives the identity permutation, position
    [j] to [j].  A target identifier that the source lacks aborts the
    reordering with an error and no partial result:
    [generate_qinit_from_past_qout] raises an exception that names a
    missing identifier, while the loop of [compare_qout_files] lets
    numpy's index error through, which names none. *)
Lemma reindexer_contract (ids source target : list Z) (id : Z)
    (data_values : list F) :
  NoDup ids -> id ∈ target -> id ∉ source ->
  length data_values = length target ->
  rapid.reindex ids ids = Ok (seq 0 (length ids)) /\
  (exists e, rapid.reindex source target = Raise e /\
             forall x, names_identifier e x = false) /\
  (exists id', id' ∈ target /\ (id' ∉ source) /\
     rapid.reorder_init_flows fzero source target data_values
       = Raise (not_found id') /\
     names_identifier (not_found id') id' = true).
Proof.
  intros Hnd Hin Hout Hlen. split; [by apply reindex_self|]. split.
  - eexists. split; [by eapply reindex_missing|]. reflexivity.
  - unfold rapid.reorder_init_flows, for_enumerate.
    destruct (reorder_fold_missing source data_values target 0
                (replicate (length source) fzero))
      as (id' & Hin' & Hout' & Hraise).
    { by rewrite length_replicate. }
    { simpl. lia. }
    { exists id. split; assumption. }
    exists id'. split; [exact Hin'|]. split; [exact Hout'|].
    split; [exact Hraise|].
    simpl. by rewrite Z.eqb_refl.
Qed.

(** C10.  The initial-flow file has one value per row of the
    connectivity file, in that file's row order.  When every identifier
    of the output store is in the connectivity file the operation
    succeeds, a connectivity identifier that the store lacks gets 0, and
    (identifiers being unique) the row of a shared identifier gets that
    identifier's last flow value.  When an identifier of the store is
    absent from the connectivity file the operation aborts. *)
Theorem generate_qinit_contract (Qout_file : string) (data_nc : rapid.Dataset)
    (stream_id_array : list Z) (data_values : list F) :
  rapid.last_time_step_values Qout_file data_nc = Ok data_values ->
  length data_values = length (rapid.COMID data_nc) ->
  ((forall id, id ∈ rapid.COMID data_nc -> id ∈ stream_id_array) ->
   exists init_flows,
     rapid.generate_qinit_from_past_qout fzero Qout_file data_nc stream_id_array
       = Ok init_flows /\
     length init_flows = length stream_id_array /\
     (forall j id, stream_id_array !! j = Some id ->
                   id ∉ rapid.COMID data_nc -> init_flows !! j = Some fzero) /\
     (NoDup stream_id_array -> NoDup (rapid.COMID data_nc) ->
      forall i j id, rapid.COMID data_nc !! i = Some id ->
                     stream_id_array !! j = Some id ->
                     init_flows !! j = data_values !! i)) /\
  ((exists id, id ∈ rapid.COMID data_nc /\ id ∉ stream_id_array) ->
   exists id', id' ∈ rapid.COMID data_nc /\ (id' ∉ stream_id_array) /\
     rapid.generate_qinit_from_past_qout fzero Qout_file data_nc stream_id_array
       = Raise (not_found id')).
Proof.
  intros Hvals Hlen.
  unfold rapid.generate_qinit_from_past_qout. rewrite Hvals. simpl.
  unfold rapid.reorder_init_flows, for_enumerate. split.
  - intros Hsub.
    destruct (reorder_fold_ok stream_id_array data_values (rapid.COMID data_nc) 0
                (replicate (length stream_id_array) fzero))
      as (out & Hout & Hlo & Hkeep & Hput).
    { by rewrite length_replicate. }
    { exact Hsub. }
    { simpl. lia. }
    exists out. split; [exact Hout|]. split; [exact Hlo|]. split.
    + intros j id Hj Hnot. rewrite (Hkeep j id Hj Hnot).
      apply lookup_replicate_2. eapply lookup_lt_Some; eauto.
    + intros Hnds Hndr i j id Hi Hj.
      exact (Hput Hnds Hndr i j id Hi Hj).
  - intros Hmiss.
    apply reorder_fold_missing; [by rewrite length_replicate | simpl; lia | exact Hmiss].
Qed.

End RapidClaims.

(** ** [compare_qout_files] on concrete datasets (flow values in [Z]) *)

Lemma reindexer_contract_witness :
  rapid.reindex [4; 9; 2] [4; 9; 2] = Ok (seq 0 3) /\
  (exists e, rapid.reindex [7] [5] = Raise e /\
             forall x, names_identifier e x = false) /\
  (exists id', id' ∈ [5] /\ (id' ∉ [7]) /\
     rapid.reorder_init_flows 0 [7] [5] [11] = Raise (not_found id') /\
     names_identifier (not_found id') id' = true).
Proof.
  apply (reindexer_contract 0 [4; 9; 2] [7] [5] 5 [11]);
    [decide_true | decide_true | decide_true | reflexivity].
Defined.

(** C8, the code at the failing input: in [compare_qout_files] the
    identifier 5 of the first dataset is absent from the second one, and
    the error that aborts the comparison names no identifier, where the
    lookup of [generate_qinit_from_past_qout] names the one it misses. *)
Theorem reindexer_error_names_no_identifier :
  (5 ∉ rapid.COMID (time_major [1; 7] [[10; 20]])) /\
  (exists e,
     rapid.compare_qout_files (time_major [1; 5] [[10; 20]])
                              (time_major [1; 7] [[10; 20]]) = Raise e /\
     forall id, names_identifier e id = false) /\
  rapid.reorder_init_flows 0 [1; 7] [1; 5] [10; 20] = Raise (not_found 5) /\
  names_identifier (not_found 5) 5 = true.
Proof.
  split; [decide_true|]. split.
  - eexists. split; [vm_compute; reflexivity|]. reflexivity.
  - split; reflexivity.
Qed.

Lemma generate_qinit_contract_witness :
  (exists init_flows,
     rapid.generate_qinit_from_past_qout 0 "Qout.nc"
       (time_major [5; 1] [[1; 2]; [3; 4]]) [1; 2; 5] = Ok init_flows /\
     length init_flows = 3%nat /\
     init_flows !! 1%nat = Some 0) /\
  (exists id', (id' ∈ [5; 8]) /\
     rapid.generate_qinit_from_past_qout 0 "Qout.nc"
       (time_major [5; 8] [[1; 2]; [3; 4]]) [1; 2; 5] = Raise (not_found id')).
Proof.
  split.
  - destruct (generate_qinit_contract 0 "Qout.nc"
                (time_major [5; 1] [[1; 2]; [3; 4]]) [1; 2; 5] [3; 4]
                eq_refl eq_refl) as [Hok _].
    destruct Hok as (out & Hout & Hlen & Hzero & _).
    { apply (proj1 (Forall_forall _ _)). decide_true. }
    exists out. split; [exact Hout|]. split; [exact Hlen|].
    apply (Hzero 1%nat 2); [reflexivity | decide_true].
  - destruct (generate_qinit_contract 0 "Qout.nc"
                (time_major [5; 8] [[1; 2]; [3; 4]]) [1; 2; 5] [3; 4]
                eq_refl eq_refl) as [_ Hmiss].
    destruct Hmiss as (id' & Hin & _ & Hraise).
    { exists 8. split; decide_true. }
    exists id'. split; [exact Hin | exact Hraise].
Defined.

(** The guard of line 529 sends the run to the reordering branch exactly
    when [np.unique(a != b).all()] is false; for two arrays whose shapes
    neither agree nor broadcast the comparison is the scalar [True] and
    the branch, with its length check, is skipped. *)
Lemma compare_skips_branch {F : Type} (d1 d2 : rapid.Dataset (F := F)) :
  np.all (np.unique (np.ne (rapid.COMID d1) (rapid.COMID d2))) = true ->
  rapid.compare_qout_files d1 d2 =
  Ok {| rapid.d2_reordered_comid_list := None;
        rapid.d2_reordered_qout := rapid.Qout d2 |}.
Proof.
  intros H. unfold rapid.compare_qout_files. rewrite H. reflexivity.
Qed.

(** C9, the code at the failing inputs: the identifier arrays differ in
    order and in length, no exception is raised and the flow values of
    the second dataset go to the comparison as they are. *)
Theorem compare_qout_files_misses_length_check :
  rapid.compare_qout_files (time_major [1] [[10]]) (time_major [2; 3] [[20; 30]])
    = Ok {| rapid.d2_reordered_comid_list := None;
            rapid.d2_reordered_qout := [[20; 30]] |} /\
  rapid.compare_qout_files (time_major [1; 2] [[10; 20]])
                           (time_major [2; 1; 3] [[20; 10; 30]])
    = Ok {| rapid.d2_reordered_comid_list := None;
            rapid.d2_reordered_qout := [[20; 10; 30]] |}.
Proof.
  split; apply compare_skips_branch; reflexivity.
Qed.

(** ** The seasonal aggregator *)

(** [gmtime] on known dates. *)
Example gmtime_epoch : seasonal.gmtime 0 = {| seasonal.tm_year := 1970; seasonal.tm_yday := 1 |}.
Proof. reflexivity. Qed.
Example gmtime_2000_03_01 : seasonal.gmtime 951868800 = {| seasonal.tm_year := 2000; seasonal.tm_yday := 61 |}.
Proof. reflexivity. Qed.
Example gmtime_2000_02_29 : seasonal.gmtime 951782400 = {| seasonal.tm_year := 2000; seasonal.tm_yday := 60 |}.
Proof. reflexivity. Qed.
Example gmtime_2000_12_31 : seasonal.gmtime 978220800 = {| seasonal.tm_year := 2000; seasonal.tm_yday := 366 |}.
Proof. reflexivity. Qed.
Example gmtime_2001_12_31 : seasonal.gmtime 1009756800 = {| seasonal.tm_year := 2001; seasonal.tm_yday := 365 |}.
Proof. reflexivity. Qed.
Example gmtime_1969_12_31 : seasonal.gmtime (-1) = {| seasonal.tm_year := 1969; seasonal.tm_yday := 365 |}.
Proof. reflexivity. Qed.
Example gmtime_2001_03_01 : seasonal.gmtime 983404800 = {| seasonal.tm_year := 2001; seasonal.tm_yday := 60 |}.
Proof. reflexivity. Qed.

Lemma select_step_leap (min_day max_day : Z) (acc : list nat) (idx : nat) (t : Z) :
  leap_adjusts t = true ->
  seasonal.select_step min_day max_day acc idx t
    = Raise (TypeError "readonly attribute").
Proof.
  unfold leap_adjusts, seasonal.select_step. intros ->. reflexivity.
Qed.

Lemma select_step_no_leap (min_day max_day : Z) (acc : list nat) (idx : nat)
    (t : Z) :
  leap_adjusts t = false ->
  seasonal.select_step min_day max_day acc idx t
    = Ok (if (min_day <=? seasonal.tm_yday (seasonal.gmtime t)) &&
             (seasonal.tm_yday (seasonal.gmtime t) <? max_day)
          then acc ++ [idx] else acc).
Proof.
  unfold leap_adjusts, seasonal.select_step. intros ->. simpl.
  destruct (_ && _); reflexivity.
Qed.

Lemma select_step_plain (d : Z) (acc : list nat) (idx : nat) (t : Z) :
  leap_adjusts t = false ->
  seasonal.select_step (d - 3) (d + 3) acc idx t
    = Ok (if in_window d t then acc ++ [idx] else acc).
Proof.
  intros Ht. by rewrite (select_step_no_leap _ _ _ _ _ Ht).
Qed.

Lemma select_fold_plain (d : Z) :
  forall (times : list Z) (i : nat) (acc : list nat),
    Forall (fun t => leap_adjusts t = false) times ->
    foldM_from (seasonal.select_step (d - 3) (d + 3)) i times acc
      = Ok (acc ++ np.where_from i (map (in_window d) times)).
Proof.
  induction times as [|t times IH]; intros i acc Hall; simpl.
  - by rewrite app_nil_r.
  - apply Forall_cons in Hall as [Ht Hall].
    rewrite (select_step_plain d acc i t Ht). simpl.
    rewrite (IH (S i) _ Hall).
    destruct (in_window d t); [by rewrite <- app_assoc | reflexivity].
Qed.

Lemma select_fold_leap (min_day max_day : Z) :
  forall (times : list Z) (i : nat) (acc : list nat),
    Exists (fun t => leap_adjusts t = true) times ->
    foldM_from (seasonal.select_step min_day max_day) i times acc
      = Raise (TypeError "readonly attribute").
Proof.
  induction times as [|t times IH]; intros i acc Hex.
  - by apply Exists_nil in Hex.
  - simpl. destruct (leap_adjusts t) eqn:Ht.
    + by rewrite (select_step_leap _ _ _ _ _ Ht).
    + apply Exists_cons in Hex as [Hex|Hex]; [congruence|].
      rewrite (select_step_no_leap _ _ _ _ _ Ht). simpl.
      apply IH. exact Hex.
Qed.

(** On a record none of whose steps takes the leap-year branch, the bin
    [d] gets exactly the steps whose day of the year [y] has
    [d - 3 <= y < d + 3]. *)
Lemma select_time_indices_plain (times : list Z) (d : Z) :
  Forall (fun t => leap_adjusts t = false) times ->
  seasonal.select_time_indices times d =
  match np.where_ (map (in_window d) times) with
  | [] => Raise (IndexError "No time steps found within range ...")
  | l => Ok l
  end.
Proof.
  intros Hall. unfold seasonal.select_time_indices, for_enumerate.
  rewrite (select_fold_plain d times 0 [] Hall). simpl.
  unfold np.where_. destruct (np.where_from 0 _); reflexivity.
Qed.

(** A record with one step in a leap year after day 60 stops every
    bin. *)
Lemma select_time_indices_leap (times : list Z) (d : Z) :
  Exists (fun t => leap_adjusts t = true) times ->
  seasonal.select_time_indices times d = Raise (TypeError "readonly attribute").
Proof.
  intros Hex. unfold seasonal.select_time_indices, for_enumerate.
  by rewrite (select_fold_leap _ _ times 0 [] Hex).
Qed.

(** C4, the code at the failing input: the step 2000-03-01T00:00:00Z is
    day 61 of a leap year; the assignment that should move it to day 60
    raises, for every bin. *)
Theorem leap_day_adjustment_raises :
  seasonal.gmtime 951868800
    = {| seasonal.tm_year := 2000; seasonal.tm_yday := 61 |} /\
  seasonal.isleap 2000 = true /\
  forall day_of_year,
    seasonal.select_time_indices [951868800] day_of_year
      = Raise (TypeError "readonly attribute").
Proof.
  split; [reflexivity|]. split; [reflexivity|].
  intros d. apply select_time_indices_leap. left. reflexivity.
Qed.

(** C5, the code at the failing input: the record holds 2000-01-01 (day
    1, inside the window of bin 1) and 2000-03-01; the first step does
    not reach bin 1, the selection raises on the second one. *)
Theorem window_membership_lost_on_leap_record :
  in_window 1 946684800 = true /\
  leap_adjusts 946684800 = false /\
  seasonal.select_time_indices [946684800; 951868800] 1
    = Raise (TypeError "readonly attribute").
Proof.
  split; [reflexivity|]. split; [reflexivity|].
  apply select_time_indices_leap. right. left. reflexivity.
Qed.

(** Where the write of line 52 succeeds, the values computed for all the
    identifiers make up the row [day_of_year - 1] along the identifier
    axis: there are 365 of them, or a single one, which fills the row;
    the other rows are left as they were. *)
Lemma nc_setitem_first_row {F : Type} (var : list (list F)) (day_of_year : Z)
    (data : list F) (var' : list (list F)) :
  1 <= day_of_year ->
  seasonal.nc_setitem_first var (day_of_year - 1) data = Ok var' ->
  (Z.to_nat (day_of_year - 1) < length var)%nat /\
  ((length data = 365%nat /\ var' !! Z.to_nat (day_of_year - 1) = Some data) \/
   (exists x, data = [x] /\
      var' !! Z.to_nat (day_of_year - 1) = Some (replicate 365 x))) /\
  forall r, r <> Z.to_nat (day_of_year - 1) -> var' !! r = var !! r.
Proof.
  intros Hd. unfold seasonal.nc_setitem_first.
  destruct (Z.ltb_spec (day_of_year - 1) 0) as [|_]; [lia|].
  destruct (_ && _) eqn:Hrange; [|discriminate].
  assert (Z.to_nat (day_of_year - 1) < length var)%nat as Hin.
  { apply andb_true_iff in Hrange as [H0 H1].
    apply Z.leb_le in H0. apply Z.ltb_lt in H1. lia. }
  intros Hset. split; [exact Hin|]. revert Hset.
  destruct (Nat.eqb_spec (length data) seasonal.day_of_year_len) as [Hlen|Hlen].
  - intros [= <-]. split.
    + left. split; [exact Hlen | by apply list_lookup_insert_eq].
    + intros r Hr. by apply list_lookup_insert_ne.
  - destruct data as [|x [|y data]]; try discriminate.
    intros [= <-]. split.
    + right. exists x. split; [reflexivity | by apply list_lookup_insert_eq].
    + intros r Hr. by apply list_lookup_insert_ne.
Qed.

(** C6, the code at the failing input: two identifiers, one time step on
    1970-01-01, bins 1 and 3.  The two means are sent to row 0 of the
    identifier axis, which holds 365 values, and bin 3 asks for a third
    identifier row; both writes raise. *)
Theorem seasonal_statistics_misplaced (np_mean np_std : list Z -> Z) (nc_fill : Z) :
  let qout_nc_file :=
    {| seasonal.river_id_array := [101; 102];
       seasonal.time_array := [0];
       seasonal.qout := [[7]; [9]] |} in
  let store := seasonal.setup_seasonal_average_file nc_fill qout_nc_file in
  seasonal.generate_single_seasonal_average np_mean np_std qout_nc_file 1 store
    = Raise (IndexError "size of data array does not conform to slice") /\
  seasonal.generate_single_seasonal_average np_mean np_std qout_nc_file 3 store
    = Raise (IndexError "index exceeds dimension bounds").
Proof.
  split; reflexivity.
Qed.

(** ** The CF converter: file names *)

Lemma rfind_from_lower (c : ascii) (p : list ascii) :
  forall i, 0 <= i -> -1 <= cf.rfind_from i c p.
Proof.
  induction p as [|x p IH]; intros i Hi; simpl; [lia|].
  specialize (IH (i + 1) ltac:(lia)).
  destruct (0 <=? cf.rfind_from (i + 1) c p); [lia|].
  destruct (Ascii.eqb x c); lia.
Qed.

Lemma rfind_from_found (c : ascii) (p : list ascii) :
  forall i, 0 <= i -> 0 <= cf.rfind_from i c p ->
    i <= cf.rfind_from i c p /\
    p !! Z.to_nat (cf.rfind_from i c p - i) = Some c.
Proof.
  induction p as [|x p IH]; intros i Hi; simpl; [lia|].
  specialize (IH (i + 1) ltac:(lia)).
  destruct (Z.leb_spec 0 (cf.rfind_from (i + 1) c p)) as [Hk|Hk].
  - intros _. destruct (IH Hk) as [Hle Hl]. split; [lia|].
    replace (Z.to_nat (cf.rfind_from (i + 1) c p - i))
      with (S (Z.to_nat (cf.rfind_from (i + 1) c p - (i + 1)))) by lia.
    exact Hl.
  - destruct (Ascii.eqb_spec x c) as [->|Hne]; [|lia].
    intros _. split; [lia|]. by rewrite Z.sub_diag.
Qed.

Lemma splitext_list_spec (p root ext : list ascii) :
  cf.splitext_list p = (root, ext) ->
  p = root ++ ext /\ (ext = [] \/ exists r, ext = "."%char :: r).
Proof.
  unfold cf.splitext_list, cf.rfind.
  destruct (_ && _) eqn:Hc.
  - intros [= <- <-]. split; [by rewrite take_drop|]. right.
    apply andb_true_iff in Hc as [Hlt _]. apply Z.ltb_lt in Hlt.
    pose proof (rfind_from_lower "/" p 0 ltac:(lia)) as Hsep.
    destruct (rfind_from_found "." p 0 ltac:(lia) ltac:(lia)) as [_ Hl].
    rewrite Z.sub_0_r in Hl.
    exists (drop (S (Z.to_nat (cf.rfind_from 0 "." p))) p).
    by apply drop_S.
  - intros [= <- <-]. split; [by rewrite app_nil_r | by left].
Qed.

Lemma list_ascii_of_string_append (a b : string) :
  String.list_ascii_of_string (a +:+ b) =
  String.list_ascii_of_string a ++ String.list_ascii_of_string b.
Proof.
  induction a as [|c a IH]; simpl; [reflexivity|]. by rewrite IH.
Qed.

(** The name of the output file is never the name of the raw file. *)
Lemma cf_file_is_not_raw_file (p : string) :
  (fst (cf.splitext p) +:+ "_CF.nc")%string <> p.
Proof.
  unfold cf.splitext.
  destruct (cf.splitext_list (String.list_ascii_of_string p)) as [root ext] eqn:E.
  simpl. intros H.
  apply splitext_list_spec in E as [Hp Hext].
  apply (f_equal String.list_ascii_of_string) in H.
  rewrite list_ascii_of_string_append, String.list_ascii_of_string_of_list_ascii,
    Hp in H.
  apply app_inv_head in H. subst ext.
  destruct Hext as [Hnil | [r Hdot]]; [discriminate Hnil | discriminate Hdot].
Qed.

(** The arithmetic of line 405 on its own: for a non-zero step [s] and
    [n] steps, [np.arange(start, start + s * n, s)] is
    [start, start + s, ..., start + (n - 1) * s]. *)
Lemma arange_uniform (start s : Z) (n : nat) :
  s <> 0 ->
  np.arange start (start + s * Z.of_nat n) s
    = Ok (map (fun k => start + Z.of_nat k * s) (seq 0 n)).
Proof.
  intros Hs. unfold np.arange, np.arange_len.
  destruct (Z.eqb_spec s 0) as [|_]; [contradiction|].
  replace (start - (start + s * Z.of_nat n)) with ((- Z.of_nat n) * s) by lia.
  rewrite Z.div_mul by exact Hs.
  replace (Z.to_nat (Z.max 0 (- - Z.of_nat n))) with n by lia.
  reflexivity.
Qed.

(** ** The CF converter: [convert] *)

Section ConvertProps.
Context {F : Type} (fzero coord_fill nc_fill : F) (flt : F -> F -> bool).
Context (csv_to_list_lookup : string -> list (cf.lookup_row (F := F)))
        (csv_to_list_qinit : string -> list (list F))
        (utcnow : string).

Abbreviation convert_body :=
  (cf.convert_body fzero coord_fill nc_fill flt csv_to_list_lookup
     csv_to_list_qinit utcnow).
Abbreviation convert :=
  (cf.convert fzero coord_fill nc_fill flt csv_to_list_lookup
     csv_to_list_qinit utcnow).

Lemma keeps_ret {A} (a : A) : keeps_files (F := F) (cf.ret a).
Proof. intros s. reflexivity. Qed.

Lemma keeps_raise {A} (e : exn) : keeps_files (F := F) (cf.raise (A := A) e).
Proof. intros s. reflexivity. Qed.

Lemma keeps_lift {A} (r : result A) : keeps_files (F := F) (cf.lift r).
Proof. intros s. reflexivity. Qed.

Lemma keeps_bind {A B} (m : cf.IO (F := F) A) (k : A -> cf.IO (F := F) B) :
  keeps_files m -> (forall a, keeps_files (k a)) -> keeps_files (cf.iobind m k).
Proof.
  intros Hm Hk s. unfold cf.iobind. specialize (Hm s).
  destruct (m s) as [s' [a|e]]; simpl in *; [|exact Hm].
  by rewrite (Hk a s').
Qed.

Lemma keeps_Dataset_read (path : string) :
  keeps_files (F := F) (cf.Dataset_read path).
Proof. intros s. unfold cf.Dataset_read. by destruct (cf.fs s !! path). Qed.

Lemma keeps_set_raw_nc (nc : cf.ncfile (F := F)) : keeps_files (cf.set_raw_nc nc).
Proof. intros s. reflexivity. Qed.

Lemma validate_keeps_files (self : cf.ConvertRAPIDOutputToCF) :
  keeps_files (F := F) (cf._validate_raw_nc self).
Proof.
  unfold cf._validate_raw_nc.
  apply keeps_bind; [apply keeps_Dataset_read | intros nc].
  apply keeps_bind; [apply keeps_set_raw_nc | intros _].
  apply keeps_bind; [| intros id_dim_name].
  { repeat case_match; first [apply keeps_ret | apply keeps_raise]. }
  apply keeps_bind; [apply keeps_lift | intros id_len].
  apply keeps_bind; [| intros time_dim].
  { case_match; first [apply keeps_ret | apply keeps_raise]. }
  apply keeps_bind; [| intros _].
  { repeat case_match; first [apply keeps_ret | apply keeps_lift]. }
  apply keeps_bind; [| intros q_var_name; apply keeps_ret].
  repeat case_match; try apply keeps_ret.
  apply keeps_bind; [apply keeps_lift | intros _; apply keeps_raise].
Qed.

(** The body of the [try] never completes: the call of line 395 hands
    two arguments to a method that takes four, so it raises before any
    output file is made, and the files on disk are as before. *)
Lemma convert_body_raises (self : cf.ConvertRAPIDOutputToCF) (s : cf.state) :
  exists e s', convert_body self s = (s', Raise e) /\ cf.fs s' = cf.fs s.
Proof.
  pose proof (validate_keeps_files self s) as Hfs.
  unfold cf.convert_body, cf.iobind, cf.lift. simpl.
  destruct (cf._validate_raw_nc self s)
    as [s1 [[[[id_dim id_len] time_len] q_name]|e]]; simpl in Hfs.
  - eexists _, s1. split; [reflexivity | exact Hfs].
  - exists e, s1. split; [reflexivity | exact Hfs].
Qed.

(** The handler of lines 435-441, entered in any state: the file at the
    [_CF] name is gone, the raw file is as the body left it, and an
    exception goes on to the caller. *)
Lemma handler_rolls_back (self : cf.ConvertRAPIDOutputToCF)
    (s1 : cf.state (F := F)) (e : exn) :
  cf.cf_compliant_file self <> cf.rapid_output_file self ->
  exists e' s',
    cf.rollback self e s1 = (s', Raise e') /\
    cf.fs s' !! cf.cf_compliant_file self = None /\
    cf.fs s' !! cf.rapid_output_file self = cf.fs s1 !! cf.rapid_output_file self.
Proof.
  intros Hne.
  unfold cf.rollback, cf.iobind, cf.ignore_OSError, cf.try_except_io, cf.os_remove.
  destruct (cf.fs s1 !! cf.cf_compliant_file self) eqn:Hcf; simpl.
  - eexists _, _. split; [reflexivity|]. simpl. split.
    + apply lookup_delete_eq.
    + by rewrite lookup_delete_ne.
  - eexists _, _. split; [reflexivity|]. split; [exact Hcf | reflexivity].
Qed.

(** C2.  Whatever the failure and the state the body of [convert] has
    reached, the handler deletes the file at the [_CF] name, leaves the
    raw file as the body left it and hands an error to the caller; and
    every run of [convert] ends that way with the raw file as it was
    before the run. *)
Theorem convert_rolls_back (rapid_output_file : string)
    (start_datetime time_step : Z)
    (qinit_file comid_lat_lon_z_file project_name output_id_dim_name
     output_flow_var_name : string) (print_debug : bool) (s : cf.state) :
  let self := cf.__init__ rapid_output_file start_datetime time_step qinit_file
                comid_lat_lon_z_file project_name output_id_dim_name
                output_flow_var_name print_debug in
  (forall (e : exn) (s1 : cf.state (F := F)),
     exists e' s',
       cf.rollback self e s1 = (s', Raise e') /\
       cf.fs s' !! cf.cf_compliant_file self = None /\
       cf.fs s' !! cf.rapid_output_file self
         = cf.fs s1 !! cf.rapid_output_file self) /\
  (exists e s',
     convert self s = (s', Raise e) /\
     cf.fs s' !! cf.cf_compliant_file self = None /\
     cf.fs s' !! cf.rapid_output_file self
       = cf.fs s !! cf.rapid_output_file self).
Proof.
  intros self.
  assert (Hne : cf.cf_compliant_file self <> cf.rapid_output_file self)
    by apply cf_file_is_not_raw_file.
  split; [intros e s1; by apply handler_rolls_back|].
  destruct (convert_body_raises self s) as (e & s1 & He & Hfs).
  destruct (handler_rolls_back self s1 e Hne) as (e' & s' & Hh & Hcf & Hraw).
  exists e', s'. split; [|split; [exact Hcf | by rewrite Hraw, Hfs]].
  unfold cf.convert, cf.try_except_io. rewrite He. exact Hh.
Qed.

(** C7, the code at every input: the block that writes the time values
    reads [self.start_date], which no instance has, before it computes
    any time stamp. *)
Theorem time_axis_is_never_written (self : cf.ConvertRAPIDOutputToCF)
    (time_len : nat) (cf_nc : cf.ncfile (F := F)) :
  cf.populate_time_values self time_len cf_nc = Raise (AttributeError "start_date").
Proof. reflexivity. Qed.

(** Whenever [_copy_streamflow_values] returns, the dataset it returns
    is the one [createVariable] made: the flow variable holds fill
    values only. *)
Lemma copy_streamflow_values_writes_nothing (self : cf.ConvertRAPIDOutputToCF)
    (input_flow_var_name : string) (raw_nc cf_nc cf_nc' : cf.ncfile) :
  cf._copy_streamflow_values fzero nc_fill csv_to_list_qinit self
    input_flow_var_name raw_nc cf_nc = Ok cf_nc' ->
  cf.createVariable_float2 nc_fill (cf.output_flow_var_name self)
    (cf.output_id_dim_name self) "time" cf_nc = Ok cf_nc'.
Proof.
  unfold cf._copy_streamflow_values.
  destruct (cf.createVariable_float2 _ _ _ _ _) as [nc|e]; simpl; [|discriminate].
  repeat (match goal with
          | |- context [bind ?m _] => destruct m; simpl; try discriminate
          end).
  - intros H. exact H.
Qed.

(** ** The CF converter: spatial attributes *)

Lemma lookup_step_missing (lookup_table : list cf.lookup_row)
    (lookup_comids : list Z) (loc : cf.lookup_locals (F := F))
    (nc_index : nat) (nc_comid : Z) :
  nc_comid ∉ lookup_comids ->
  cf.lookup_step flt lookup_table lookup_comids loc nc_index nc_comid
    = Raise (comid_missing nc_comid).
Proof.
  intros Hmiss. unfold cf.lookup_step.
  pose proof (first_index_absent lookup_comids nc_comid Hmiss) as Hf.
  unfold rapid.first_index in Hf. rewrite Hf. reflexivity.
Qed.

Lemma lookup_step_found (lookup_table : list cf.lookup_row)
    (loc : cf.lookup_locals (F := F)) (nc_index : nat) (nc_comid : Z) :
  nc_comid ∈ map cf.row_comid (tail lookup_table) ->
  (nc_index < length (cf.lats loc))%nat ->
  (nc_index < length (cf.lons loc))%nat ->
  (nc_index < length (cf.zs loc))%nat ->
  exists loc',
    cf.lookup_step flt lookup_table (map cf.row_comid (tail lookup_table))
      loc nc_index nc_comid = Ok loc' /\
    length (cf.lats loc') = length (cf.lats loc) /\
    length (cf.lons loc') = length (cf.lons loc) /\
    length (cf.zs loc') = length (cf.zs loc).
Proof.
  intros Hin Hlat Hlon Hz. unfold cf.lookup_step.
  destruct (first_index_present _ _ Hin) as (j & Hj & Hl).
  unfold rapid.first_index in Hj. rewrite Hj. simpl.
  assert (Hrow : is_Some (lookup_table !! (j + 1)%nat)).
  { apply lookup_lt_is_Some_2. apply lookup_lt_Some in Hl.
    rewrite length_map in Hl. destruct lookup_table; simpl in *; lia. }
  destruct Hrow as [row Hrow]. unfold np.item at 1. rewrite Hrow. simpl.
  unfold np.setitem.
  destruct (decide (nc_index < length (cf.lats loc))%nat); [|contradiction]. simpl.
  destruct (decide (nc_index < length (cf.lons loc))%nat); [|contradiction]. simpl.
  destruct (decide (nc_index < length (cf.zs loc))%nat); [|contradiction]. simpl.
  eexists. split; [reflexivity|]. simpl. by rewrite !length_insert.
Qed.

Lemma lookup_fold_first_missing (lookup_table : list cf.lookup_row)
    (id : Z) (post : list Z) :
  id ∉ map cf.row_comid (tail lookup_table) ->
  forall (pre : list Z) (i : nat) (loc : cf.lookup_locals (F := F)),
    (i + length pre <= length (cf.lats loc))%nat ->
    (i + length pre <= length (cf.lons loc))%nat ->
    (i + length pre <= length (cf.zs loc))%nat ->
    Forall (fun c => c ∈ map cf.row_comid (tail lookup_table)) pre ->
    foldM_from
      (cf.lookup_step flt lookup_table (map cf.row_comid (tail lookup_table)))
      i (pre ++ id :: post) loc = Raise (comid_missing id).
Proof.
  intros Hmiss. induction pre as [|c pre IH]; intros i loc Hlat Hlon Hz Hall; simpl.
  - by rewrite (lookup_step_missing _ _ _ _ _ Hmiss).
  - simpl in Hlat, Hlon, Hz. apply Forall_cons in Hall as [Hc Hall].
    destruct (lookup_step_found lookup_table loc i c Hc)
      as (loc' & Hstep & Hl1 & Hl2 & Hl3); [lia | lia | lia |].
    rewrite Hstep. simpl. apply IH; [lia | lia | lia | exact Hall].
Qed.

(** C3 (as amended).  With a lookup table supplied, the first output
    identifier that the table lacks ends the enrichment: whatever
    identifiers come after it, the method raises the exception of
    severity ERROR that names this identifier and hands no dataset back,
    so no coordinate is written and the dataset behind [self.cf_nc] is as
    before; run inside the [try] of [convert], the failure goes to the
    handler, which removes the [_CF] file and raises the conversion
    error. *)
Theorem lookup_miss_aborts_enrichment (self : cf.ConvertRAPIDOutputToCF)
    (cf_nc : cf.ncfile) (pre post : list Z) (lats lons zs : list F) (id : Z) :
  cf.comid_lat_lon_z_file self <> ""%string ->
  cf.read_ints cf_nc (cf.output_id_dim_name self) = Ok (pre ++ id :: post) ->
  cf.read_floats cf_nc "lat" = Ok lats ->
  cf.read_floats cf_nc "lon" = Ok lons ->
  cf.read_floats cf_nc "z" = Ok zs ->
  length lats = length (pre ++ id :: post) ->
  length lons = length (pre ++ id :: post) ->
  length zs = length (pre ++ id :: post) ->
  Forall (fun c => c ∈ map cf.row_comid
                         (tail (csv_to_list_lookup (cf.comid_lat_lon_z_file self))))
    pre ->
  id ∉ map cf.row_comid
         (tail (csv_to_list_lookup (cf.comid_lat_lon_z_file self))) ->
  cf._write_comid_lat_lon_z flt csv_to_list_lookup self cf_nc
    = Raise (comid_missing id) /\
  names_identifier (comid_missing id) id = true /\
  forall s : cf.state, cf.cf_nc s = Some cf_nc ->
    cf.update_cf (cf._write_comid_lat_lon_z flt csv_to_list_lookup self) s
      = (s, Raise (comid_missing id)) /\
    cf.try_except_io
      (cf.update_cf (cf._write_comid_lat_lon_z flt csv_to_list_lookup self))
      (cf.rollback self) s
      = ({| cf.fs := delete (cf.cf_compliant_file self) (cf.fs s);
            cf.raw_nc := cf.raw_nc s; cf.cf_nc := Some cf_nc |},
         Raise (conversion_error (comid_missing id))).
Proof.
  intros Hfile Hids Hlat Hlon Hz Hl1 Hl2 Hl3 Hpre Hmiss.
  assert (cf._write_comid_lat_lon_z flt csv_to_list_lookup self cf_nc
          = Raise (comid_missing id)) as Hraise.
  { unfold cf._write_comid_lat_lon_z.
    destruct (String.eqb_spec (cf.comid_lat_lon_z_file self) "") as [|_];
      [contradiction|]. simpl.
    rewrite Hids, Hlat, Hlon, Hz. simpl. unfold for_enumerate.
    rewrite length_app in Hl1, Hl2, Hl3.
    rewrite (lookup_fold_first_missing _ id post Hmiss pre 0); simpl;
      [reflexivity | lia | lia | lia | exact Hpre]. }
  split; [exact Hraise|].
  split; [simpl; by rewrite Z.eqb_refl|].
  intros s Hs.
  assert (cf.update_cf (cf._write_comid_lat_lon_z flt csv_to_list_lookup self) s
          = (s, Raise (comid_missing id))) as Hstep.
  { unfold cf.update_cf, cf.iobind, cf.get_cf_nc, cf.lift.
    by rewrite Hs, Hraise. }
  split; [exact Hstep|].
  unfold cf.try_except_io. rewrite Hstep.
  unfold cf.rollback, cf.iobind, cf.ignore_OSError, cf.try_except_io, cf.os_remove.
  destruct s as [fs raw cfnc]. simpl in *. subst cfnc.
  destruct (fs !! cf.cf_compliant_file self) eqn:Hcf; simpl.
  - reflexivity.
  - by rewrite (delete_id _ _ Hcf).
Qed.

End ConvertProps.

(** ** The CF converter on concrete stores (flow values in [Z]) *)

(** C1, the code at the failing inputs.  The store of the end-to-end
    example (identifiers 101, 102, 103, two time steps, time-major): the
    transposed values, of shape (3, 2), are assigned to rows 1.. of a
    copy of the (3, 3) flow variable, a (2, 3) slice, and numpy raises.
    A store of one identifier and one time step: the assignment has
    nothing to do, the initial value goes to a copy of the row, and the
    flow variable is left at its fill value (here 99) in both slots. *)
Theorem copy_streamflow_values_fails :
  cf._copy_streamflow_values 0 99 no_qinit (converter "") "Qout"
    (raw_store [101; 102; 103] [[1; 2; 3]; [4; 5; 6]])
    (output_store [101; 102; 103] 3)
    = Raise (ValueError "could not broadcast input array") /\
  exists cf_nc',
    cf._copy_streamflow_values 0 99 no_qinit (converter "") "Qout"
      (raw_store [101] [[5]]) (output_store [101] 2) = Ok cf_nc' /\
    cf.read_matrix cf_nc' "Qout"
      = Ok {| cf.shape0 := 1; cf.shape1 := 2; cf.rows := [[99; 99]] |}.
Proof.
  split; [vm_compute; reflexivity|].
  eexists. split; vm_compute; reflexivity.
Qed.

(** C3, the claim as stated fails: identifiers 101 and 102, a lookup
    table that has 102 only.  The miss of 101 ends the enrichment with an
    exception; 102 is not reached. *)
Lemma lookup_miss_is_fatal :
  102 ∈ map cf.row_comid (tail (lookup_102 "comid_lat_lon_z.csv")) /\
  cf._write_comid_lat_lon_z Z.ltb lookup_102 (converter "comid_lat_lon_z.csv")
    (output_store [101; 102] 3) = Raise (comid_missing 101).
Proof.
  split; [decide_true | vm_compute; reflexivity].
Qed.

Lemma lookup_miss_aborts_enrichment_witness :
  cf._write_comid_lat_lon_z Z.ltb lookup_102 (converter "comid_lat_lon_z.csv")
    (output_store [102; 101; 103] 3) = Raise (comid_missing 101) /\
  names_identifier (comid_missing 101) 101 = true /\
  forall s : cf.state, cf.cf_nc s = Some (output_store [102; 101; 103] 3) ->
    cf.update_cf
      (cf._write_comid_lat_lon_z Z.ltb lookup_102 (converter "comid_lat_lon_z.csv")) s
      = (s, Raise (comid_missing 101)) /\
    cf.try_except_io
      (cf.update_cf
         (cf._write_comid_lat_lon_z Z.ltb lookup_102
            (converter "comid_lat_lon_z.csv")))
      (cf.rollback (converter "comid_lat_lon_z.csv")) s
      = ({| cf.fs := delete (cf.cf_compliant_file (converter "comid_lat_lon_z.csv"))
                       (cf.fs s);
            cf.raw_nc := cf.raw_nc s;
            cf.cf_nc := Some (output_store [102; 101; 103] 3) |},
         Raise (conversion_error (comid_missing 101))).
Proof.
  apply (lookup_miss_aborts_enrichment Z.ltb lookup_102
           (converter "comid_lat_lon_z.csv") (output_store [102; 101; 103] 3)
           [102] [103] [-9999; -9999; -9999] [-9999; -9999; -9999]
           [-9999; -9999; -9999] 101).
  - discriminate.
  - vm_compute; reflexivity.
  - vm_compute; reflexivity.
  - vm_compute; reflexivity.
  - vm_compute; reflexivity.
  - reflexivity.
  - reflexivity.
  - reflexivity.
  - decide_true.
  - decide_true.
Defined.

(* ===================================================================== *)
(** * Further properties of the modelled code                             *)
(* ===================================================================== *)

(** ** rapid.py: the reordering of [compare_qout_files] *)

Lemma first_index_first (arr : list Z) (x : Z) (j : nat) :
  rapid.first_index arr x = Ok j ->
  arr !! j = Some x /\ forall k, (k < j)%nat -> arr !! k <> Some x.
Proof.
  revert j. induction arr as [|a arr IH]; intros j; [discriminate|].
  rewrite first_index_cons.
  destruct (Z.eqb_spec a x) as [->|Hne].
  - intros [= <-]. split; [reflexivity | intros k Hk; lia].
  - destruct (rapid.first_index arr x) as [j'|e] eqn:Hj; simpl; [|discriminate].
    intros [= <-]. destruct (IH j' eq_refl) as [Hl Hmin]. split; [exact Hl|].
    intros [|k] Hk; simpl; [congruence | apply Hmin; lia].
Qed.

Lemma mapM_length {A B} (f : A -> result B) (xs : list A) (ys : list B) :
  mapM f xs = Ok ys -> length ys = length xs.
Proof.
  revert ys. induction xs as [|x xs IH]; intros ys; simpl.
  - by intros [= <-].
  - destruct (f x) as [y|]; simpl; [|discriminate].
    destruct (mapM f xs) as [ys'|]; simpl; [|discriminate].
    intros [= <-]. simpl. by rewrite (IH ys').
Qed.

Lemma mapM_lookup {A B} (f : A -> result B) (xs : list A) (ys : list B)
    (i : nat) (x : A) :
  mapM f xs = Ok ys -> xs !! i = Some x ->
  exists y, ys !! i = Some y /\ f x = Ok y.
Proof.
  revert ys i. induction xs as [|a xs IH]; intros ys i; simpl; [by intros _ ?|].
  destruct (f a) as [y|] eqn:Hf; simpl; [|discriminate].
  destruct (mapM f xs) as [ys'|]; simpl; [|discriminate].
  intros [= <-]. destruct i as [|i]; simpl.
  - intros [= <-]. by exists y.
  - intros Hx. by apply (IH ys').
Qed.

Lemma mapM_lookup_inv {A B} (f : A -> result B) (xs : list A) (ys : list B)
    (i : nat) (y : B) :
  mapM f xs = Ok ys -> ys !! i = Some y ->
  exists x, xs !! i = Some x /\ f x = Ok y.
Proof.
  intros Hm Hy.
  destruct (lookup_lt_is_Some_2 xs i) as [x Hx].
  { rewrite <- (mapM_length _ _ _ Hm). eapply lookup_lt_Some; eauto. }
  destruct (mapM_lookup f xs ys i x Hm Hx) as (y' & Hy' & Hf).
  exists x. split; [exact Hx | congruence].
Qed.

Lemma mapM_total {A B} (f : A -> result B) (xs : list A) :
  Forall (fun x => exists y, f x = Ok y) xs -> exists ys, mapM f xs = Ok ys.
Proof.
  induction 1 as [|x xs [y Hy] _ [ys Hys]]; simpl; [by exists []|].
  rewrite Hy, Hys. simpl. by eexists.
Qed.

Lemma mapM_Ok_Forall {A B} (f : A -> result B) (xs : list A) (ys : list B) :
  mapM f xs = Ok ys -> Forall (fun x => exists y, f x = Ok y) xs.
Proof.
  revert ys. induction xs as [|x xs IH]; intros ys; simpl; [constructor|].
  destruct (f x) as [y|] eqn:Hf; simpl; [|discriminate].
  destruct (mapM f xs) as [ys'|]; simpl; [|discriminate].
  intros _. constructor; [by exists y | by eapply IH].
Qed.

Lemma reindex_first_positions_aux (source target : list Z) (perm : list nat) :
  rapid.reindex source target = Ok perm ->
  length perm = length target /\
  forall j k, perm !! j = Some k ->
    exists id, target !! j = Some id /\ source !! k = Some id.
Proof.
  unfold rapid.reindex. intros Hperm. split; [by eapply mapM_length|].
  intros j k Hk.
  destruct (mapM_lookup_inv _ _ _ j k Hperm Hk) as (id & Hid & Hf).
  apply first_index_first in Hf as [Hl _]. by exists id.
Qed.

(** X1.  [reindex] (lines 534-537) succeeds exactly when every target
    identifier occurs in the source; the list it returns has one entry
    per target position, and the entry for position [j] is the first
    position of the source that holds the identifier at [j]. *)
Theorem reindex_first_positions (source target : list Z) :
  (Forall (fun id => id ∈ source) target <->
   exists perm, rapid.reindex source target = Ok perm) /\
  (forall perm, rapid.reindex source target = Ok perm ->
     length perm = length target /\
     forall j k, perm !! j = Some k ->
       exists id, target !! j = Some id /\ source !! k = Some id /\
                  forall k', (k' < k)%nat -> source !! k' <> Some id).
Proof.
  unfold rapid.reindex. split; [split|].
  - intros Hall. apply mapM_total.
    eapply Forall_impl; [exact Hall|]. intros id Hid. simpl.
    destruct (first_index_present source id Hid) as (j & Hj & _). by exists j.
  - intros [perm Hperm]. apply mapM_Ok_Forall in Hperm.
    eapply Forall_impl; [exact Hperm|]. intros id [j Hj]. simpl in Hj.
    apply first_index_first in Hj as [Hl _].
    eapply list_elem_of_lookup_2; eauto.
  - intros perm Hperm. split; [by eapply mapM_length|].
    intros j k Hk.
    destruct (mapM_lookup_inv _ _ _ j k Hperm Hk) as (id & Hid & Hf).
    apply first_index_first in Hf as [Hl Hmin].
    exists id. split; [exact Hid|]. split; [exact Hl | exact Hmin].
Qed.

Lemma zip_ne_agree (a b : list Z) :
  existsb negb (np.zip_ne a b) = true <->
  exists i x, a !! i = Some x /\ b !! i = Some x.
Proof.
  unfold np.zip_ne. revert b. induction a as [|x a IH]; intros b.
  - simpl. split; [discriminate | intros (i & y & Hy & _); by destruct i].
  - destruct b as [|y b].
    + simpl. split; [discriminate | intros (i & z & _ & Hz); by destruct i].
    + simpl. rewrite negb_involutive, orb_true_iff, IH. split.
      * intros [Heq | (i & z & Ha & Hb)].
        -- apply Z.eqb_eq in Heq as ->. by exists 0%nat, y.
        -- by exists (S i), z.
      * intros ([|i] & z & Ha & Hb); simpl in Ha, Hb.
        -- left. apply Z.eqb_eq. congruence.
        -- right. by exists i, z.
Qed.

Lemma all_unique_array (l : list bool) :
  np.all (np.unique (np.BArr l)) = negb (existsb negb l).
Proof.
  unfold np.all, np.unique.
  destruct (existsb negb l); [reflexivity|].
  destruct (existsb (fun b => b) l); reflexivity.
Qed.

Lemma reorder_guard (a b : list Z) :
  length a = length b ->
  negb (np.all (np.unique (np.ne a b))) = true <->
  exists i x, a !! i = Some x /\ b !! i = Some x.
Proof.
  intros Hlen. unfold np.ne.
  rewrite (proj2 (Nat.eqb_eq _ _) Hlen), all_unique_array, negb_involutive.
  apply zip_ne_agree.
Qed.

Section CompareProps.
Context {F : Type}.

(** X2.  For identifier arrays of equal length, [compare_qout_files]
    (line 529) reorders the second dataset exactly when some position
    holds the same identifier in both arrays.  When no position agrees,
    as for a reversed array of even length, the flows of the second
    dataset are compared as they are; when one agrees, a result comes
    with the index list of [reindex]. *)
Theorem compare_reorders_iff_a_position_agrees
    (d1 d2 : rapid.Dataset (F := F)) :
  length (rapid.COMID d1) = length (rapid.COMID d2) ->
  ((forall i x, rapid.COMID d1 !! i = Some x -> rapid.COMID d2 !! i <> Some x) ->
   rapid.compare_qout_files d1 d2 =
   Ok {| rapid.d2_reordered_comid_list := None;
         rapid.d2_reordered_qout := rapid.Qout d2 |}) /\
  ((exists i x, rapid.COMID d1 !! i = Some x /\ rapid.COMID d2 !! i = Some x) ->
   forall c, rapid.compare_qout_files d1 d2 = Ok c ->
     exists perm, rapid.d2_reordered_comid_list c = Some perm /\
                  rapid.reindex (rapid.COMID d2) (rapid.COMID d1) = Ok perm).
Proof.
  intros Hlen. pose proof (reorder_guard _ _ Hlen) as Hguard. split.
  - intros Hno. apply compare_skips_branch.
    destruct (np.all _); [reflexivity|]. exfalso.
    destruct (proj1 Hguard eq_refl) as (i & x & Ha & Hb). by apply (Hno i x).
  - intros Hyes c. unfold rapid.compare_qout_files.
    rewrite (proj2 Hguard Hyes), (proj2 (Nat.eqb_eq _ _) Hlen). simpl.
    destruct (rapid.reindex _ _) as [perm|]; simpl; [|discriminate].
    destruct (_ && _).
    + destruct (mapM _ _); simpl; [|discriminate].
      intros [= <-]. by exists perm.
    + destruct (_ && _); [|discriminate].
      destruct (mapM _ _); simpl; [|discriminate].
      intros [= <-]. by exists perm.
Qed.

Lemma mapM_item_seq {A} (pre row : list A) :
  mapM (np.item (pre ++ row)) (seq (length pre) (length row)) = Ok row.
Proof.
  revert pre. induction row as [|x row IH]; intros pre; [reflexivity|].
  simpl. unfold np.item at 1.
  rewrite lookup_app_r, Nat.sub_diag by lia. simpl.
  specialize (IH (pre ++ [x])). rewrite <- app_assoc, length_app in IH.
  simpl in IH. replace (length pre + 1)%nat with (S (length pre)) in IH by lia.
  by rewrite IH.
Qed.

Lemma mapM_rows_identity {A} (n : nat) (m : list (list A)) :
  Forall (fun row => length row = n) m ->
  mapM (fun row => mapM (np.item row) (seq 0 n)) m = Ok m.
Proof.
  induction 1 as [|row m Hrow _ IH]; [reflexivity|].
  simpl. subst n. pose proof (mapM_item_seq [] row) as Hid. simpl in Hid.
  rewrite Hid. simpl. by rewrite IH.
Qed.

(** X3.  Comparing a dataset with one that lists the same unique
    identifiers in the same order (lines 526-548): the reordering branch
    runs, the index list is the identity, and the flows of the second
    dataset reach the comparison unchanged, in either orientation. *)
Theorem compare_same_order_is_identity (d1 d2 : rapid.Dataset (F := F)) :
  rapid.COMID d1 = rapid.COMID d2 ->
  rapid.COMID d2 <> [] ->
  NoDup (rapid.COMID d2) ->
  (rapid.dim_is (rapid.Qout_dimensions d1) 0 "time" &&
   rapid.dim_is (rapid.Qout_dimensions d1) 1 "comid" = true /\
   Forall (fun row => length row = length (rapid.COMID d2)) (rapid.Qout d2)) \/
  (rapid.dim_is (rapid.Qout_dimensions d1) 0 "time" &&
   rapid.dim_is (rapid.Qout_dimensions d1) 1 "comid" = false /\
   rapid.dim_is (rapid.Qout_dimensions d1) 1 "time" &&
   rapid.dim_is (rapid.Qout_dimensions d1) 0 "comid" = true /\
   length (rapid.Qout d2) = length (rapid.COMID d2)) ->
  rapid.compare_qout_files d1 d2 =
  Ok {| rapid.d2_reordered_comid_list := Some (seq 0 (length (rapid.COMID d2)));
        rapid.d2_reordered_qout := rapid.Qout d2 |}.
Proof.
  intros Hsame Hne Hnd Hshape. unfold rapid.compare_qout_files.
  rewrite Hsame.
  rewrite (proj2 (reorder_guard (rapid.COMID d2) (rapid.COMID d2) eq_refl)).
  2:{ destruct (rapid.COMID d2) as [|x l]; [contradiction|]. by exists 0%nat, x. }
  rewrite Nat.eqb_refl. simpl.
  rewrite (reindex_self _ Hnd). simpl.
  destruct Hshape as [[Hd Hrows] | (Hd1 & Hd2 & Hlen)].
  - rewrite Hd. by rewrite (mapM_rows_identity _ _ Hrows).
  - rewrite Hd1, Hd2. rewrite <- Hlen.
    pose proof (mapM_item_seq [] (rapid.Qout d2)) as Hid. simpl in Hid.
    by rewrite Hid.
Qed.

(** X4.  Whenever [compare_qout_files] reorders (lines 534-544), the
    flows it takes from the second dataset are lined up with the
    identifiers of the first: for time-major flows, entry [j] of every
    reordered time row is the second dataset's value for the identifier
    at position [j] of the first; for identifier-major flows, row [j] is
    the second dataset's row of that identifier. *)
Theorem compare_reordering_aligns (d1 d2 : rapid.Dataset (F := F))
    (c : rapid.comparison) (perm : list nat) :
  rapid.compare_qout_files d1 d2 = Ok c ->
  rapid.d2_reordered_comid_list c = Some perm ->
  forall j id, rapid.COMID d1 !! j = Some id ->
    exists k, rapid.COMID d2 !! k = Some id /\
      if rapid.dim_is (rapid.Qout_dimensions d1) 0 "time" &&
         rapid.dim_is (rapid.Qout_dimensions d1) 1 "comid"
      then forall r row, rapid.Qout d2 !! r = Some row ->
             exists row', rapid.d2_reordered_qout c !! r = Some row' /\
                          row' !! j = row !! k /\ is_Some (row !! k)
      else rapid.d2_reordered_qout c !! j = rapid.Qout d2 !! k /\
           is_Some (rapid.Qout d2 !! k).
Proof.
  unfold rapid.compare_qout_files.
  destruct (negb _); [|by intros [= <-]].
  destruct (negb _); [discriminate|].
  destruct (rapid.reindex _ _) as [p|] eqn:Hre; simpl; [|discriminate].
  destruct (reindex_first_positions_aux _ _ _ Hre) as [Hlen Hpos].
  destruct (_ && _).
  - destruct (mapM _ (rapid.Qout d2)) as [q|] eqn:Hq; simpl; [|discriminate].
    intros [= <-]. simpl. intros [= <-] j id Hj.
    destruct (lookup_lt_is_Some_2 p j) as [k Hk].
    { rewrite Hlen. eapply lookup_lt_Some; eauto. }
    destruct (Hpos j k Hk) as (id' & Hid' & Hsrc). assert (id' = id) as -> by congruence.
    exists k. split; [exact Hsrc|].
    intros r row Hrow.
    destruct (mapM_lookup _ _ _ r row Hq Hrow) as (row' & Hrow' & Hf).
    exists row'. split; [exact Hrow'|].
    destruct (mapM_lookup _ _ _ j k Hf Hk) as (y & Hy & Hitem).
    unfold np.item in Hitem. destruct (row !! k) eqn:Hrk; [|discriminate].
    injection Hitem as <-. split; [exact Hy | by eexists].
  - destruct (_ && _); [|discriminate].
    destruct (mapM _ p) as [q|] eqn:Hq; simpl; [|discriminate].
    intros [= <-]. simpl. intros [= <-] j id Hj.
    destruct (lookup_lt_is_Some_2 p j) as [k Hk].
    { rewrite Hlen. eapply lookup_lt_Some; eauto. }
    destruct (Hpos j k Hk) as (id' & Hid' & Hsrc). assert (id' = id) as -> by congruence.
    exists k. split; [exact Hsrc|].
    destruct (mapM_lookup _ _ _ j k Hq Hk) as (y & Hy & Hitem).
    unfold np.item in Hitem. destruct (rapid.Qout d2 !! k) eqn:Hrk; [|discriminate].
    injection Hitem as <-. split; [exact Hy | by eexists].
Qed.

End CompareProps.

(** ** rapid.py: the last time step in either orientation *)

Lemma mapM_seq_ext {A} (g : nat -> result A) (row : list A) :
  forall s, (forall j x, row !! j = Some x -> g (s + j)%nat = Ok x) ->
            mapM g (seq s (length row)) = Ok row.
Proof.
  induction row as [|x row IH]; intros s Hg; [reflexivity|].
  simpl. rewrite <- (Nat.add_0_r s) at 1. rewrite (Hg 0%nat x eq_refl). simpl.
  rewrite (IH (S s)); [reflexivity|].
  intros j y Hy. replace (S s + j)%nat with (s + S j)%nat by lia. by apply Hg.
Qed.

Lemma mapM_map {A B C} (f : B -> result C) (g : A -> B) (l : list A) :
  mapM f (map g l) = mapM (fun a => f (g a)) l.
Proof.
  induction l as [|a l IH]; [reflexivity|]. simpl. by rewrite IH.
Qed.

Section LastStepProps.
Context {F : Type}.

(** X5.  [generate_qinit_from_past_qout] reads the last time step along
    the axis that the declared dimension order names (lines 396-405,
    names compared without regard to case): the same flows stored
    time-major or, transposed, identifier-major give the same values,
    the last row of the time-major matrix. *)
Theorem last_time_step_is_orientation_independent (Qout_file t c : string)
    (ids : list Z) (m : list (list F)) (last_row : list F) :
  lower t = "time"%string -> lower c = "comid"%string ->
  last m = Some last_row ->
  Forall (fun row => length row = length last_row) m ->
  rapid.last_time_step_values Qout_file
    {| rapid.COMID := ids; rapid.Qout_dimensions := [t; c]; rapid.Qout := m |}
    = Ok last_row /\
  rapid.last_time_step_values Qout_file
    {| rapid.COMID := ids; rapid.Qout_dimensions := [c; t];
       rapid.Qout := np.transpose (length last_row) m |}
    = Ok last_row.
Proof.
  intros Ht Hc Hlast Hrows. unfold rapid.last_time_step_values, rapid.dim_is.
  simpl. rewrite Ht, Hc. simpl. split.
  - unfold np.item_last. by rewrite Hlast.
  - unfold np.transpose. rewrite mapM_map.
    apply (mapM_seq_ext _ last_row 0). intros j x Hj. simpl.
    destruct m as [|row m' _] using rev_ind; [discriminate|].
    rewrite last_snoc in Hlast. injection Hlast as ->.
    unfold np.item_last, np.column. rewrite omap_app. simpl. rewrite Hj.
    by rewrite last_snoc.
Qed.

End LastStepProps.

(** ** make_CF_RAPID_output.py: validation and initialisation *)

Section ConverterProps.
Context {F : Type} (fzero coord_fill nc_fill : F) (flt : F -> F -> bool).
Context (csv_to_list_lookup : string -> list (cf.lookup_row (F := F)))
        (csv_to_list_qinit : string -> list (list F))
        (utcnow : string).

(** X6.  [_validate_raw_nc] (lines 105-157) accepts a raw file exactly
    when the file exists and has a COMID or FEATUREID dimension, a Time
    dimension and a Qout or m3_riv variable.  No identifier variable is
    asked for. *)
Theorem validate_raw_nc_accepts_iff (self : cf.ConvertRAPIDOutputToCF)
    (s : cf.state (F := F)) :
  (exists r, snd (cf._validate_raw_nc self s) = Ok r) <->
  exists nc, cf.fs s !! cf.rapid_output_file self = Some nc /\
    (cf.contains (cf.dimensions nc) "COMID" ||
     cf.contains (cf.dimensions nc) "FEATUREID") = true /\
    cf.contains (cf.dimensions nc) "Time" = true /\
    (cf.contains (cf.variables nc) "Qout" ||
     cf.contains (cf.variables nc) "m3_riv") = true.
Proof.
  unfold cf._validate_raw_nc, cf.iobind, cf.Dataset_read, cf.set_raw_nc,
    cf.dim_len, cf.contains, cf.lift, cf.ret, cf.raise.
  destruct (cf.fs s !! cf.rapid_output_file self) as [nc|]; simpl.
  2:{ split; [intros [r Hr]; discriminate | intros (nc & Hnc & _); discriminate]. }
  destruct (cf.dimensions nc !! "COMID"%string) as [n1|] eqn:H1; simpl;
    [|destruct (cf.dimensions nc !! "FEATUREID"%string) as [n2|] eqn:H2; simpl].
  3:{ split; [intros [r Hr]; discriminate
             | intros (nc' & [= <-] & Hc & _); rewrite H1, H2 in Hc; discriminate]. }
  all: try rewrite H1; try rewrite H2; simpl;
    destruct (cf.dimensions nc !! "Time"%string) as [nt|] eqn:Ht; simpl;
    [| split; [intros [r Hr]; discriminate
              | intros (nc' & [= <-] & _ & Hc & _); rewrite Ht in Hc; discriminate]];
    destruct (cf.variables nc !! "Qout"%string) as [q1|] eqn:Hq1; simpl;
    [| destruct (cf.variables nc !! "m3_riv"%string) as [q2|] eqn:Hq2; simpl];
    (split;
     [ intros [r Hr]; try discriminate; exists nc;
       rewrite ?H1, ?H2, ?Ht, ?Hq1, ?Hq2; simpl; auto
     | intros (nc' & [= <-] & _ & _ & Hc); rewrite ?Hq1, ?Hq2 in Hc;
       try discriminate; by eexists ]).
Qed.

(** X7.  What [_validate_raw_nc] hands back on acceptance (lines
    119-157): the identifier dimension is COMID when the file has one and
    FEATUREID otherwise, with its length; the time length is the length
    of the Time dimension plus one; the flow variable is Qout when the
    file has one and m3_riv otherwise.  The file becomes [self.raw_nc]
    and nothing on disk changes. *)
Theorem validate_raw_nc_result (self : cf.ConvertRAPIDOutputToCF)
    (s s' : cf.state (F := F)) (id_dim_name q_var_name : string)
    (id_len time_len : nat) :
  cf._validate_raw_nc self s = (s', Ok (id_dim_name, id_len, time_len, q_var_name)) ->
  exists nc T,
    cf.fs s !! cf.rapid_output_file self = Some nc /\
    s' = {| cf.fs := cf.fs s; cf.raw_nc := Some nc; cf.cf_nc := cf.cf_nc s |} /\
    id_dim_name = (if cf.contains (cf.dimensions nc) "COMID"
                   then "COMID" else "FEATUREID")%string /\
    cf.dimensions nc !! id_dim_name = Some id_len /\
    cf.dimensions nc !! "Time"%string = Some T /\
    time_len = (T + 1)%nat /\
    q_var_name = (if cf.contains (cf.variables nc) "Qout"
                  then "Qout" else "m3_riv")%string /\
    is_Some (cf.variables nc !! q_var_name).
Proof.
  unfold cf._validate_raw_nc, cf.iobind, cf.Dataset_read, cf.set_raw_nc,
    cf.dim_len, cf.contains, cf.lift, cf.ret, cf.raise.
  destruct (cf.fs s !! cf.rapid_output_file self) as [nc|]; simpl; [|discriminate].
  destruct (cf.dimensions nc !! "COMID"%string) as [n1|] eqn:H1; simpl;
    [|destruct (cf.dimensions nc !! "FEATUREID"%string) as [n2|] eqn:H2; simpl];
    [| |discriminate].
  all: try rewrite H1; try rewrite H2; simpl;
    (destruct (cf.dimensions nc !! "Time"%string) as [nt|] eqn:Ht; simpl;
     [|discriminate]);
    (destruct (cf.variables nc !! "Qout"%string) as [q1|] eqn:Hq1; simpl;
     [| destruct (cf.variables nc !! "m3_riv"%string) as [q2|] eqn:Hq2; simpl;
        [|discriminate]]);
    intros [= <- <- <- <- <-]; exists nc, nt;
    rewrite ?H1, ?H2, ?Hq1, ?Hq2; repeat split; eauto.
Qed.

End ConverterProps.

Section InitializeProps.
Context {F : Type} (fzero coord_fill : F) (utcnow : string).

Lemma iobind_ok {A B} (m : cf.IO (F := F) A) (k : A -> cf.IO B)
    (s s' : cf.state) (a : A) :
  m s = (s', Ok a) -> cf.iobind m k s = k a s'.
Proof. unfold cf.iobind. by intros ->. Qed.

Lemma update_cf_ok (f : cf.ncfile -> result (cf.ncfile (F := F)))
    (s : cf.state) (nc nc' : cf.ncfile) :
  cf.cf_nc s = Some nc -> f nc = Ok nc' ->
  cf.update_cf f s =
  ({| cf.fs := cf.fs s; cf.raw_nc := cf.raw_nc s; cf.cf_nc := Some nc' |}, Ok tt).
Proof.
  intros Hcf Hf. unfold cf.update_cf, cf.iobind, cf.get_cf_nc, cf.lift, cf.set_cf_nc.
  rewrite Hcf, Hf. reflexivity.
Qed.

Lemma as_nat_of_nat (n : nat) : cf.as_nat (cf.PyInt (Z.of_nat n)) = Ok n.
Proof.
  unfold cf.as_nat. destruct (Z.leb_spec 0 (Z.of_nat n)); [|lia].
  by rewrite Nat2Z.id.
Qed.

Lemma attrs_keep_dimensions {K} (g : cf.ncfile (F := F) -> K -> string * cf.attr)
    (l : list K) (nc : cf.ncfile) :
  cf.dimensions (foldl (fun nc k => cf.setncattr (fst (g nc k)) (snd (g nc k)) nc) nc l)
    = cf.dimensions nc /\
  cf.variables (foldl (fun nc k => cf.setncattr (fst (g nc k)) (snd (g nc k)) nc) nc l)
    = cf.variables nc.
Proof.
  revert nc. induction l as [|k l IH]; intros nc; [by split|].
  simpl. destruct (IH (cf.setncattr (fst (g nc k)) (snd (g nc k)) nc)) as [-> ->].
  by split.
Qed.

Lemma read_ints_set_eq (k : string) (dims : list string) (l : list Z)
    (nc : cf.ncfile (F := F)) :
  cf.read_ints (cf.set_variable k {| cf.var_dimensions := dims;
                                     cf.var_data := cf.IntArr l |} nc) k = Ok l.
Proof.
  unfold cf.read_ints, cf.get_variable, cf.set_variable. simpl.
  by rewrite lookup_insert_eq.
Qed.

Lemma read_ints_set_ne (k name : string) (v : cf.ncvar) (nc : cf.ncfile (F := F)) :
  k <> name ->
  cf.read_ints (cf.set_variable k v nc) name = cf.read_ints nc name.
Proof.
  intros Hne. unfold cf.read_ints, cf.get_variable, cf.set_variable. simpl.
  by rewrite lookup_insert_ne.
Qed.

Lemma read_floats_set_eq (k : string) (dims : list string) (l : list F)
    (nc : cf.ncfile (F := F)) :
  cf.read_floats (cf.set_variable k {| cf.var_dimensions := dims;
                                       cf.var_data := cf.FloatArr l |} nc) k = Ok l.
Proof.
  unfold cf.read_floats, cf.get_variable, cf.set_variable. simpl.
  by rewrite lookup_insert_eq.
Qed.

Lemma read_floats_set_ne (k name : string) (v : cf.ncvar) (nc : cf.ncfile (F := F)) :
  k <> name ->
  cf.read_floats (cf.set_variable k v nc) name = cf.read_floats nc name.
Proof.
  intros Hne. unfold cf.read_floats, cf.get_variable, cf.set_variable. simpl.
  by rewrite lookup_insert_ne.
Qed.

Lemma variables_set_variable (k : string) (v : cf.ncvar) (nc : cf.ncfile (F := F)) :
  cf.variables (cf.set_variable k v nc) = <[k := v]> (cf.variables nc).
Proof. reflexivity. Qed.

Lemma dimensions_set_variable (k : string) (v : cf.ncvar) (nc : cf.ncfile (F := F)) :
  cf.dimensions (cf.set_variable k v nc) = cf.dimensions nc.
Proof. reflexivity. Qed.

Lemma variables_createDimension (k : string) (n : nat) (nc : cf.ncfile (F := F)) :
  cf.variables (cf.createDimension k n nc) = cf.variables nc.
Proof. reflexivity. Qed.

Lemma dimensions_createDimension (k : string) (n : nat) (nc : cf.ncfile (F := F)) :
  cf.dimensions (cf.createDimension k n nc) = <[k := n]> (cf.dimensions nc).
Proof. reflexivity. Qed.

Lemma variables_setncattr (k : string) (a : cf.attr) (nc : cf.ncfile (F := F)) :
  cf.variables (cf.setncattr k a nc) = cf.variables nc.
Proof. reflexivity. Qed.

Lemma dimensions_setncattr (k : string) (a : cf.attr) (nc : cf.ncfile (F := F)) :
  cf.dimensions (cf.setncattr k a nc) = cf.dimensions nc.
Proof. reflexivity. Qed.

(** X8.  [_initialize_output] called with the four arguments it declares
    (lines 160-270), for an identifier name that is not one of the fixed
    variable names: the output file is created empty on disk, other files
    are untouched, and the dataset behind [self.cf_nc] has the two
    dimensions with the given lengths, identifier and time variables of
    those lengths, lat, lon and z filled with the fill value -9999, the
    crs variable, and no other variable: the flow variable is not made
    here. *)
Theorem initialize_output_builds_store (self : cf.ConvertRAPIDOutputToCF)
    (id_dim_name : string) (time_len id_len : nat) (time_step_seconds : Z)
    (s : cf.state (F := F)) :
  id_dim_name ∉ ["time"; "lat"; "lon"; "z"; "crs"]%string ->
  exists nc,
    cf._initialize_output fzero coord_fill utcnow self
      [cf.PyStr id_dim_name; cf.PyInt (Z.of_nat time_len);
       cf.PyInt (Z.of_nat id_len); cf.PyInt time_step_seconds] s
    = ({| cf.fs := <[cf.cf_compliant_file self := cf.empty_nc]> (cf.fs s);
          cf.raw_nc := cf.raw_nc s; cf.cf_nc := Some nc |}, Ok tt) /\
    cf.dimensions nc = <[id_dim_name := id_len]> (<["time"%string := time_len]> ∅) /\
    cf.read_ints nc id_dim_name = Ok (replicate id_len (-2147483647)) /\
    cf.read_ints nc "time" = Ok (replicate time_len (-2147483647)) /\
    cf.read_floats nc "lat" = Ok (replicate id_len coord_fill) /\
    cf.read_floats nc "lon" = Ok (replicate id_len coord_fill) /\
    cf.read_floats nc "z" = Ok (replicate id_len coord_fill) /\
    dom (cf.variables nc) = {[ id_dim_name; "time"; "lat"; "lon"; "z"; "crs" ]}%string.
Proof.
  intros Hname.
  assert (Hne : id_dim_name <> "time"%string /\ id_dim_name <> "lat"%string /\
                id_dim_name <> "lon"%string /\ id_dim_name <> "z"%string /\
                id_dim_name <> "crs"%string).
  { repeat split; intros ->; apply Hname; set_solver. }
  destruct Hne as (Ht & Hlat & Hlon & Hz & Hcrs).
  eexists. split.
  - unfold cf._initialize_output.
    erewrite iobind_ok by reflexivity.
    erewrite iobind_ok by reflexivity.
    erewrite iobind_ok by reflexivity.
    erewrite iobind_ok by (eapply update_cf_ok; reflexivity).
    erewrite iobind_ok
      by (eapply update_cf_ok; [reflexivity | rewrite as_nat_of_nat; reflexivity]).
    erewrite iobind_ok
      by (eapply update_cf_ok; [reflexivity | rewrite as_nat_of_nat; reflexivity]).
    erewrite iobind_ok.
    2:{ eapply update_cf_ok; [reflexivity|].
        unfold cf.createVariable_int1, cf.createVariable_float1, cf.dim_len,
          cf.as_str.
        repeat (cbn [bind cf.dimensions cf.set_variable cf.createDimension];
                first [rewrite lookup_insert_eq
                      | rewrite lookup_insert_ne by done]).
        cbn [bind].
        reflexivity. }
    reflexivity.
  - pose proof (attrs_keep_dimensions
                  (fun _ (k : string) => (k, cf.AttrFloat fzero)) cf.zero_bounds) as Hz0.
    pose proof (attrs_keep_dimensions
                  (fun _ (kv : string * string) => (fst kv, cf.AttrStr (snd kv)))
                  cf.global_attributes) as Hg0.
    cbn [fst snd] in Hz0, Hg0.
    split.
    { rewrite !dimensions_set_variable, !dimensions_createDimension,
        !dimensions_setncattr, (proj1 (Hz0 _)), (proj1 (Hg0 _)). reflexivity. }
    split.
    { rewrite !read_ints_set_ne by congruence. apply read_ints_set_eq. }
    split.
    { rewrite !read_ints_set_ne by congruence. apply read_ints_set_eq. }
    split.
    { rewrite !read_floats_set_ne by congruence. apply read_floats_set_eq. }
    split.
    { rewrite !read_floats_set_ne by congruence. apply read_floats_set_eq. }
    split.
    { rewrite !read_floats_set_ne by congruence. apply read_floats_set_eq. }
    rewrite !variables_set_variable, !variables_createDimension,
      !variables_setncattr, (proj2 (Hz0 _)), (proj2 (Hg0 _)).
    change (cf.variables cf.empty_nc) with (∅ : gmap string (cf.ncvar (F := F))).
    rewrite !dom_insert_L, dom_empty_L.
    apply set_eq; intros x.
    rewrite !elem_of_union, !elem_of_singleton, elem_of_empty. tauto.
Qed.

End InitializeProps.

(** ** make_CF_RAPID_output.py: the flow variable *)

Section CopyProps.
Context {F : Type} (fzero nc_fill : F) (csv_to_list_qinit : string -> list (list F)).

(** X9.  [_copy_streamflow_values] (lines 352-376) on the stores a
    conversion makes: the raw flows are declared (Time, identifier) with
    [T] time steps and [N] identifiers, the output has [N] identifiers
    and [T + 1] time steps.  The method returns only when [T = 1] and
    [N <= 1]: for every other shape the assignment of line 368 cannot be
    broadcast.  When it returns, the dataset is the one [createVariable]
    made: every slot of the flow variable holds the fill value, neither
    a raw flow nor an initial flow has been stored. *)
Theorem copy_streamflow_values_needs_one_step
    (self : cf.ConvertRAPIDOutputToCF) (input_flow_var_name : string)
    (raw_nc cf_nc cf_nc' : cf.ncfile (F := F)) (raw_values : cf.array2) :
  cf.read_matrix raw_nc input_flow_var_name = Ok raw_values ->
  cf.dimensions cf_nc !! cf.output_id_dim_name self = Some (cf.shape1 raw_values) ->
  cf.dimensions cf_nc !! "time"%string = Some (cf.shape0 raw_values + 1)%nat ->
  cf._copy_streamflow_values fzero nc_fill csv_to_list_qinit self
    input_flow_var_name raw_nc cf_nc = Ok cf_nc' ->
  cf.shape0 raw_values = 1%nat /\
  (cf.shape1 raw_values <= 1)%nat /\
  cf_nc' = cf.set_variable (cf.output_flow_var_name self)
             {| cf.var_dimensions := [cf.output_id_dim_name self; "time"%string];
                cf.var_data :=
                  cf.FloatMat (replicate (cf.shape1 raw_values)
                                 (replicate (cf.shape0 raw_values + 1) nc_fill)) |}
             cf_nc.
Proof.
  intros Hraw Hid Ht Hrun.
  pose proof (copy_streamflow_values_writes_nothing _ _ _ _ _ _ _ _ Hrun) as Hcreate.
  unfold cf.createVariable_float2, cf.dim_len in Hcreate.
  rewrite Hid, Ht in Hcreate. simpl in Hcreate. injection Hcreate as <-.
  revert Hrun. unfold cf._copy_streamflow_values, cf.createVariable_float2, cf.dim_len.
  rewrite Hid, Ht. simpl. rewrite Hraw. simpl.
  unfold cf.read_matrix, cf.get_variable, cf.set_variable, cf.dim_len. simpl.
  rewrite lookup_insert_eq. simpl. rewrite Hid, Ht. simpl.
  unfold cf.setitem_rows_from, cf.broadcastable. simpl.
  destruct (_ && _) eqn:Hb; simpl; [|discriminate]. intros _.
  apply andb_true_iff in Hb as [Hb0 Hb1].
  apply orb_true_iff in Hb0, Hb1.
  rewrite !Nat.eqb_eq in Hb0, Hb1.
  split; [lia|]. split; [lia | reflexivity].
Qed.

End CopyProps.

(** ** make_CF_RAPID_output.py: coordinates and their bounds *)

Ltac str_ne := let H := fresh in intros H; discriminate H.

Section EnrichmentProps.
Context {F : Type} (flt : F -> F -> bool).
Context (csv_to_list_lookup : string -> list (cf.lookup_row (F := F))).

Lemma lookup_step_inv (lookup_table : list cf.lookup_row)
    (loc loc' : cf.lookup_locals (F := F)) (nc_index : nat) (nc_comid : Z) :
  cf.lookup_step flt lookup_table (map cf.row_comid (tail lookup_table))
    loc nc_index nc_comid = Ok loc' ->
  exists j row,
    first_row_of lookup_table nc_comid row /\
    (nc_index < length (cf.lats loc))%nat /\
    (nc_index < length (cf.lons loc))%nat /\
    (nc_index < length (cf.zs loc))%nat /\
    loc' = {| cf.lookup_index := Some (j + 1)%nat;
              cf.lats := <[nc_index := cf.row_lat row]> (cf.lats loc);
              cf.lons := <[nc_index := cf.row_lon row]> (cf.lons loc);
              cf.zs := <[nc_index := cf.row_z row]> (cf.zs loc);
              cf.lat_min := cf.update_min flt (cf.lat_min loc) (cf.row_lat row);
              cf.lat_max := cf.update_max flt (cf.lat_max loc) (cf.row_lat row);
              cf.lon_min := cf.update_min flt (cf.lon_min loc) (cf.row_lon row);
              cf.lon_max := cf.update_max flt (cf.lon_max loc) (cf.row_lon row);
              cf.z_min := cf.update_min flt (cf.z_min loc) (cf.row_z row);
              cf.z_max := cf.update_max flt (cf.z_max loc) (cf.row_z row) |}.
Proof.
  unfold cf.lookup_step.
  destruct (rapid.first_index (map cf.row_comid (tail lookup_table)) nc_comid)
    as [j|e] eqn:Hj; unfold rapid.first_index in Hj; rewrite Hj; simpl;
    [|discriminate].
  apply first_index_first in Hj as [Hl Hmin].
  unfold np.item at 1.
  destruct (lookup_table !! (j + 1)%nat) as [row|] eqn:Hrow; simpl; [|discriminate].
  unfold np.setitem.
  destruct (decide (nc_index < length (cf.lats loc))%nat); simpl; [|discriminate].
  destruct (decide (nc_index < length (cf.lons loc))%nat); simpl; [|discriminate].
  destruct (decide (nc_index < length (cf.zs loc))%nat); simpl; [|discriminate].
  intros [= <-]. exists j, row.
  rewrite Nat.add_1_r, <- lookup_tail in Hrow.
  rewrite list_lookup_fmap, Hrow in Hl. simpl in Hl.
  split; [|by rewrite Nat.add_1_r].
  exists j. split; [exact Hrow|]. split; [congruence|].
  intros j' row' Hlt Hrow' Heq. apply (Hmin j' Hlt).
  rewrite list_lookup_fmap, Hrow'. simpl. congruence.
Qed.

Lemma lookup_fold_inv (lookup_table : list cf.lookup_row) :
  forall (nc_comids : list Z) (i : nat) (loc loc' : cf.lookup_locals (F := F)),
    foldM_from
      (cf.lookup_step flt lookup_table (map cf.row_comid (tail lookup_table)))
      i nc_comids loc = Ok loc' ->
    exists rows,
      Forall2 (first_row_of lookup_table) nc_comids rows /\
      (length (cf.lats loc') = length (cf.lats loc) /\
       length (cf.lons loc') = length (cf.lons loc) /\
       length (cf.zs loc') = length (cf.zs loc)) /\
      (forall k row, rows !! k = Some row ->
         cf.lats loc' !! (i + k)%nat = Some (cf.row_lat row) /\
         cf.lons loc' !! (i + k)%nat = Some (cf.row_lon row) /\
         cf.zs loc' !! (i + k)%nat = Some (cf.row_z row)) /\
      (forall k, (k < i)%nat ->
         cf.lats loc' !! k = cf.lats loc !! k /\
         cf.lons loc' !! k = cf.lons loc !! k /\
         cf.zs loc' !! k = cf.zs loc !! k) /\
      cf.lat_min loc' = foldl (cf.update_min flt) (cf.lat_min loc) (map cf.row_lat rows) /\
      cf.lat_max loc' = foldl (cf.update_max flt) (cf.lat_max loc) (map cf.row_lat rows) /\
      cf.lon_min loc' = foldl (cf.update_min flt) (cf.lon_min loc) (map cf.row_lon rows) /\
      cf.lon_max loc' = foldl (cf.update_max flt) (cf.lon_max loc) (map cf.row_lon rows) /\
      cf.z_min loc' = foldl (cf.update_min flt) (cf.z_min loc) (map cf.row_z rows) /\
      cf.z_max loc' = foldl (cf.update_max flt) (cf.z_max loc) (map cf.row_z rows).
Proof.
  induction nc_comids as [|c rest IH]; intros i loc loc'; simpl.
  - intros [= <-]. exists []. split; [constructor|]. split; [done|].
    split; [intros k row Hk; by destruct k|]. split; [done|]. done.
  - destruct (cf.lookup_step _ _ _ loc i c) as [loc1|] eqn:Hstep; simpl; [|discriminate].
    intros Hfold.
    destruct (lookup_step_inv _ _ _ _ _ Hstep) as (j & row & Hfirst & Hi1 & Hi2 & Hi3 & ->).
    destruct (IH _ _ _ Hfold)
      as (rows & Hrows & (Hl1 & Hl2 & Hl3) & Hset & Hkeep & Hb).
    simpl in *. rewrite !length_insert in *.
    exists (row :: rows). split; [by constructor|]. split; [done|].
    split; [|split; [|exact Hb]].
    + intros [|k] row0 Hk; simpl in Hk.
      * injection Hk as <-. rewrite Nat.add_0_r.
        destruct (Hkeep i ltac:(lia)) as (-> & -> & ->).
        by rewrite !list_lookup_insert_eq.
      * replace (i + S k)%nat with (S i + k)%nat by lia. by apply Hset.
    + intros k Hk. destruct (Hkeep k ltac:(lia)) as (-> & -> & ->).
      by rewrite !list_lookup_insert_ne by lia.
Qed.

Lemma lookup_fold_total (lookup_table : list cf.lookup_row) :
  forall (nc_comids : list Z) (i : nat) (loc : cf.lookup_locals (F := F)),
    (i + length nc_comids <= length (cf.lats loc))%nat ->
    (i + length nc_comids <= length (cf.lons loc))%nat ->
    (i + length nc_comids <= length (cf.zs loc))%nat ->
    Forall (fun c => c ∈ map cf.row_comid (tail lookup_table)) nc_comids ->
    exists loc',
      foldM_from
        (cf.lookup_step flt lookup_table (map cf.row_comid (tail lookup_table)))
        i nc_comids loc = Ok loc'.
Proof.
  induction nc_comids as [|c rest IH]; intros i loc Hlat Hlon Hz Hall; simpl.
  - by eexists.
  - simpl in Hlat, Hlon, Hz. apply Forall_cons in Hall as [Hc Hall].
    destruct (lookup_step_found flt lookup_table loc i c Hc)
      as (loc1 & Hstep & Hl1 & Hl2 & Hl3); [lia | lia | lia |].
    rewrite Hstep. simpl. apply IH; [lia | lia | lia | exact Hall].
Qed.

Lemma foldl_update_min_Some (l : list F) (v : F) :
  strict_weak_order flt ->
  exists m, foldl (cf.update_min flt) (Some v) l = Some m /\ m ∈ v :: l /\
            forall y, y ∈ v :: l -> flt y m = false.
Proof.
  intros (Hirr & Htrans & Hco). revert v.
  induction l as [|x l IH]; intros v; simpl.
  - exists v. split; [reflexivity|]. split; [by left|].
    intros y Hy. apply list_elem_of_singleton in Hy as ->. apply Hirr.
  - destruct (flt x v) eqn:Hxv.
    + destruct (IH x) as (m & Hm & Hin & Hmin).
      exists m. split; [exact Hm|]. split; [by right|].
      intros y Hy. apply elem_of_cons in Hy as [->|Hy]; [|by apply Hmin].
      destruct (flt v m) eqn:Hvm; [|reflexivity].
      rewrite <- (Hmin x ltac:(by left)). symmetry. by apply (Htrans x v m).
    + destruct (IH v) as (m & Hm & Hin & Hmin).
      exists m. split; [exact Hm|]. split.
      { apply elem_of_cons in Hin as [->|Hin]; [by left | by right; right]. }
      intros y Hy. apply elem_of_cons in Hy as [->|Hy]; [by apply Hmin; left|].
      apply elem_of_cons in Hy as [->|Hy]; [|by apply Hmin; right].
      destruct (flt x m) eqn:Hxm; [|reflexivity].
      destruct (Hco x v m Hxm) as [H|H]; [congruence|].
      rewrite (Hmin v ltac:(by left)) in H. discriminate.
Qed.

Lemma foldl_update_max_Some (l : list F) (v : F) :
  strict_weak_order flt ->
  exists m, foldl (cf.update_max flt) (Some v) l = Some m /\ m ∈ v :: l /\
            forall y, y ∈ v :: l -> flt m y = false.
Proof.
  intros (Hirr & Htrans & Hco). revert v.
  induction l as [|x l IH]; intros v; simpl.
  - exists v. split; [reflexivity|]. split; [by left|].
    intros y Hy. apply list_elem_of_singleton in Hy as ->. apply Hirr.
  - destruct (flt v x) eqn:Hvx.
    + destruct (IH x) as (m & Hm & Hin & Hmax).
      exists m. split; [exact Hm|]. split; [by right|].
      intros y Hy. apply elem_of_cons in Hy as [->|Hy]; [|by apply Hmax].
      destruct (flt m v) eqn:Hmv; [|reflexivity].
      rewrite <- (Hmax x ltac:(by left)). symmetry. by apply (Htrans m v x).
    + destruct (IH v) as (m & Hm & Hin & Hmax).
      exists m. split; [exact Hm|]. split.
      { apply elem_of_cons in Hin as [->|Hin]; [by left | by right; right]. }
      intros y Hy. apply elem_of_cons in Hy as [->|Hy]; [by apply Hmax; left|].
      apply elem_of_cons in Hy as [->|Hy]; [|by apply Hmax; right].
      destruct (flt m x) eqn:Hmx; [|reflexivity].
      destruct (Hco m v x Hmx) as [H|H]; [|congruence].
      rewrite (Hmax v ltac:(by left)) in H. discriminate.
Qed.

Lemma foldl_update_bounds (l : list F) :
  strict_weak_order flt -> l <> [] ->
  exists lo hi,
    foldl (cf.update_min flt) None l = Some lo /\
    foldl (cf.update_max flt) None l = Some hi /\
    lo ∈ l /\ hi ∈ l /\
    forall y, y ∈ l -> flt y lo = false /\ flt hi y = false.
Proof.
  intros Hord Hne. destruct l as [|v l]; [contradiction|]. simpl.
  destruct (foldl_update_min_Some l v Hord) as (lo & Hlo & Hinlo & Hmin).
  destruct (foldl_update_max_Some l v Hord) as (hi & Hhi & Hinhi & Hmax).
  exists lo, hi. repeat split; auto.
Qed.

Lemma assign_variable_inv (name : string) (data : cf.ncdata) (nc nc' : cf.ncfile (F := F)) :
  cf.assign_variable name data nc = Ok nc' ->
  exists dims, nc' = cf.set_variable name
                       {| cf.var_dimensions := dims; cf.var_data := data |} nc.
Proof.
  unfold cf.assign_variable.
  destruct (cf.get_variable nc name) as [v|]; simpl; [|discriminate].
  destruct (Nat.eqb _ _); [|discriminate].
  intros [= <-]. by eexists.
Qed.

Lemma assign_floats_ok (name : string) (old new : list F) (nc : cf.ncfile (F := F)) :
  cf.read_floats nc name = Ok old -> length new = length old ->
  exists dims,
    cf.assign_variable name (cf.FloatArr new) nc
    = Ok (cf.set_variable name
            {| cf.var_dimensions := dims; cf.var_data := cf.FloatArr new |} nc).
Proof.
  unfold cf.read_floats, cf.assign_variable.
  destruct (cf.get_variable nc name) as [v|]; simpl; [|discriminate].
  destruct (cf.var_data v) eqn:Hv; try discriminate. intros [= ->] Hlen.
  simpl. rewrite Hlen, Nat.eqb_refl. by eexists.
Qed.

Lemma read_floats_set_bound (name var : string) (b : option F) (nc : cf.ncfile (F := F)) :
  cf.read_floats (cf.set_bound name b nc) var = cf.read_floats nc var.
Proof. by destruct b. Qed.

Lemma dimensions_set_bound (name : string) (b : option F) (nc : cf.ncfile (F := F)) :
  cf.dimensions (cf.set_bound name b nc) = cf.dimensions nc.
Proof. by destruct b. Qed.

Lemma attributes_set_bound_eq (name : string) (x : F) (nc : cf.ncfile (F := F)) :
  cf.attributes (cf.set_bound name (Some x) nc) !! name = Some (cf.AttrFloat x).
Proof. simpl. apply lookup_insert_eq. Qed.

Lemma attributes_set_bound_ne (name name' : string) (b : option F)
    (nc : cf.ncfile (F := F)) :
  name <> name' ->
  cf.attributes (cf.set_bound name b nc) !! name' = cf.attributes nc !! name'.
Proof. intros Hne. destruct b; simpl; [by apply lookup_insert_ne | reflexivity]. Qed.

Lemma rows_fill (A : Type) (g : cf.lookup_row (F := F) -> A) (rows : list cf.lookup_row)
    (l : list A) :
  length l = length rows ->
  (forall k row, rows !! k = Some row -> l !! k = Some (g row)) ->
  l = map g rows.
Proof.
  intros Hlen Hset. apply list_eq. intros k.
  rewrite list_lookup_fmap.
  destruct (rows !! k) as [row|] eqn:Hrow; simpl.
  - by apply Hset.
  - apply lookup_ge_None. rewrite Hlen. by apply lookup_ge_None.
Qed.

(** What a run of [_write_comid_lat_lon_z] with a lookup table returns:
    one data row per output identifier, the first with that identifier;
    the three coordinate variables hold the rows' values, and every
    bound is the running minimum or maximum over them. *)
Lemma write_comid_inv (self : cf.ConvertRAPIDOutputToCF)
    (cf_nc nc' : cf.ncfile) (nc_comids : list Z) (lats lons zs : list F) :
  cf.comid_lat_lon_z_file self <> ""%string ->
  cf.read_ints cf_nc (cf.output_id_dim_name self) = Ok nc_comids ->
  cf.read_floats cf_nc "lat" = Ok lats ->
  cf.read_floats cf_nc "lon" = Ok lons ->
  cf.read_floats cf_nc "z" = Ok zs ->
  length lats = length nc_comids ->
  length lons = length nc_comids ->
  length zs = length nc_comids ->
  cf._write_comid_lat_lon_z flt csv_to_list_lookup self cf_nc = Ok nc' ->
  exists rows d1 d2 d3,
    Forall2 (first_row_of (csv_to_list_lookup (cf.comid_lat_lon_z_file self)))
      nc_comids rows /\
    nc' =
    cf.set_bound "geospatial_vertical_max"
      (foldl (cf.update_max flt) None (map cf.row_z rows))
      (cf.set_bound "geospatial_vertical_min"
         (foldl (cf.update_min flt) None (map cf.row_z rows))
      (cf.set_bound "geospatial_lon_max"
         (foldl (cf.update_max flt) None (map cf.row_lon rows))
      (cf.set_bound "geospatial_lon_min"
         (foldl (cf.update_min flt) None (map cf.row_lon rows))
      (cf.set_bound "geospatial_lat_max"
         (foldl (cf.update_max flt) None (map cf.row_lat rows))
      (cf.set_bound "geospatial_lat_min"
         (foldl (cf.update_min flt) None (map cf.row_lat rows))
      (cf.set_variable "z"
         {| cf.var_dimensions := d3; cf.var_data := cf.FloatArr (map cf.row_z rows) |}
      (cf.set_variable "lon"
         {| cf.var_dimensions := d2; cf.var_data := cf.FloatArr (map cf.row_lon rows) |}
      (cf.set_variable "lat"
         {| cf.var_dimensions := d1; cf.var_data := cf.FloatArr (map cf.row_lat rows) |}
         cf_nc)))))))).
Proof.
  intros Hfile Hids Hlat Hlon Hz Hl1 Hl2 Hl3.
  unfold cf._write_comid_lat_lon_z.
  destruct (String.eqb_spec (cf.comid_lat_lon_z_file self) "") as [|_];
    [contradiction|]. simpl.
  rewrite Hids, Hlat, Hlon, Hz. simpl. unfold for_enumerate.
  destruct (foldM_from _ 0 nc_comids _) as [loc|] eqn:Hfold; simpl; [|discriminate].
  destruct (lookup_fold_inv _ _ _ _ _ Hfold)
    as (rows & Hrows & (Hn1 & Hn2 & Hn3) & Hset & _ & Hb1 & Hb2 & Hb3 & Hb4 & Hb5 & Hb6).
  simpl in *.
  pose proof (Forall2_length _ _ _ Hrows) as Hlen.
  assert (cf.lats loc = map cf.row_lat rows) as Hlats.
  { apply rows_fill; [lia|]. intros k row Hk. by apply (Hset k row Hk). }
  assert (cf.lons loc = map cf.row_lon rows) as Hlons.
  { apply rows_fill; [lia|]. intros k row Hk. by apply (Hset k row Hk). }
  assert (cf.zs loc = map cf.row_z rows) as Hzs.
  { apply rows_fill; [lia|]. intros k row Hk. by apply (Hset k row Hk). }
  rewrite Hb1, Hb2, Hb3, Hb4, Hb5, Hb6, Hlats, Hlons, Hzs.
  destruct (cf.assign_variable "lat" _ cf_nc) as [nc1|] eqn:H1; simpl; [|discriminate].
  destruct (cf.assign_variable "lon" _ nc1) as [nc2|] eqn:H2; simpl; [|discriminate].
  destruct (cf.assign_variable "z" _ nc2) as [nc3|] eqn:H3; simpl; [|discriminate].
  apply assign_variable_inv in H1 as [d1 ->].
  apply assign_variable_inv in H2 as [d2 ->].
  apply assign_variable_inv in H3 as [d3 ->].
  intros [= <-]. by exists rows, d1, d2, d3.
Qed.

(** X10.  [_write_comid_lat_lon_z] with a lookup table that holds every
    output identifier (lines 284-334): the method returns, and position
    [k] of lat, lon and z holds the values of the first data row of the
    table (the header row is skipped) whose identifier is the output
    identifier at [k].  Dimensions are left as they were. *)
Theorem write_comid_takes_first_rows (self : cf.ConvertRAPIDOutputToCF)
    (cf_nc : cf.ncfile) (nc_comids : list Z) (lats lons zs : list F) :
  cf.comid_lat_lon_z_file self <> ""%string ->
  cf.read_ints cf_nc (cf.output_id_dim_name self) = Ok nc_comids ->
  cf.read_floats cf_nc "lat" = Ok lats ->
  cf.read_floats cf_nc "lon" = Ok lons ->
  cf.read_floats cf_nc "z" = Ok zs ->
  length lats = length nc_comids ->
  length lons = length nc_comids ->
  length zs = length nc_comids ->
  Forall (fun c => c ∈ map cf.row_comid
                         (tail (csv_to_list_lookup (cf.comid_lat_lon_z_file self))))
    nc_comids ->
  exists nc' rows,
    cf._write_comid_lat_lon_z flt csv_to_list_lookup self cf_nc = Ok nc' /\
    Forall2 (first_row_of (csv_to_list_lookup (cf.comid_lat_lon_z_file self)))
      nc_comids rows /\
    cf.read_floats nc' "lat" = Ok (map cf.row_lat rows) /\
    cf.read_floats nc' "lon" = Ok (map cf.row_lon rows) /\
    cf.read_floats nc' "z" = Ok (map cf.row_z rows) /\
    cf.dimensions nc' = cf.dimensions cf_nc.
Proof.
  intros Hfile Hids Hlat Hlon Hz Hl1 Hl2 Hl3 Hall.
  assert (exists nc', cf._write_comid_lat_lon_z flt csv_to_list_lookup self cf_nc
                      = Ok nc') as [nc' Hrun].
  { unfold cf._write_comid_lat_lon_z.
    destruct (String.eqb_spec (cf.comid_lat_lon_z_file self) "") as [|_];
      [contradiction|]. simpl.
    rewrite Hids, Hlat, Hlon, Hz. simpl. unfold for_enumerate.
    destruct (lookup_fold_total
                (csv_to_list_lookup (cf.comid_lat_lon_z_file self)) nc_comids 0
                {| cf.lookup_index := None;
                   cf.lats := lats; cf.lons := lons; cf.zs := zs;
                   cf.lat_min := None; cf.lat_max := None;
                   cf.lon_min := None; cf.lon_max := None;
                   cf.z_min := None; cf.z_max := None |})
      as [loc Hfold]; simpl; [lia | lia | lia | exact Hall |].
    rewrite Hfold. simpl.
    destruct (lookup_fold_inv _ _ _ _ _ Hfold) as (_ & _ & (Hn1 & Hn2 & Hn3) & _).
    simpl in Hn1, Hn2, Hn3.
    destruct (assign_floats_ok "lat" lats (cf.lats loc) cf_nc Hlat Hn1) as [d1 ->].
    simpl.
    destruct (assign_floats_ok "lon" lons (cf.lons loc)
                (cf.set_variable "lat"
                   {| cf.var_dimensions := d1;
                      cf.var_data := cf.FloatArr (cf.lats loc) |} cf_nc))
      as [d2 ->]; [by rewrite read_floats_set_ne by str_ne | exact Hn2 |].
    simpl.
    destruct (assign_floats_ok "z" zs (cf.zs loc)
                (cf.set_variable "lon"
                   {| cf.var_dimensions := d2;
                      cf.var_data := cf.FloatArr (cf.lons loc) |}
                   (cf.set_variable "lat"
                      {| cf.var_dimensions := d1;
                         cf.var_data := cf.FloatArr (cf.lats loc) |} cf_nc)))
      as [d3 ->]; [by rewrite !read_floats_set_ne by str_ne | exact Hn3 |].
    simpl. by eexists. }
  destruct (write_comid_inv self cf_nc nc' nc_comids lats lons zs
              Hfile Hids Hlat Hlon Hz Hl1 Hl2 Hl3 Hrun)
    as (rows & d1 & d2 & d3 & Hrows & Hnc).
  exists nc', rows. split; [exact Hrun|]. split; [exact Hrows|].
  rewrite Hnc, !read_floats_set_bound. split; [|split; [|split]].
  - rewrite !read_floats_set_ne by str_ne. apply read_floats_set_eq.
  - rewrite !read_floats_set_ne by str_ne. apply read_floats_set_eq.
  - apply read_floats_set_eq.
  - by rewrite !dimensions_set_bound.
Qed.

(** X11.  The bounds written by [_write_comid_lat_lon_z] (lines
    307-348), for a comparison [<] that orders the coordinate values (a
    strict weak order) and at least one output identifier: when the
    method returns, each of geospatial_lat_min/max, geospatial_lon_min/max
    and geospatial_vertical_min/max is one of the values stored in its
    variable, no stored value is below the minimum and none is above the
    maximum. *)
Theorem write_comid_bounds_are_extrema (self : cf.ConvertRAPIDOutputToCF)
    (cf_nc nc' : cf.ncfile) (nc_comids : list Z) (lats lons zs : list F) :
  strict_weak_order flt ->
  cf.comid_lat_lon_z_file self <> ""%string ->
  cf.read_ints cf_nc (cf.output_id_dim_name self) = Ok nc_comids ->
  nc_comids <> [] ->
  cf.read_floats cf_nc "lat" = Ok lats ->
  cf.read_floats cf_nc "lon" = Ok lons ->
  cf.read_floats cf_nc "z" = Ok zs ->
  length lats = length nc_comids ->
  length lons = length nc_comids ->
  length zs = length nc_comids ->
  cf._write_comid_lat_lon_z flt csv_to_list_lookup self cf_nc = Ok nc' ->
  bounded_by flt nc' "lat" "geospatial_lat_min" "geospatial_lat_max" /\
  bounded_by flt nc' "lon" "geospatial_lon_min" "geospatial_lon_max" /\
  bounded_by flt nc' "z" "geospatial_vertical_min" "geospatial_vertical_max".
Proof.
  intros Hord Hfile Hids Hne Hlat Hlon Hz Hl1 Hl2 Hl3 Hrun.
  destruct (write_comid_inv self cf_nc nc' nc_comids lats lons zs
              Hfile Hids Hlat Hlon Hz Hl1 Hl2 Hl3 Hrun)
    as (rows & d1 & d2 & d3 & Hrows & ->).
  assert (rows <> []) as Hrne.
  { intros ->. apply Forall2_length in Hrows. by destruct nc_comids. }
  destruct (foldl_update_bounds (map cf.row_lat rows) Hord)
    as (lo1 & hi1 & -> & -> & Hin1 & Hin1' & Hb1); [by destruct rows|].
  destruct (foldl_update_bounds (map cf.row_lon rows) Hord)
    as (lo2 & hi2 & -> & -> & Hin2 & Hin2' & Hb2); [by destruct rows|].
  destruct (foldl_update_bounds (map cf.row_z rows) Hord)
    as (lo3 & hi3 & -> & -> & Hin3 & Hin3' & Hb3); [by destruct rows|].
  split; [|split].
  - exists (map cf.row_lat rows), lo1, hi1.
    split. { rewrite !read_floats_set_bound, !read_floats_set_ne by done.
             apply read_floats_set_eq. }
    split. { rewrite !attributes_set_bound_ne by str_ne. apply attributes_set_bound_eq. }
    split. { rewrite !attributes_set_bound_ne by str_ne. apply attributes_set_bound_eq. }
    done.
  - exists (map cf.row_lon rows), lo2, hi2.
    split. { rewrite !read_floats_set_bound, !read_floats_set_ne by done.
             apply read_floats_set_eq. }
    split. { rewrite !attributes_set_bound_ne by str_ne. apply attributes_set_bound_eq. }
    split. { rewrite !attributes_set_bound_ne by str_ne. apply attributes_set_bound_eq. }
    done.
  - exists (map cf.row_z rows), lo3, hi3.
    split. { rewrite !read_floats_set_bound. apply read_floats_set_eq. }
    split. { rewrite !attributes_set_bound_ne by str_ne. apply attributes_set_bound_eq. }
    split. { apply attributes_set_bound_eq. }
    done.
Qed.

End EnrichmentProps.

(** ** inflow/generate_seasonal_averages.py: selection and storage *)

Lemma elem_of_where_from (s : nat) (mask : list bool) (i : nat) :
  i ∈ np.where_from s mask <-> exists k, i = (s + k)%nat /\ mask !! k = Some true.
Proof.
  revert s. induction mask as [|b mask IH]; intros s; simpl.
  - split; [by intros ?%elem_of_nil | intros (k & _ & Hk); by destruct k].
  - assert (i ∈ np.where_from (S s) mask <->
            exists k, i = (s + S k)%nat /\ mask !! k = Some true) as IH'.
    { rewrite IH. split; intros (k & -> & Hk); exists k; split; auto; lia. }
    destruct b.
    + rewrite elem_of_cons, IH'. split.
      * intros [->|(k & -> & Hk)]; [exists 0%nat; split; [lia | done]|].
        by exists (S k).
      * intros ([|k] & -> & Hk); [left; lia | right; by exists k].
    + rewrite IH'. split.
      * intros (k & -> & Hk). by exists (S k).
      * intros ([|k] & -> & Hk); [discriminate | by exists k].
Qed.

(** X12.  The selection of [generate_single_seasonal_average] (lines
    27-43) on a record none of whose steps is after day 60 of a leap
    year: the bin [day_of_year] gets the positions of exactly the steps
    whose day of the year [y], as [gmtime] gives it, has
    [day_of_year - 3 <= y < day_of_year + 3], a window of six days that
    does not wrap around the end of the year; when no step is in the
    window the worker raises IndexError. *)
Theorem select_time_indices_window (time_array : list Z) (day_of_year : Z) :
  Forall (fun t => seasonal.isleap (seasonal.tm_year (seasonal.gmtime t)) &&
                   (60 <? seasonal.tm_yday (seasonal.gmtime t)) = false)
    time_array ->
  match seasonal.select_time_indices time_array day_of_year with
  | Ok time_indices =>
      time_indices <> [] /\
      forall i, i ∈ time_indices <->
        exists t, time_array !! i = Some t /\
          day_of_year - 3 <= seasonal.tm_yday (seasonal.gmtime t) < day_of_year + 3
  | Raise e =>
      e = IndexError "No time steps found within range ..." /\
      forall t, t ∈ time_array ->
        ~ (day_of_year - 3 <= seasonal.tm_yday (seasonal.gmtime t) < day_of_year + 3)
  end.
Proof.
  intros Hall. rewrite (select_time_indices_plain time_array day_of_year Hall).
  assert (forall i, i ∈ np.where_ (map (in_window day_of_year) time_array) <->
            exists t, time_array !! i = Some t /\
              day_of_year - 3 <= seasonal.tm_yday (seasonal.gmtime t) < day_of_year + 3)
    as Hmem.
  { intros i. unfold np.where_. rewrite elem_of_where_from. split.
    - intros (k & -> & Hk). simpl. rewrite list_lookup_fmap in Hk.
      destruct (time_array !! k) as [t|]; [|discriminate]. simpl in Hk.
      exists t. split; [reflexivity|]. injection Hk as Hk.
      unfold in_window in Hk. apply andb_true_iff in Hk as [H1 H2].
      apply Z.leb_le in H1. apply Z.ltb_lt in H2. lia.
    - intros (t & Ht & Hw). exists i. split; [reflexivity|].
      rewrite list_lookup_fmap, Ht. simpl. f_equal. unfold in_window.
      apply andb_true_iff. split; [apply Z.leb_le | apply Z.ltb_lt]; lia. }
  destruct (np.where_ _) as [|i0 l] eqn:Hw.
  - split; [reflexivity|]. intros t Ht Hin.
    apply list_elem_of_lookup in Ht as [i Hi].
    assert (i ∈ @nil nat) as Hnil by (apply Hmem; by exists t).
    by apply elem_of_nil in Hnil.
  - split; [discriminate | exact Hmem].
Qed.

Section AggregatorProps.
Context {F : Type} (np_mean np_std : list F -> F).

(** X13.  What [generate_single_seasonal_average] stores (lines 45-53),
    with the reader giving one row of selected values per identifier: the
    writes use [day_of_year - 1] as an index on the identifier axis of
    variables declared (rivid, day_of_year).  So a bin is stored only
    when the file has 365 identifiers, the length of a row, or a single
    one: with 365 the per-identifier means and deviations become row
    [day_of_year - 1] of the identifier axis, with one its mean and
    deviation fill that row; the row must exist, and the other rows are
    left as they were. *)
Theorem single_seasonal_average_fills_identifier_row
    (qout_nc_file : seasonal.RAPIDDataset) (day_of_year : Z)
    (return_period_nc nc' : seasonal.seasonal_nc (F := F)) :
  1 <= day_of_year ->
  seasonal.generate_single_seasonal_average np_mean np_std qout_nc_file
    day_of_year return_period_nc = Ok nc' ->
  exists time_indices streamflow_array,
    seasonal.select_time_indices (seasonal.time_array qout_nc_file) day_of_year
      = Ok time_indices /\
    seasonal.get_qout qout_nc_file time_indices = Ok streamflow_array /\
    length streamflow_array = length (seasonal.qout qout_nc_file) /\
    (Z.to_nat (day_of_year - 1) < length (seasonal.average_flow return_period_nc))%nat /\
    (Z.to_nat (day_of_year - 1) < length (seasonal.std_dev_flow return_period_nc))%nat /\
    ((length (seasonal.qout qout_nc_file) = 365%nat /\
      seasonal.average_flow nc' !! Z.to_nat (day_of_year - 1)
        = Some (map np_mean streamflow_array) /\
      seasonal.std_dev_flow nc' !! Z.to_nat (day_of_year - 1)
        = Some (map np_std streamflow_array)) \/
     (exists values,
        streamflow_array = [values] /\
        seasonal.average_flow nc' !! Z.to_nat (day_of_year - 1)
          = Some (replicate 365 (np_mean values)) /\
        seasonal.std_dev_flow nc' !! Z.to_nat (day_of_year - 1)
          = Some (replicate 365 (np_std values)))) /\
    seasonal.rivid nc' = seasonal.rivid return_period_nc /\
    forall r, r <> Z.to_nat (day_of_year - 1) ->
      seasonal.average_flow nc' !! r = seasonal.average_flow return_period_nc !! r /\
      seasonal.std_dev_flow nc' !! r = seasonal.std_dev_flow return_period_nc !! r.
Proof.
  intros Hday. unfold seasonal.generate_single_seasonal_average.
  destruct (seasonal.select_time_indices _ _) as [time_indices|] eqn:Hsel; simpl;
    [|discriminate].
  destruct (seasonal.get_qout _ _) as [streamflow_array|] eqn:Hq; simpl; [|discriminate].
  destruct (seasonal.nc_setitem_first (seasonal.average_flow _) _ _) as [avg'|] eqn:Ha;
    simpl; [|discriminate].
  destruct (seasonal.nc_setitem_first (seasonal.std_dev_flow _) _ _) as [std'|] eqn:Hs;
    simpl; [|discriminate].
  intros [= <-]. simpl.
  destruct (nc_setitem_first_row _ _ _ _ Hday Ha) as (Hin1 & Hrow1 & Hkeep1).
  destruct (nc_setitem_first_row _ _ _ _ Hday Hs) as (Hin2 & Hrow2 & Hkeep2).
  assert (length streamflow_array = length (seasonal.qout qout_nc_file)) as Hlen.
  { unfold seasonal.get_qout in Hq. by apply mapM_length in Hq. }
  exists time_indices, streamflow_array.
  split; [reflexivity|]. split; [exact Hq|]. split; [exact Hlen|].
  split; [exact Hin1|]. split; [exact Hin2|].
  split; [|split; [reflexivity | intros r Hr; split; auto]].
  destruct Hrow1 as [[Hl1 Hr1] | (x & Hx & Hr1)];
    destruct Hrow2 as [[Hl2 Hr2] | (y & Hy & Hr2)].
  - left. rewrite length_map in Hl1. split; [congruence | by split].
  - left. rewrite length_map in Hl1. split; [congruence|]. split; [exact Hr1|].
    exfalso. apply (f_equal length) in Hy. rewrite length_map in Hy. simpl in Hy. lia.
  - exfalso. rewrite length_map in Hl2.
    apply (f_equal length) in Hx. rewrite length_map in Hx. simpl in Hx. lia.
  - right. destruct streamflow_array as [|values [|v2 rest]]; try discriminate.
    simpl in Hx, Hy. injection Hx as <-. injection Hy as <-.
    exists values. by split.
Qed.

End AggregatorProps.

(** One identifier, one time step on 1970-01-01: bin 1 is stored, the
    mean repeated over the only row. *)
Example single_identifier_bin_is_stored :
  let qout_nc_file :=
    {| seasonal.river_id_array := [101];
       seasonal.time_array := [0];
       seasonal.qout := [[7]] |} in
  seasonal.generate_single_seasonal_average head_or_zero (fun _ => 0) qout_nc_file 1
    (seasonal.setup_seasonal_average_file (-1) qout_nc_file)
  = Ok {| seasonal.rivid := [101];
          seasonal.average_flow := [replicate 365 7];
          seasonal.std_dev_flow := [replicate 365 0] |}.
Proof. vm_compute. reflexivity. Qed.

(** ** rapid.py: the verdict of [compare_qout_files] *)

Lemma elem_of_unique_nat (l : list nat) (i : nat) :
  i ∈ np.unique_nat l <-> i ∈ l.
Proof.
  unfold np.unique_nat. rewrite elem_of_remove_dups.
  by rewrite merge_sort_Permutation.
Qed.

Lemma remove_dups_sorted (l : list nat) :
  StronglySorted le l -> StronglySorted lt (remove_dups l).
Proof.
  induction 1 as [|x l Hl IH Hx]; simpl; [constructor|].
  destruct (decide_rel elem_of x l) as [Hin|Hin]; [exact IH|].
  constructor; [exact IH|].
  apply Forall_forall. intros y Hy. apply (proj1 (elem_of_remove_dups _ _)) in Hy.
  rewrite Forall_forall in Hx. specialize (Hx y Hy).
  assert (x <> y) by (intros ->; contradiction). lia.
Qed.

Lemma unique_nat_sorted (l : list nat) : StronglySorted lt (np.unique_nat l).
Proof.
  unfold np.unique_nat. apply remove_dups_sorted.
  apply StronglySorted_merge_sort; apply _.
Qed.

Lemma any_nat_spec (l : list nat) :
  np.any_nat l = true <-> exists i, i ∈ l /\ i <> 0%nat.
Proof.
  unfold np.any_nat. rewrite existsb_exists. split.
  - intros (i & Hi & Hnz). exists i. split; [by apply list_elem_of_In|].
    apply negb_true_iff, Nat.eqb_neq in Hnz. exact Hnz.
  - intros (i & Hi & Hnz). exists i. split; [by apply list_elem_of_In|].
    by apply negb_true_iff, Nat.eqb_neq.
Qed.

Lemma where_nonempty (row : list bool) :
  np.where_ row <> [] <-> true ∈ row.
Proof.
  unfold np.where_. split.
  - intros Hne. destruct (np.where_from 0 row) as [|k l] eqn:Hw; [done|].
    assert (k ∈ np.where_from 0 row) as Hk by (rewrite Hw; by left).
    apply elem_of_where_from in Hk as (j & _ & Hj).
    eapply list_elem_of_lookup_2; eauto.
  - intros Hin Hnil. apply list_elem_of_lookup in Hin as [j Hj].
    assert ((0 + j)%nat ∈ np.where_from 0 row) as Hk
      by (apply elem_of_where_from; by exists j).
    rewrite Hnil in Hk. by apply elem_of_nil in Hk.
Qed.

Lemma elem_of_where_rows_from (mask : list (list bool)) (s i : nat) :
  i ∈ np.where_rows_from s mask
  <-> exists k row, i = (s + k)%nat /\ mask !! k = Some row /\ true ∈ row.
Proof.
  revert s. induction mask as [|row mask IH]; intros s; simpl.
  - split; [by intros ?%elem_of_nil | intros (k & r & _ & Hk & _); by destruct k].
  - rewrite elem_of_app, elem_of_replicate, IH. split.
    + intros [[-> Hne] | (k & r & -> & Hk & Hin)].
      * exists 0%nat, row. split; [lia|]. split; [reflexivity|].
        apply where_nonempty. by destruct (np.where_ row).
      * exists (S k), r. split; [lia|]. by split.
    + intros ([|k] & r & -> & Hk & Hin); simpl in Hk.
      * injection Hk as <-. left. split; [lia|].
        apply where_nonempty in Hin. by destruct (np.where_ row).
      * right. exists k, r. split; [lia|]. by split.
Qed.

Lemma broadcast_axis_id {A} (n : nat) (l : list A) :
  length l = n -> np.broadcast_axis n l = l.
Proof. intros <-. unfold np.broadcast_axis. by rewrite Nat.eqb_refl. Qed.

Lemma broadcast_len_same (n : nat) : np.broadcast_len n n = n.
Proof. unfold np.broadcast_len. by destruct (Nat.eqb_spec n 1). Qed.

Lemma zip_with_rows_ext {A B} (f g : list A -> list A -> list B) (a b : list (list A))
    (P : list A -> Prop) :
  Forall P a -> Forall P b ->
  (forall x y, P x -> P y -> f x y = g x y) ->
  zip_with f a b = zip_with g a b.
Proof.
  intros Ha. revert b. induction Ha as [|x a Hx Ha IH]; intros b Hb Hfg; [reflexivity|].
  destruct Hb as [|y b Hy Hb]; [reflexivity|]. simpl.
  rewrite (Hfg x y Hx Hy). f_equal. by apply IH.
Qed.

Section ReportProps.
Context {F : Type} (fne : F -> F -> bool).

Lemma where_ne_rows_same_shape (a b : list (list F)) (c : nat) :
  length a = length b ->
  Forall (fun row => length row = c) a ->
  Forall (fun row => length row = c) b ->
  np.where_ne_rows fne a b = np.where_rows_from 0 (zip_with (zip_with fne) a b).
Proof.
  intros Hlen Ha Hb. unfold np.where_ne_rows, np.shape.
  destruct a as [|ra a]; destruct b as [|rb b]; try discriminate; [reflexivity|].
  apply Forall_cons in Ha as Ha'. destruct Ha' as [Hra _].
  apply Forall_cons in Hb as Hb'. destruct Hb' as [Hrb _].
  rewrite Hra, Hrb, Hlen. unfold np.broadcastable.
  rewrite !Nat.eqb_refl. simpl orb. cbn [andb].
  rewrite !broadcast_len_same.
  rewrite (broadcast_axis_id _ (ra :: a)) by exact Hlen.
  rewrite (broadcast_axis_id _ (rb :: b)) by reflexivity.
  f_equal. apply (zip_with_rows_ext _ _ _ _ (fun row => length row = c) Ha Hb).
  intros x y Hx Hy. by rewrite !broadcast_axis_id.
Qed.

Lemma where_ne_rows_differs (a b : list (list F)) (c r : nat) :
  length a = length b ->
  Forall (fun row => length row = c) a ->
  Forall (fun row => length row = c) b ->
  r ∈ np.where_ne_rows fne a b <-> row_differs fne a b r.
Proof.
  intros Hlen Ha Hb. rewrite (where_ne_rows_same_shape a b c Hlen Ha Hb).
  rewrite elem_of_where_rows_from. unfold row_differs. split.
  - intros (k & row & -> & Hk & Hin). simpl.
    apply lookup_zip_with_Some in Hk as (row_a & row_b & -> & Hra & Hrb).
    apply list_elem_of_lookup in Hin as [j Hj].
    apply lookup_zip_with_Some in Hj as (x & y & Hne & Hx & Hy).
    by exists row_a, row_b, j, x, y.
  - intros (row_a & row_b & j & x & y & Hra & Hrb & Hx & Hy & Hne).
    exists r, (zip_with fne row_a row_b). split; [reflexivity|]. split.
    + apply lookup_zip_with_Some. by exists row_a, row_b.
    + apply list_elem_of_lookup. exists j.
      apply lookup_zip_with_Some. by exists x, y.
Qed.

(** X14.  The verdict of [compare_qout_files] on two flow arrays of the
    same shape (lines 549-579).  [un_where_diff] holds the indices of the
    rows that differ, each once and in ascending order, and the test
    [un_where_diff.any()] asks whether one of these indices is not zero:
    the arrays are reported the same exactly when they agree on every
    row but possibly the first, so a difference confined to row 0 is
    never reported.  Otherwise the report counts and lists exactly the
    rows that differ and shows the least of them from both arrays. *)
Theorem compare_reports_same_iff_rows_after_first_agree
    (d1_qout d2_reordered_qout : list (list F)) (c : nat) :
  length d1_qout = length d2_reordered_qout ->
  Forall (fun row => length row = c) d1_qout ->
  Forall (fun row => length row = c) d2_reordered_qout ->
  exists rep,
    rapid.compare_qout_values fne d1_qout d2_reordered_qout = Ok rep /\
    match rep with
    | rapid.Same =>
        forall r, row_differs fne d1_qout d2_reordered_qout r -> r = 0%nat
    | rapid.Different n un_where_diff index d1_example d2_example =>
        (exists r, r <> 0%nat /\ row_differs fne d1_qout d2_reordered_qout r) /\
        (forall r, r ∈ un_where_diff <->
                   row_differs fne d1_qout d2_reordered_qout r) /\
        StronglySorted lt un_where_diff /\
        n = length un_where_diff /\
        row_differs fne d1_qout d2_reordered_qout index /\
        (forall r, row_differs fne d1_qout d2_reordered_qout r -> (index <= r)%nat) /\
        d1_qout !! index = Some d1_example /\
        d2_reordered_qout !! index = Some d2_example
    end.
Proof.
  intros Hlen Ha Hb.
  pose proof (fun r => where_ne_rows_differs d1_qout d2_reordered_qout c r Hlen Ha Hb)
    as Hdiff.
  assert (forall r, r ∈ np.unique_nat (np.where_ne_rows fne d1_qout d2_reordered_qout)
                    <-> row_differs fne d1_qout d2_reordered_qout r) as Hun.
  { intros r. by rewrite elem_of_unique_nat. }
  pose proof (unique_nat_sorted (np.where_ne_rows fne d1_qout d2_reordered_qout))
    as Hsorted.
  unfold rapid.compare_qout_values.
  destruct (np.any_nat _) eqn:Hany.
  - apply any_nat_spec in Hany as (r & Hr & Hnz).
    destruct (np.unique_nat _) as [|index rest] eqn:Hu;
      [by apply elem_of_nil in Hr|].
    simpl.
    assert (row_differs fne d1_qout d2_reordered_qout index) as Hidx
      by (apply Hun; by left).
    assert (Hidx' := Hidx).
    destruct Hidx' as (row_a & row_b & j & x & y & Hra & Hrb & Hrest).
    unfold np.item. rewrite Hra, Hrb. simpl.
    eexists. split; [reflexivity|]. simpl.
    split; [exists r; split; [exact Hnz | by apply Hun]|].
    split; [exact Hun|]. split; [exact Hsorted|]. split; [reflexivity|].
    split; [exact Hidx|]. split; [|done].
    intros r' Hr'. apply Hun in Hr'.
    apply elem_of_cons in Hr' as [->|Hr']; [lia|].
    apply StronglySorted_inv in Hsorted as [_ Hall].
    rewrite Forall_forall in Hall. specialize (Hall r' Hr'). lia.
  - eexists. split; [reflexivity|]. simpl.
    intros r Hr.
    destruct (Nat.eq_dec r 0%nat) as [|Hnz]; [assumption|].
    assert (np.any_nat (np.unique_nat
              (np.where_ne_rows fne d1_qout d2_reordered_qout)) = true) as Hyes
      by (apply any_nat_spec; exists r; split; [by apply Hun | exact Hnz]).
    congruence.
Qed.

End ReportProps.

(** ** rapid.py: the manager's parameters *)

Lemma in_dir_setattr (self : manager.RAPID) (key key' : string) (v : manager.value) :
  manager.in_dir self key = true ->
  manager.in_dir (manager.setattr self key v) key' = manager.in_dir self key'.
Proof.
  unfold manager.in_dir, manager.setattr. intros Hkey.
  apply orb_true_iff in Hkey.
  destruct (decide (key' ∈ manager.class_names)) as [Hc|Hc].
  - by rewrite !(bool_decide_eq_true_2 _ Hc), !orb_true_r.
  - rewrite !(bool_decide_eq_false_2 _ Hc), !orb_false_r.
    apply bool_decide_ext. rewrite dom_insert, elem_of_union, elem_of_singleton.
    split; [|by right]. intros [->|H]; [|exact H].
    destruct Hkey as [H|H]; apply bool_decide_eq_true in H; [exact H | contradiction].
Qed.

Lemma valid_parameter_setattr (self : manager.RAPID) (key key' : string)
    (v : manager.value) :
  valid_parameter self key = true ->
  valid_parameter (manager.setattr self key v) key' = valid_parameter self key'.
Proof.
  unfold valid_parameter. intros Hkey. apply andb_true_iff in Hkey as [Hkey _].
  by rewrite (in_dir_setattr _ _ _ _ Hkey).
Qed.

(** X15.  [update_parameters] (lines 209-218).  A keyword is accepted
    when it names an attribute of the instance or a method of the class
    and does not start with an underscore; accepting one does not change
    which keywords are accepted.  If every keyword is accepted, all of
    them are set.  Otherwise the call raises for the first keyword that
    is not, naming it, and the keywords before it stay set: the update is
    not undone. *)
Theorem update_parameters_sets_until_first_invalid (self : manager.RAPID)
    (kwargs : list (string * manager.value)) :
  (Forall (fun kv => valid_parameter self (fst kv) = true) kwargs ->
   manager.update_parameters self kwargs = (set_all self kwargs, Ok tt)) /\
  (forall done key v rest,
     kwargs = done ++ (key, v) :: rest ->
     Forall (fun kv => valid_parameter self (fst kv) = true) done ->
     valid_parameter self key = false ->
     manager.update_parameters self kwargs =
     (set_all self done,
      Raise (Exception (Text "Invalid RAPID parameter %s." [AStr key])))) /\
  (forall key v, valid_parameter self key = true ->
     forall key', valid_parameter (manager.setattr self key v) key'
                  = valid_parameter self key').
Proof.
  split; [|split].
  - revert self. induction kwargs as [|[key v] rest IH]; intros self Hall;
      [reflexivity|].
    apply Forall_cons in Hall as [Hkey Hall]. simpl in Hkey. simpl.
    fold (valid_parameter self key). rewrite Hkey.
    apply IH. eapply Forall_impl; [exact Hall|].
    intros [k w] Hk. simpl in *. by rewrite valid_parameter_setattr.
  - intros done key v rest ->. revert self.
    induction done as [|[k w] done IH]; intros self Hall Hbad; simpl.
    + fold (valid_parameter self key). by rewrite Hbad.
    + apply Forall_cons in Hall as [Hk Hall]. simpl in Hk.
      fold (valid_parameter self k). rewrite Hk.
      apply IH.
      * eapply Forall_impl; [exact Hall|].
        intros [k' w'] Hk'. simpl in *. by rewrite valid_parameter_setattr.
      * by rewrite valid_parameter_setattr.
  - intros key v Hkey key'. by apply valid_parameter_setattr.
Qed.

Lemma foldl_max_spec (l : list Z) (x : Z) :
  foldl Z.max x l ∈ x :: l /\ forall y, y ∈ x :: l -> y <= foldl Z.max x l.
Proof.
  revert x. induction l as [|a l IH]; intros x; simpl.
  - split; [by left|]. intros y Hy. apply list_elem_of_singleton in Hy. lia.
  - destruct (IH (Z.max x a)) as [Hin Hmax]. split.
    + apply elem_of_cons in Hin as [Heq|Hin]; [|by right; right].
      rewrite Heq. destruct (Z.max_spec x a) as [[_ ->]|[_ ->]];
        [right; by left | by left].
    + intros y Hy. apply elem_of_cons in Hy as [->|Hy].
      * specialize (Hmax (Z.max x a) ltac:(by left)). lia.
      * apply elem_of_cons in Hy as [->|Hy].
        -- specialize (Hmax (Z.max x a) ltac:(by left)). lia.
        -- apply Hmax. by right.
Qed.

Section ManagerProps.
Context (csv_to_list : manager.value -> result (list (list string)))
        (int_of_float : string -> result Z).

(** X16.  [update_reach_number_data] (lines 220-231).  With both tables
    read and a number in the third cell of every row of a non-empty
    connectivity table, the call sets IS_riv_tot to the number of rows,
    IS_max_up to the greatest third cell and IS_riv_bas to the number of
    rows of the basin table, and nothing else.  With an empty
    connectivity table it raises ValueError from [max], and IS_riv_tot
    has already been set to 0. *)
Theorem update_reach_number_data_counts (self : manager.RAPID)
    (connect_path : manager.value) (rapid_connect_table : list (list string)) :
  manager.getattr self "rapid_connect_file" = Ok connect_path ->
  csv_to_list connect_path = Ok rapid_connect_table ->
  (forall column basin_path riv_bas_id_table,
     mapM (fun row => let* cell := np.item row 2 in int_of_float cell)
       rapid_connect_table = Ok column ->
     rapid_connect_table <> [] ->
     manager.getattr self "riv_bas_id_file" = Ok basin_path ->
     csv_to_list basin_path = Ok riv_bas_id_table ->
     exists max_up,
       manager.update_reach_number_data csv_to_list int_of_float self =
       (<["IS_riv_bas"%string := manager.VInt (Z.of_nat (length riv_bas_id_table))]>
          (<["IS_max_up"%string := manager.VInt max_up]>
             (<["IS_riv_tot"%string :=
                  manager.VInt (Z.of_nat (length rapid_connect_table))]> self)),
        Ok tt) /\
       max_up ∈ column /\ forall x, x ∈ column -> x <= max_up) /\
  (rapid_connect_table = [] ->
   manager.update_reach_number_data csv_to_list int_of_float self =
   (<["IS_riv_tot"%string := manager.VInt 0]> self,
    Raise (ValueError "max() arg is an empty sequence"))).
Proof.
  intros Hpath Htable. unfold manager.update_reach_number_data.
  rewrite Hpath. simpl. rewrite Htable. split.
  - intros column basin_path riv_bas_id_table Hcol Hne Hbasin Hriv.
    rewrite Hcol. simpl.
    destruct column as [|x column].
    { apply mapM_length in Hcol. by destruct rapid_connect_table. }
    simpl. unfold manager.getattr, manager.setattr in *.
    rewrite !lookup_insert_ne by done.
    destruct (self !! "riv_bas_id_file"%string) as [p|]; [|discriminate].
    injection Hbasin as ->. simpl. rewrite Hriv.
    exists (foldl Z.max x column). split; [reflexivity|].
    apply foldl_max_spec.
  - intros ->. reflexivity.
Qed.

End ManagerProps.

Section NamelistProps.
Context (os_name : string) (_get_cygwin_path : string -> result string).

Lemma write_attributes_posix (items : list (string * manager.value)) :
  String.eqb os_name "nt" = false ->
  forall written,
  exists body,
    manager.write_attributes os_name _get_cygwin_path items written
    = (written ++ body, Ok tt) /\
    forall line, line ∈ body <->
      exists attr v, (attr, v) ∈ items /\
        manager.namelist_line os_name _get_cygwin_path attr v = Ok (Some line).
Proof.
  intros Hposix. induction items as [|[attr v] rest IH]; intros written; simpl.
  - exists []. rewrite app_nil_r. split; [reflexivity|].
    intros line. split; [by intros ?%elem_of_nil|].
    intros (a & w & Hin & _). by apply elem_of_nil in Hin.
  - destruct (manager.namelist_line os_name _get_cygwin_path attr v)
      as [[line0|]|e] eqn:Hline.
    + destruct (IH (written ++ [line0])) as (body & -> & Hbody).
      exists (line0 :: body). rewrite <- app_assoc. split; [reflexivity|].
      intros line. rewrite elem_of_cons, Hbody. split.
      * intros [->|(a & w & Hin & Hl)].
        -- exists attr, v. split; [by left | exact Hline].
        -- exists a, w. split; [by right | exact Hl].
      * intros (a & w & Hin & Hl). apply elem_of_cons in Hin as [[= -> ->]|Hin].
        -- left. congruence.
        -- right. by exists a, w.
    + destruct (IH written) as (body & -> & Hbody).
      exists body. split; [reflexivity|].
      intros line. rewrite Hbody. split.
      * intros (a & w & Hin & Hl). exists a, w. split; [by right | exact Hl].
      * intros (a & w & Hin & Hl). apply elem_of_cons in Hin as [[= -> ->]|Hin].
        -- congruence.
        -- by exists a, w.
    + exfalso. revert Hline. unfold manager.namelist_line. rewrite Hposix.
      repeat (match goal with
              | |- context [if ?c then _ else _] => destruct c
              end; simpl; try discriminate).
      destruct v; discriminate.
Qed.


End NamelistProps.

Section ConvertCallProps.
Context {F : Type} (fzero coord_fill nc_fill : F) (flt : F -> F -> bool).
Context (csv_to_list_lookup : string -> list (cf.lookup_row (F := F)))
        (csv_to_list_qinit : string -> list (list F))
        (utcnow : string).

(** X18.  [make_output_CF_compliant] (lines 293-310) passes the keyword
    [rapid_connect_file], which [ConvertRAPIDOutputToCF.__init__] does not
    take: for every manager and every argument the call raises, TypeError
    naming that keyword (or AttributeError when the manager lacks one of
    the attributes read for the call), no converter is made and no file
    is read or written. *)
Theorem make_output_CF_compliant_always_raises (self : manager.RAPID)
    (simulation_start_datetime : Z) (comid_lat_lon_z_file project_name : string)
    (s : cf.state (F := F)) :
  exists e,
    manager.make_output_CF_compliant fzero coord_fill nc_fill flt
      csv_to_list_lookup csv_to_list_qinit utcnow self
      simulation_start_datetime comid_lat_lon_z_file project_name s
    = (s, Raise e) /\
    (e = TypeError
           "__init__() got an unexpected keyword argument 'rapid_connect_file'" \/
     exists name, e = AttributeError name /\ self !! name = None).
Proof.
  unfold manager.make_output_CF_compliant, cf.iobind, cf.lift, manager.getattr.
  destruct (self !! "Qout_file"%string) eqn:H1; simpl;
    [|eexists; split; [reflexivity | right; eauto]].
  destruct (self !! "ZS_TauR"%string) eqn:H2; simpl;
    [|eexists; split; [reflexivity | right; eauto]].
  destruct (self !! "Qinit_file"%string) eqn:H3; simpl;
    [|eexists; split; [reflexivity | right; eauto]].
  destruct (self !! "rapid_connect_file"%string) eqn:H4; simpl;
    [|eexists; split; [reflexivity | right; eauto]].
  eexists. split; [reflexivity | by left].
Qed.

End ConvertCallProps.

(** ** rapid.py: reading a namelist back *)

Lemma fills_unset_only_refl (self : manager.RAPID) : fills_unset_only self self.
Proof. split; [reflexivity | auto]. Qed.

Lemma fills_unset_only_trans (a b c : manager.RAPID) :
  fills_unset_only a b -> fills_unset_only b c -> fills_unset_only a c.
Proof.
  intros [Hd1 H1] [Hd2 H2]. split; [congruence|].
  intros attr v Ha Hv. apply H2; [by apply H1 | exact Hv].
Qed.

Lemma update_from_line_fills (self : manager.RAPID) (line : string) :
  fills_unset_only self (fst (manager.update_from_line self line)).
Proof.
  unfold manager.update_from_line.
  destruct (_ || _); [apply fills_unset_only_refl|].
  destruct (np.item _ 0) as [attr|]; [|apply fills_unset_only_refl].
  match goal with
  | |- context [match ?m with Ok _ => _ | Raise _ => _ end] => destruct m as [v|]
  end; [|apply fills_unset_only_refl].
  destruct (manager.in_dir self attr && negb (manager.startswith attr "_")) eqn:Hvalid;
    [|apply fills_unset_only_refl].
  destruct (self !! attr) as [current|] eqn:Hcur; [|apply fills_unset_only_refl].
  destruct (negb (manager.truthy current)) eqn:Hfalse; [|apply fills_unset_only_refl].
  simpl. unfold manager.setattr. split.
  - rewrite dom_insert_L. apply set_eq. intros x.
    rewrite elem_of_union, elem_of_singleton. split; [|by right].
    intros [->|H]; [|exact H]. apply elem_of_dom. by eexists.
  - intros a w Ha Hw. destruct (decide (attr = a)) as [->|Hne].
    + exfalso. rewrite Hcur in Ha. injection Ha as ->.
      apply andb_true_iff in Hvalid as [_ Hpub].
      apply negb_true_iff in Hpub, Hfalse.
      destruct Hw; congruence.
    + by rewrite lookup_insert_ne.
Qed.

Lemma update_from_lines_fills (lines : list string) :
  forall self, fills_unset_only self (fst (manager.update_from_lines self lines)).
Proof.
  induction lines as [|line rest IH]; intros self; simpl;
    [apply fills_unset_only_refl|].
  pose proof (update_from_line_fills self line) as Hstep.
  destruct (manager.update_from_line self line) as [self1 [[]|e]]; simpl in *.
  - eapply fills_unset_only_trans; [exact Hstep | apply IH].
  - exact Hstep.
Qed.

(** X19.  [update_namelist_file] (lines 261-291) never returns: without
    a file at a non-empty path it raises "RAPID namelist file to update
    not found." and leaves the manager alone; with one, it ends in the
    call of [generate_input_file], a method the class does not have (or
    raises earlier).  Whatever it did before raising, it has added no
    attribute and changed none that is private or already holds a true
    value. *)
Theorem update_namelist_file_always_raises (self : manager.RAPID)
    (file_path : string) (fs : gmap string (list string)) :
  exists self' e,
    manager.update_namelist_file self file_path fs = (self', Raise e) /\
    fills_unset_only self self' /\
    (file_path = ""%string \/ fs !! file_path = None ->
     self' = self /\
     e = Exception (Text "RAPID namelist file to update not found." [])).
Proof.
  unfold manager.update_namelist_file.
  destruct (fs !! file_path) as [old_file|] eqn:Hfile.
  - destruct (String.eqb_spec file_path "") as [->|Hne]; simpl.
    + eexists _, _. split; [reflexivity|].
      split; [apply fills_unset_only_refl | auto].
    + pose proof (update_from_lines_fills old_file self) as Hfill.
      destruct (manager.update_from_lines self old_file) as [self1 [[]|e]];
        simpl in Hfill; [destruct (self1 !! "generate_input_file"%string)|];
        eexists _, _; (split; [reflexivity|]);
        (split; [exact Hfill|]); intros [?|?]; congruence.
  - eexists _, _. split; [reflexivity|].
    split; [apply fills_unset_only_refl | auto].
Qed.

Lemma append_cons (c : ascii) (a b : string) :
  (String c a +:+ b)%string = String c (a +:+ b).
Proof. reflexivity. Qed.

Lemma append_nil_l (b : string) : ("" +:+ b)%string = b.
Proof. reflexivity. Qed.

Lemma append_nil_r (a : string) : (a +:+ "")%string = a.
Proof. induction a as [|c a IH]; [reflexivity|]. by rewrite append_cons, IH. Qed.

Lemma append_assoc (a b c : string) :
  ((a +:+ b) +:+ c)%string = (a +:+ (b +:+ c))%string.
Proof. induction a as [|x a IH]; [reflexivity|]. by rewrite !append_cons, IH. Qed.

Lemma split_from_word (a : string) :
  no_whitespace a = true ->
  forall (w s : string),
    manager.split_from (Some w) (a +:+ String " " s)
    = (w +:+ a)%string :: manager.split_from None s.
Proof.
  induction a as [|c a IH]; intros Hns w s.
  - rewrite append_nil_l, append_nil_r. reflexivity.
  - simpl in Hns. apply andb_true_iff in Hns as [Hc Hns].
    apply negb_true_iff in Hc. rewrite append_cons. simpl. rewrite Hc.
    rewrite (IH Hns). by rewrite append_assoc.
Qed.

Lemma split_word (c : ascii) (a s : string) :
  no_whitespace (String c a) = true ->
  manager.split (String c a +:+ String " " s)
  = String c a :: manager.split_from None s.
Proof.
  intros Hns. simpl in Hns. apply andb_true_iff in Hns as [Hc Hns].
  apply negb_true_iff in Hc. unfold manager.split. rewrite append_cons. simpl.
  rewrite Hc. by rewrite (split_from_word a Hns).
Qed.

Lemma split_from_rstrip (s : string) :
  forall w, manager.split_from w (manager.rstrip s) = manager.split_from w s.
Proof.
  induction s as [|c s IH]; intros w; [reflexivity|]. simpl.
  destruct (manager.rstrip s) as [|c' r'] eqn:Hr.
  - destruct (manager.isspace c) eqn:Hc; simpl.
    + destruct w as [w|]; by rewrite <- IH.
    + rewrite Hc. by rewrite <- IH.
  - simpl. destruct (manager.isspace c) eqn:Hc.
    + destruct w as [w|]; by rewrite <- IH.
    + by rewrite <- IH.
Qed.

Lemma rstrip_cons (c : ascii) (s : string) :
  manager.isspace c = false ->
  exists r, manager.rstrip (String c s) = String c r.
Proof.
  intros Hc. simpl. rewrite Hc. destruct (manager.rstrip s); by eexists.
Qed.

Lemma update_from_line_words (self : manager.RAPID) (line attr second : string)
    (rest : list string) (current : manager.value) :
  manager.starts_with_letter (manager.strip line) = true ->
  manager.split (manager.strip line) = attr :: second :: rest ->
  manager.startswith attr "_" = false ->
  self !! attr = Some current ->
  manager.truthy current = false ->
  manager.update_from_line self line
  = (manager.setattr self attr (manager.VStr second), Ok tt).
Proof.
  intros Hletter Hsplit Hpub Hcur Hfalse. unfold manager.update_from_line.
  rewrite Hletter, Hsplit.
  destruct (manager.strip line) as [|c r]; [discriminate|]. simpl.
  unfold manager.in_dir.
  assert (bool_decide (attr ∈ dom self) = true) as ->.
  { apply bool_decide_eq_true. apply elem_of_dom. by eexists. }
  simpl. by rewrite Hpub, Hcur, Hfalse.
Qed.

(** X20.  What [update_namelist_file] reads from a line of the form
    [attr = value] (lines 268-282), the form in which
    [generate_namelist_file] writes every attribute: the value taken is
    the second word of the line, the equals sign.  For a public attribute
    of the manager that holds a false value (0, False, the empty string
    or None), the line sets the attribute to the string "=", whatever
    stands to the right of the sign. *)
Theorem namelist_line_assigns_equals_sign (self : manager.RAPID)
    (attr value : string) (current : manager.value) :
  manager.starts_with_letter attr = true ->
  no_whitespace attr = true ->
  manager.startswith attr "_" = false ->
  self !! attr = Some current ->
  manager.truthy current = false ->
  manager.update_from_line self (attr +:+ " = " +:+ value)
  = (manager.setattr self attr (manager.VStr "="), Ok tt).
Proof.
  intros Hletter Hns Hpub Hcur Hfalse.
  destruct attr as [|c a]; [discriminate|].
  assert (manager.isspace c = false) as Hc.
  { simpl in Hns. apply andb_true_iff in Hns as [Hc _]. by apply negb_true_iff. }
  assert (manager.strip (String c a +:+ " = " +:+ value)
          = manager.rstrip (String c (a +:+ " = " +:+ value))) as Hstrip.
  { unfold manager.strip. rewrite append_cons. simpl manager.lstrip. by rewrite Hc. }
  destruct (rstrip_cons c (a +:+ " = " +:+ value) Hc) as [r Hr].
  rewrite <- Hstrip in Hr.
  assert (manager.split (manager.strip (String c a +:+ " = " +:+ value))
          = String c a :: "="%string :: manager.split_from None value) as Hsplit.
  { rewrite Hstrip. unfold manager.split. rewrite split_from_rstrip.
    rewrite <- append_cons.
    change (" = " +:+ value)%string with (String " " (String "=" (String " " value))).
    rewrite (split_word c a _ Hns). reflexivity. }
  apply (update_from_line_words self _ (String c a) "="
           (manager.split_from None value) current); auto.
  rewrite Hr. exact Hletter.
Qed.

(** ** CreateInflowFileFromERARunoff.py: the validation *)

Lemma is_vars_oi_spec (nc_vars : list string) :
  nc_vars ∈ era.vars_oi <->
  exists i, (i < 7)%nat /\ era.is_vars_oi nc_vars i = true.
Proof.
  split.
  - intros Hin. unfold era.vars_oi in Hin.
    repeat (apply elem_of_cons in Hin as [->|Hin];
            [first [ by exists 0%nat; split; [lia|]
                   | by exists 1%nat; split; [lia|]
                   | by exists 2%nat; split; [lia|]
                   | by exists 3%nat; split; [lia|]
                   | by exists 4%nat; split; [lia|]
                   | by exists 5%nat; split; [lia|]
                   | by exists 6%nat; split; [lia|] ]|]).
    by apply elem_of_nil in Hin.
  - intros (i & Hi & His). unfold era.is_vars_oi in His.
    destruct (era.vars_oi !! i) as [v|] eqn:Hv; [|discriminate].
    apply bool_decide_eq_true in His as ->.
    eapply list_elem_of_lookup_2; eauto.
Qed.

(** X21.  [data_validation] of the ERA inflow class (lines 35-65).  The
    call returns exactly when the file exists, the list of its dimension
    names is one of [dims_oi] and the list of its variable names is one of
    [vars_oi], each compared as a whole and in order; the two tests are
    independent of each other.  [self.runoff_vars] then becomes the
    one-element list of the file's last variable name, RO or ro; when the
    call raises it is left as it was. *)
Theorem data_validation_accepts_listed_layouts (error_messages : list string)
    (fs : gmap string era.Dataset) (in_nc : string) (runoff_vars : list string) :
  ((exists runoff_vars',
      era.data_validation error_messages fs in_nc runoff_vars = (runoff_vars', Ok tt))
   <->
   exists data_nc, fs !! in_nc = Some data_nc /\
     era.dimensions data_nc ∈ era.dims_oi /\
     era.variables data_nc ∈ era.vars_oi) /\
  (forall runoff_vars',
     era.data_validation error_messages fs in_nc runoff_vars = (runoff_vars', Ok tt) ->
     exists data_nc name,
       fs !! in_nc = Some data_nc /\
       last (era.variables data_nc) = Some name /\
       runoff_vars' = [name] /\
       (name = "RO" \/ name = "ro")%string) /\
  (forall runoff_vars' e,
     era.data_validation error_messages fs in_nc runoff_vars = (runoff_vars', Raise e) ->
     runoff_vars' = runoff_vars).
Proof.
  unfold era.data_validation.
  destruct (fs !! in_nc) as [data_nc|] eqn:Hfile.
  2:{ split; [|split].
      - split; [intros [rv [=]] | intros (d & [=] & _)].
      - intros rv [=].
      - by intros rv e [= <- _]. }
  destruct (decide (era.dimensions data_nc ∈ era.dims_oi)) as [Hd|Hd].
  2:{ rewrite (bool_decide_eq_false_2 _ Hd). simpl. split; [|split].
      - split.
        + intros [rv Hrv]. destruct (np.item error_messages 1); discriminate.
        + intros (d & [= <-] & Hd' & _). contradiction.
      - intros rv Hrv. destruct (np.item error_messages 1); discriminate.
      - by intros rv e [= <- _]. }
  rewrite (bool_decide_eq_true_2 _ Hd). simpl.
  assert (forall i name,
            era.is_vars_oi (era.variables data_nc) i = true ->
            era.last_of_vars_oi i = Ok [name] ->
            last (era.variables data_nc) = Some name /\
            era.variables data_nc ∈ era.vars_oi) as Hhit.
  { intros i name His Hlast. unfold era.is_vars_oi in His.
    unfold era.last_of_vars_oi, np.item in Hlast.
    destruct (era.vars_oi !! i) as [v|] eqn:Hv; [|discriminate].
    apply bool_decide_eq_true in His. rewrite His. simpl in Hlast.
    unfold np.item_last in Hlast. destruct (last v) as [x|]; [|discriminate].
    injection Hlast as ->. split; [reflexivity|].
    eapply list_elem_of_lookup_2; eauto. }
  assert (forall i name,
            (name = "RO" \/ name = "ro")%string ->
            era.is_vars_oi (era.variables data_nc) i = true ->
            era.last_of_vars_oi i = Ok [name] ->
            ((exists runoff_vars', ([name], Ok tt) = (runoff_vars', Ok tt)) <->
             exists data_nc0, Some data_nc = Some data_nc0 /\
               era.dimensions data_nc0 ∈ era.dims_oi /\
               era.variables data_nc0 ∈ era.vars_oi) /\
            (forall runoff_vars', ([name], Ok tt) = (runoff_vars', Ok tt) ->
               exists data_nc0 name0,
                 Some data_nc = Some data_nc0 /\
                 last (era.variables data_nc0) = Some name0 /\
                 runoff_vars' = [name0] /\
                 (name0 = "RO" \/ name0 = "ro")%string) /\
            (forall runoff_vars' e,
               ([name], @Ok unit tt) = (runoff_vars', Raise e) ->
               runoff_vars' = runoff_vars)) as Haccept.
  { intros i name Hname His Hlast.
    destruct (Hhit i name His Hlast) as [Hl Hin].
    split; [|split].
    - split; [intros _; by exists data_nc | intros _; by eexists].
    - intros rv [= <-]. by exists data_nc, name.
    - intros rv e [=]. }
  destruct (era.is_vars_oi _ 0) eqn:H0;
    [apply (Haccept 0%nat "RO"%string); auto|].
  destruct (era.is_vars_oi _ 1) eqn:H1;
    [apply (Haccept 1%nat "ro"%string); auto|].
  destruct (era.is_vars_oi _ 2) eqn:H2;
    [apply (Haccept 2%nat "RO"%string); auto|].
  destruct (era.is_vars_oi _ 3) eqn:H3;
    [apply (Haccept 3%nat "RO"%string); auto|].
  destruct (era.is_vars_oi _ 4) eqn:H4;
    [apply (Haccept 4%nat "ro"%string); auto|].
  destruct (era.is_vars_oi _ 5) eqn:H5;
    [apply (Haccept 5%nat "ro"%string); auto|].
  destruct (era.is_vars_oi _ 6) eqn:H6;
    [apply (Haccept 6%nat "RO"%string); auto|].
  assert (~ era.variables data_nc ∈ era.vars_oi) as Hv.
  { intros Hin. apply is_vars_oi_spec in Hin as (i & Hi & His).
    do 7 (destruct i as [|i]; [congruence|]). lia. }
  split; [|split].
  - split.
    + intros [rv Hrv]. destruct (np.item error_messages 2); discriminate.
    + intros (d & [= <-] & _ & Hv'). contradiction.
  - intros rv Hrv. destruct (np.item error_messages 2); discriminate.
  - by intros rv e [= <- _].
Qed.

(** ** rapid.py: the constructor and the initial flows *)

Lemma update_parameters_Ok_iff (kwargs : list (string * manager.value)) :
  forall self,
    (exists self', manager.update_parameters self kwargs = (self', Ok tt)) <->
    Forall (fun kv => valid_parameter self (fst kv) = true) kwargs.
Proof.
  induction kwargs as [|[key v] rest IH]; intros self; simpl.
  - split; [constructor | by eexists].
  - fold (valid_parameter self key).
    destruct (valid_parameter self key) eqn:Hkey.
    + rewrite IH. split.
      * intros Hall. constructor; [exact Hkey|].
        eapply Forall_impl; [exact Hall|]. intros [k w] Hk. simpl in *.
        by rewrite valid_parameter_setattr in Hk.
      * intros Hall. apply Forall_cons in Hall as [_ Hall].
        eapply Forall_impl; [exact Hall|]. intros [k w] Hk. simpl in *.
        by rewrite valid_parameter_setattr.
    + split; [intros [self' [=]]|].
      intros Hall. apply Forall_cons in Hall as [Hk _]. simpl in Hk. congruence.
Qed.

Lemma update_parameters_Ok_set_all (kwargs : list (string * manager.value)) :
  forall self self',
    manager.update_parameters self kwargs = (self', Ok tt) ->
    self' = set_all self kwargs.
Proof.
  induction kwargs as [|[key v] rest IH]; intros self self'; simpl.
  - by intros [= <-].
  - destruct (_ && _); [apply IH | discriminate].
Qed.

Lemma set_all_lookup_fresh (kwargs : list (string * manager.value)) :
  forall (self : manager.RAPID) (key : string),
    key ∉ map fst kwargs -> set_all self kwargs !! key = self !! key.
Proof.
  induction kwargs as [|[k v] rest IH]; intros self key Hfresh; [reflexivity|].
  simpl in *. apply not_elem_of_cons in Hfresh as [Hne Hfresh].
  unfold set_all in *. simpl. rewrite (IH _ _ Hfresh).
  unfold manager.setattr. by rewrite lookup_insert_ne.
Qed.

Lemma dom_set_all (kwargs : list (string * manager.value)) :
  forall self : manager.RAPID,
    dom (set_all self kwargs) = dom self ∪ list_to_set (map fst kwargs).
Proof.
  induction kwargs as [|[k v] rest IH]; intros self; simpl.
  - unfold set_all. simpl. apply set_eq. intros x.
    rewrite elem_of_union, elem_of_empty. tauto.
  - unfold set_all in *. simpl. rewrite IH. unfold manager.setattr.
    rewrite dom_insert_L. apply set_eq. intros x.
    rewrite !elem_of_union, elem_of_singleton. tauto.
Qed.

Lemma set_all_lookup_last (kwargs : list (string * manager.value)) :
  forall (self : manager.RAPID) (key : string) (v : manager.value),
    NoDup (map fst kwargs) -> (key, v) ∈ kwargs ->
    set_all self kwargs !! key = Some v.
Proof.
  induction kwargs as [|[k w] rest IH]; intros self key v Hnd Hin;
    [by apply elem_of_nil in Hin|].
  simpl in Hnd. apply NoDup_cons in Hnd as [Hk Hnd].
  apply elem_of_cons in Hin as [[= -> ->]|Hin].
  - unfold set_all. simpl. fold (set_all (manager.setattr self k w) rest).
    rewrite (set_all_lookup_fresh rest _ k Hk).
    unfold manager.setattr. apply lookup_insert_eq.
  - unfold set_all. simpl. fold (set_all (manager.setattr self k w) rest).
    by apply IH.
Qed.

Lemma valid_after_defaults (pre : manager.RAPID) (key : string) :
  dom pre = {[ "_rapid_executable_location"; "_num_processors";
               "_cygwin_bin_location"; "_cygwin_bash_exe_location" ]}%string ->
  valid_parameter (set_all pre manager.defaults) key = true <->
  key ∈ map fst manager.defaults ++ public_methods.
Proof.
  intros Hpre. unfold valid_parameter, manager.in_dir.
  rewrite dom_set_all, Hpre. split.
  - intros Hv. apply andb_true_iff in Hv as [Hin Hpub].
    apply negb_true_iff in Hpub. apply orb_true_iff in Hin as [Hin|Hin];
      apply bool_decide_eq_true in Hin.
    + apply elem_of_union in Hin as [Hin|Hin].
      * exfalso. rewrite !elem_of_union, !elem_of_singleton in Hin.
        destruct Hin as [[[->| ->]| ->]| ->]; discriminate Hpub.
      * apply elem_of_list_to_set in Hin. apply elem_of_app. by left.
    + apply elem_of_app. right. unfold manager.class_names in Hin.
      repeat (apply elem_of_cons in Hin as [->|Hin];
              [first [discriminate Hpub | decide_true]|]).
      by apply elem_of_nil in Hin.
  - intros Hin. apply elem_of_app in Hin as [Hin|Hin].
    + apply andb_true_iff. split.
      * apply orb_true_iff. left. apply bool_decide_eq_true.
        apply elem_of_union. right. by apply elem_of_list_to_set.
      * unfold manager.defaults in Hin. simpl in Hin.
        repeat (apply elem_of_cons in Hin as [->|Hin]; [reflexivity|]).
        by apply elem_of_nil in Hin.
    + apply andb_true_iff. unfold public_methods in Hin.
      repeat (apply elem_of_cons in Hin as [->|Hin];
              [split; [apply orb_true_iff; right; decide_true | reflexivity]|]).
      by apply elem_of_nil in Hin.
Qed.

Lemma accepted_key_is_public (key : string) :
  key ∈ map fst manager.defaults ++ public_methods ->
  manager.startswith key "_" = false.
Proof.
  intros Hin. apply elem_of_app in Hin as [Hin|Hin].
  - unfold manager.defaults in Hin. simpl in Hin.
    repeat (apply elem_of_cons in Hin as [->|Hin]; [reflexivity|]).
    by apply elem_of_nil in Hin.
  - unfold public_methods in Hin.
    repeat (apply elem_of_cons in Hin as [->|Hin]; [reflexivity|]).
    by apply elem_of_nil in Hin.
Qed.

Section ConstructorProps.
Context (os_name : string) (path_exists : string -> bool)
        (path_join : string -> string -> string) (cpu_count : Z).

(** X22.  The constructor (lines 26-165) off Windows.  It returns
    exactly when every keyword is the name of one of the attributes it
    gives a default to or of a public method of the class; the private
    attributes cannot be given by keyword.  The instance then holds the
    executable location, as number of processors [cpu_count()] if
    [use_all_processors == True] and the argument otherwise, and for
    every name not among the keywords its default. *)
Theorem constructor_accepts_public_names
    (rapid_executable_location num_processors use_all_processors : manager.value)
    (cygwin_bin_location : string) (kwargs : list (string * manager.value)) :
  String.eqb os_name "nt" = false ->
  ((exists self,
      manager.__init__ os_name path_exists path_join cpu_count
        rapid_executable_location num_processors use_all_processors
        cygwin_bin_location kwargs = Ok self) <->
   Forall (fun kv => fst kv ∈ map fst manager.defaults ++ public_methods) kwargs) /\
  (forall self,
     manager.__init__ os_name path_exists path_join cpu_count
       rapid_executable_location num_processors use_all_processors
       cygwin_bin_location kwargs = Ok self ->
     self !! "_rapid_executable_location"%string = Some rapid_executable_location /\
     self !! "_num_processors"%string
       = Some (if manager.eq_True use_all_processors
               then manager.VInt cpu_count else num_processors) /\
     forall key v, (key, v) ∈ manager.defaults -> key ∉ map fst kwargs ->
                   self !! key = Some v).
Proof.
  intros Hposix. unfold manager.__init__. rewrite Hposix. cbn [andb].
  match goal with
  | |- context [foldl _ ?p manager.defaults] =>
      set (pre := p);
      change (foldl _ pre manager.defaults) with (set_all pre manager.defaults)
  end.
  assert (dom pre = {[ "_rapid_executable_location"; "_num_processors";
                       "_cygwin_bin_location"; "_cygwin_bash_exe_location" ]}%string)
    as Hpre.
  { subst pre. destruct (manager.eq_True use_all_processors);
      unfold manager.setattr; rewrite !dom_insert_L, dom_empty_L;
      apply set_eq; intros x;
      rewrite !elem_of_union, !elem_of_singleton, elem_of_empty; tauto. }
  assert (pre !! "_rapid_executable_location"%string = Some rapid_executable_location /\
          pre !! "_num_processors"%string
            = Some (if manager.eq_True use_all_processors
                    then manager.VInt cpu_count else num_processors)) as [Hexe Hnum].
  { subst pre. destruct (manager.eq_True use_all_processors);
      unfold manager.setattr; split;
      repeat first [rewrite lookup_insert_eq | rewrite lookup_insert_ne by str_ne];
      reflexivity. }
  pose proof (fun key => valid_after_defaults pre key Hpre) as Hvalid.
  assert ((exists self', manager.update_parameters (set_all pre manager.defaults) kwargs
                         = (self', Ok tt)) <->
          Forall (fun kv => fst kv ∈ map fst manager.defaults ++ public_methods) kwargs)
    as Hok.
  { rewrite update_parameters_Ok_iff. apply Forall_iff. intros kv. apply Hvalid. }
  split.
  - rewrite <- Hok. split.
    + intros [self Hself].
      destruct (manager.update_parameters _ kwargs) as [self' [[]|e]];
        [by exists self' | discriminate].
    + intros [self' ->]. by eexists.
  - intros self Hself.
    destruct (manager.update_parameters _ kwargs) as [self' [[]|e]] eqn:Hup;
      [|discriminate].
    injection Hself as ->.
    assert (Forall (fun kv => fst kv ∈ map fst manager.defaults ++ public_methods)
              kwargs) as Hall by (apply Hok; by eexists).
    apply update_parameters_Ok_set_all in Hup as ->.
    assert (forall key, manager.startswith key "_" = true -> key ∉ map fst kwargs)
      as Hprivate.
    { intros key Hkey Hin. apply list_elem_of_fmap in Hin as (kv & -> & Hin).
      rewrite Forall_forall in Hall. specialize (Hall kv Hin).
      apply accepted_key_is_public in Hall. congruence. }
    split; [|split].
    + rewrite set_all_lookup_fresh by (by apply Hprivate).
      rewrite set_all_lookup_fresh by decide_true. exact Hexe.
    + rewrite set_all_lookup_fresh by (by apply Hprivate).
      rewrite set_all_lookup_fresh by decide_true. exact Hnum.
    + intros key v Hin Hfresh. rewrite (set_all_lookup_fresh kwargs _ key Hfresh).
      apply set_all_lookup_last; [decide_true | exact Hin].
Qed.

End ConstructorProps.

Lemma mapM_Forall2 {A B} (f : A -> result B) (xs : list A) (ys : list B) :
  mapM f xs = Ok ys -> Forall2 (fun x y => f x = Ok y) xs ys.
Proof.
  revert ys. induction xs as [|x xs IH]; intros ys; simpl.
  - intros [= <-]. constructor.
  - destruct (f x) as [y|] eqn:Hf; simpl; [|discriminate].
    destruct (mapM f xs) as [ys'|]; simpl; [|discriminate].
    intros [= <-]. constructor; [exact Hf | by apply IH].
Qed.

Lemma reorder_fold_length {F : Type} (stream : list Z) (vals : list F) :
  forall (ids : list Z) (i : nat) (acc out : list F),
    foldM_from (rapid.reorder_step stream vals) i ids acc = Ok out ->
    length out = length acc.
Proof.
  induction ids as [|id ids IH]; intros i acc out; simpl.
  - by intros [= <-].
  - destruct (rapid.reorder_step stream vals acc i id) as [acc'|] eqn:Hstep;
      simpl; [|discriminate].
    intros Hfold. rewrite (IH _ _ _ Hfold).
    revert Hstep. unfold rapid.reorder_step, try_except.
    destruct (rapid.first_index stream id) as [k|]; simpl; [|discriminate].
    destruct (np.item vals i) as [v|]; simpl; [|discriminate].
    unfold np.setitem. destruct (decide _); [|discriminate].
    intros [= <-]. by rewrite length_insert.
Qed.

Lemma reorder_init_flows_length {F : Type} (fzero : F) (stream ids : list Z)
    (vals out : list F) :
  rapid.reorder_init_flows fzero stream ids vals = Ok out ->
  length out = length stream.
Proof.
  unfold rapid.reorder_init_flows, for_enumerate. intros Hfold.
  rewrite (reorder_fold_length _ _ _ _ _ _ Hfold). apply length_replicate.
Qed.

Section QinitProps.
Context {F : Type} (fzero : F).
Context (Dataset : string -> result (rapid.Dataset (F := F)))
        (csv_to_list : manager.value -> result (list (list string)))
        (int_of_float : string -> result Z).

(** X23.  [generate_qinit_from_past_qout] as a method (lines 387-426).
    When it raises, for any reason, the manager is left as it was.  When
    it returns, the values written are those of the reordering for the
    store opened at [Qout_file] and the identifiers read from the first
    cell of every row of the connectivity file, one value per row of
    that file, and the manager differs by [Qinit_file], set to the
    path written, and [BS_opt_Qinit], set to [True]; a namelist generated
    afterwards (off Windows) holds the line BS_opt_Qinit = .true. and,
    for a non-empty path, the line that names the file. *)
Theorem generate_qinit_registers_the_file (self : manager.RAPID)
    (qinit_file : string) :
  match manager.generate_qinit_from_past_qout fzero Dataset csv_to_list
          int_of_float self qinit_file with
  | (self', Raise e) => self' = self
  | (self', Ok init_flows_array) =>
      self' = <["BS_opt_Qinit"%string := manager.VBool true]>
                (<["Qinit_file"%string := manager.VStr qinit_file]> self) /\
      (exists Qout_file data_nc connect_path rapid_connect_array stream_id_array,
         self !! "Qout_file"%string = Some (manager.VStr Qout_file) /\
         Dataset Qout_file = Ok data_nc /\
         self !! "rapid_connect_file"%string = Some connect_path /\
         csv_to_list connect_path = Ok rapid_connect_array /\
         Forall2 (fun row id => exists cell,
                    row !! 0%nat = Some cell /\ int_of_float cell = Ok id)
           rapid_connect_array stream_id_array /\
         length init_flows_array = length rapid_connect_array /\
         rapid.generate_qinit_from_past_qout fzero Qout_file data_nc stream_id_array
           = Ok init_flows_array) /\
      forall os_name _get_cygwin_path file_path fs,
        String.eqb os_name "nt" = false ->
        exists lines,
          fst (manager.generate_namelist_file os_name _get_cygwin_path self'
                 file_path fs) !! file_path = Some lines /\
          Text "%s = .%s." [AStr "BS_opt_Qinit"; AStr "true"] ∈ lines /\
          (qinit_file <> ""%string ->
           Text "%s = '%s'" [AStr "Qinit_file"; AStr qinit_file] ∈ lines)
  end.
Proof.
  unfold manager.generate_qinit_from_past_qout, manager.getattr.
  destruct (self !! "Qout_file"%string) as [Qout_v|] eqn:HQ; simpl; [|reflexivity].
  destruct Qout_v as [| |Qout_file|]; simpl; try reflexivity.
  destruct (Dataset Qout_file) as [data_nc|] eqn:Hd; simpl; [|reflexivity].
  destruct (rapid.last_time_step_values Qout_file data_nc) as [data_values|] eqn:Hv;
    simpl; [|reflexivity].
  destruct (self !! "rapid_connect_file"%string) as [connect_path|] eqn:Hc; simpl;
    [|reflexivity].
  destruct (csv_to_list connect_path) as [rapid_connect_array|] eqn:Hcsv; simpl;
    [|reflexivity].
  destruct (mapM _ rapid_connect_array) as [stream_id_array|] eqn:Hids; simpl;
    [|reflexivity].
  destruct (rapid.reorder_init_flows fzero stream_id_array (rapid.COMID data_nc)
              data_values) as [init_flows_array|] eqn:Hre; [|reflexivity].
  split; [reflexivity|]. split.
  - exists Qout_file, data_nc, connect_path, rapid_connect_array, stream_id_array.
    pose proof (mapM_length _ _ _ Hids) as Hlen.
    do 4 (split; [first [reflexivity | assumption]|]).
    split.
    { apply mapM_Forall2 in Hids. eapply Forall2_impl; [exact Hids|].
      intros row id Hrow. simpl in Hrow. unfold np.item in Hrow.
      destruct (row !! 0%nat) as [cell|]; [|discriminate]. by exists cell. }
    split.
    + rewrite <- Hlen. by apply (reorder_init_flows_length _ _ _ _ _ Hre).
    + unfold rapid.generate_qinit_from_past_qout. by rewrite Hv.
  - intros os_name cyg file_path fs Hposix.
    unfold manager.generate_namelist_file.
    destruct (write_attributes_posix os_name cyg
                (map_to_list (manager.setattr
                   (manager.setattr self "Qinit_file" (manager.VStr qinit_file))
                   "BS_opt_Qinit" (manager.VBool true)))
                Hposix [Text "&NL_namelist" []]) as (body & -> & Hbody).
    simpl. rewrite lookup_insert_eq. eexists. split; [reflexivity|].
    split.
    + apply elem_of_cons. right. apply elem_of_app. left. apply Hbody.
      exists "BS_opt_Qinit"%string, (manager.VBool true). split.
      * apply elem_of_map_to_list. unfold manager.setattr. apply lookup_insert_eq.
      * reflexivity.
    + intros Hne. apply elem_of_cons. right. apply elem_of_app. left. apply Hbody.
      exists "Qinit_file"%string, (manager.VStr qinit_file). split.
      * apply elem_of_map_to_list. unfold manager.setattr.
        rewrite lookup_insert_ne by str_ne. apply lookup_insert_eq.
      * unfold manager.namelist_line. rewrite Hposix. simpl.
        destruct (String.eqb_spec qinit_file "") as [|_]; [contradiction|].
        reflexivity.
Qed.

End QinitProps.

Example generate_qinit_from_past_qout_example :
  snd (manager.generate_qinit_from_past_qout 0 example_Dataset example_connectivity
         example_int_of_float qinit_manager "qinit.csv")
  = Ok [4; 3; 0].
Proof. vm_compute. reflexivity. Qed.

(** ** The further properties at concrete inputs *)

Lemma compare_reorders_iff_a_position_agrees_witness :
  ((forall i x, [1; 2] !! i = Some x -> [2; 1] !! i <> Some x) ->
   rapid.compare_qout_files (time_major [1; 2] [[10; 20]])
                            (time_major [2; 1] [[20; 10]]) =
   Ok {| rapid.d2_reordered_comid_list := None;
         rapid.d2_reordered_qout := [[20; 10]] |}) /\
  ((exists i x, [1; 2] !! i = Some x /\ [2; 1] !! i = Some x) ->
   forall c, rapid.compare_qout_files (time_major [1; 2] [[10; 20]])
                                      (time_major [2; 1] [[20; 10]]) = Ok c ->
     exists perm, rapid.d2_reordered_comid_list c = Some perm /\
                  rapid.reindex [2; 1] [1; 2] = Ok perm).
Proof.
  apply (compare_reorders_iff_a_position_agrees
           (time_major [1; 2] [[10; 20]]) (time_major [2; 1] [[20; 10]])).
  reflexivity.
Defined.

Lemma compare_same_order_is_identity_witness :
  rapid.compare_qout_files (time_major [7; 8] [[1; 2]; [3; 4]])
                           (time_major [7; 8] [[5; 6]; [7; 8]]) =
  Ok {| rapid.d2_reordered_comid_list := Some [0; 1]%nat;
        rapid.d2_reordered_qout := [[5; 6]; [7; 8]] |}.
Proof.
  apply (compare_same_order_is_identity
           (time_major [7; 8] [[1; 2]; [3; 4]])
           (time_major [7; 8] [[5; 6]; [7; 8]])).
  - reflexivity.
  - discriminate.
  - decide_true.
  - left. split; [reflexivity | decide_true].
Defined.

Lemma compare_reordering_aligns_witness :
  exists k, [1; 2; 3] !! k = Some 2 /\
    forall r row, [[10; 20; 30]] !! r = Some row ->
      exists row', [[20; 10; 30]] !! r = Some row' /\
                   row' !! 0%nat = row !! k /\ is_Some (row !! k).
Proof.
  apply (compare_reordering_aligns
           (time_major [2; 1; 3] [[0; 0; 0]])
           (time_major [1; 2; 3] [[10; 20; 30]])
           {| rapid.d2_reordered_comid_list := Some [1; 0; 2]%nat;
              rapid.d2_reordered_qout := [[20; 10; 30]] |}
           [1; 0; 2]%nat eq_refl eq_refl 0%nat 2).
  reflexivity.
Defined.

Lemma last_time_step_is_orientation_independent_witness :
  rapid.last_time_step_values "Qout.nc"
    {| rapid.COMID := [7; 8]; rapid.Qout_dimensions := ["Time"; "COMID"]%string;
       rapid.Qout := [[1; 2]; [3; 4]; [5; 6]] |} = Ok [5; 6] /\
  rapid.last_time_step_values "Qout.nc"
    {| rapid.COMID := [7; 8]; rapid.Qout_dimensions := ["COMID"; "Time"]%string;
       rapid.Qout := np.transpose 2 [[1; 2]; [3; 4]; [5; 6]] |} = Ok [5; 6].
Proof.
  apply (last_time_step_is_orientation_independent
           "Qout.nc" "Time" "COMID" [7; 8] [[1; 2]; [3; 4]; [5; 6]] [5; 6]).
  - reflexivity.
  - reflexivity.
  - reflexivity.
  - decide_true.
Defined.

Lemma validate_raw_nc_result_witness :
  exists nc T,
    ({[ "Qout_example.nc"%string := raw_store [101; 102] [[5; 6]] ]}
       : gmap string (cf.ncfile (F := Z))) !! cf.rapid_output_file (converter "")
      = Some nc /\
    {| cf.fs := {[ "Qout_example.nc"%string := raw_store [101; 102] [[5; 6]] ]};
       cf.raw_nc := Some (raw_store [101; 102] [[5; 6]]); cf.cf_nc := None |}
    = {| cf.fs := {[ "Qout_example.nc"%string := raw_store [101; 102] [[5; 6]] ]};
         cf.raw_nc := Some nc; cf.cf_nc := None |} /\
    "COMID"%string = (if cf.contains (cf.dimensions nc) "COMID"
                      then "COMID" else "FEATUREID")%string /\
    cf.dimensions nc !! "COMID"%string = Some 2%nat /\
    cf.dimensions nc !! "Time"%string = Some T /\
    2%nat = (T + 1)%nat /\
    "Qout"%string = (if cf.contains (cf.variables nc) "Qout"
                     then "Qout" else "m3_riv")%string /\
    is_Some (cf.variables nc !! "Qout"%string).
Proof.
  refine (validate_raw_nc_result (converter "")
           {| cf.fs := {[ "Qout_example.nc"%string := raw_store [101; 102] [[5; 6]] ]};
              cf.raw_nc := None; cf.cf_nc := None |}
           {| cf.fs := {[ "Qout_example.nc"%string := raw_store [101; 102] [[5; 6]] ]};
              cf.raw_nc := Some (raw_store [101; 102] [[5; 6]]); cf.cf_nc := None |}
           "COMID" "Qout" 2%nat 2%nat _).
  vm_compute; reflexivity.
Defined.

Lemma initialize_output_builds_store_witness :
  exists nc,
    cf._initialize_output 0 (-9999) "2000-01-01T00:00:00" (converter "")
      [cf.PyStr "COMID"; cf.PyInt 3; cf.PyInt 2; cf.PyInt 86400]
      {| cf.fs := ∅; cf.raw_nc := None; cf.cf_nc := None |}
    = ({| cf.fs := <[cf.cf_compliant_file (converter "") := cf.empty_nc]> ∅;
          cf.raw_nc := None; cf.cf_nc := Some nc |}, Ok tt) /\
    cf.dimensions nc = <["COMID"%string := 2%nat]> (<["time"%string := 3%nat]> ∅) /\
    cf.read_ints nc "COMID" = Ok (replicate 2 (-2147483647)) /\
    cf.read_ints nc "time" = Ok (replicate 3 (-2147483647)) /\
    cf.read_floats nc "lat" = Ok (replicate 2 (-9999)) /\
    cf.read_floats nc "lon" = Ok (replicate 2 (-9999)) /\
    cf.read_floats nc "z" = Ok (replicate 2 (-9999)) /\
    dom (cf.variables nc) = {[ "COMID"; "time"; "lat"; "lon"; "z"; "crs" ]}%string.
Proof.
  apply (initialize_output_builds_store 0 (-9999) "2000-01-01T00:00:00"
           (converter "") "COMID" 3 2 86400
           {| cf.fs := ∅; cf.raw_nc := None; cf.cf_nc := None |}).
  decide_true.
Defined.

Lemma copy_streamflow_values_needs_one_step_witness :
  cf.shape0 {| cf.shape0 := 1; cf.shape1 := 1; cf.rows := [[5]] |} = 1%nat /\
  (cf.shape1 {| cf.shape0 := 1; cf.shape1 := 1; cf.rows := [[5]] |} <= 1)%nat /\
  cf.set_variable "Qout"
    {| cf.var_dimensions := ["COMID"; "time"]%string;
       cf.var_data := cf.FloatMat [[99; 99]] |} (output_store [101] 2)
  = cf.set_variable (cf.output_flow_var_name (converter ""))
      {| cf.var_dimensions := [cf.output_id_dim_name (converter ""); "time"%string];
         cf.var_data := cf.FloatMat (replicate 1 (replicate (1 + 1) 99)) |}
      (output_store [101] 2).
Proof.
  apply (copy_streamflow_values_needs_one_step 0 99 no_qinit (converter "") "Qout"
           (raw_store [101] [[5]]) (output_store [101] 2)
           (cf.set_variable "Qout"
              {| cf.var_dimensions := ["COMID"; "time"]%string;
                 cf.var_data := cf.FloatMat [[99; 99]] |} (output_store [101] 2))
           {| cf.shape0 := 1; cf.shape1 := 1; cf.rows := [[5]] |}).
  - vm_compute; reflexivity.
  - vm_compute; reflexivity.
  - vm_compute; reflexivity.
  - vm_compute; reflexivity.
Defined.

Lemma write_comid_takes_first_rows_witness :
  exists nc' rows,
    cf._write_comid_lat_lon_z Z.ltb lookup_both (converter "comid_lat_lon_z.csv")
      (output_store [101; 102] 3) = Ok nc' /\
    Forall2 (first_row_of (lookup_both
                             (cf.comid_lat_lon_z_file (converter "comid_lat_lon_z.csv"))))
      [101; 102] rows /\
    cf.read_floats nc' "lat" = Ok (map cf.row_lat rows) /\
    cf.read_floats nc' "lon" = Ok (map cf.row_lon rows) /\
    cf.read_floats nc' "z" = Ok (map cf.row_z rows) /\
    cf.dimensions nc' = cf.dimensions (output_store [101; 102] 3).
Proof.
  apply (write_comid_takes_first_rows Z.ltb lookup_both
           (converter "comid_lat_lon_z.csv") (output_store [101; 102] 3)
           [101; 102] [-9999; -9999] [-9999; -9999] [-9999; -9999]).
  - discriminate.
  - vm_compute; reflexivity.
  - vm_compute; reflexivity.
  - vm_compute; reflexivity.
  - vm_compute; reflexivity.
  - reflexivity.
  - reflexivity.
  - reflexivity.
  - decide_true.
Defined.

Lemma write_comid_bounds_are_extrema_witness :
  bounded_by Z.ltb enriched_store "lat" "geospatial_lat_min" "geospatial_lat_max" /\
  bounded_by Z.ltb enriched_store "lon" "geospatial_lon_min" "geospatial_lon_max" /\
  bounded_by Z.ltb enriched_store "z" "geospatial_vertical_min" "geospatial_vertical_max".
Proof.
  apply (write_comid_bounds_are_extrema Z.ltb lookup_both
           (converter "comid_lat_lon_z.csv") (output_store [101; 102] 3)
           enriched_store [101; 102] [-9999; -9999] [-9999; -9999] [-9999; -9999]).
  - split; [intros x; apply Z.ltb_irrefl|].
    split; intros x y z; rewrite !Z.ltb_lt; lia.
  - discriminate.
  - vm_compute; reflexivity.
  - discriminate.
  - vm_compute; reflexivity.
  - vm_compute; reflexivity.
  - vm_compute; reflexivity.
  - reflexivity.
  - reflexivity.
  - reflexivity.
  - vm_compute; reflexivity.
Defined.

Lemma select_time_indices_window_witness :
  match seasonal.select_time_indices [0; 864000; 259200] 1 with
  | Ok time_indices =>
      time_indices <> [] /\
      forall i, i ∈ time_indices <->
        exists t, [0; 864000; 259200] !! i = Some t /\
          1 - 3 <= seasonal.tm_yday (seasonal.gmtime t) < 1 + 3
  | Raise e =>
      e = IndexError "No time steps found within range ..." /\
      forall t, t ∈ [0; 864000; 259200] ->
        ~ (1 - 3 <= seasonal.tm_yday (seasonal.gmtime t) < 1 + 3)
  end.
Proof.
  apply (select_time_indices_window [0; 864000; 259200] 1).
  decide_true.
Defined.

Lemma single_seasonal_average_fills_identifier_row_witness :
  exists time_indices streamflow_array,
    seasonal.select_time_indices (seasonal.time_array one_step_365) 1
      = Ok time_indices /\
    seasonal.get_qout one_step_365 time_indices = Ok streamflow_array /\
    length streamflow_array = length (seasonal.qout one_step_365) /\
    (Z.to_nat (1 - 1)%Z < length (seasonal.average_flow
                                    (seasonal.setup_seasonal_average_file (-1)%Z
                                       one_step_365)))%nat /\
    (Z.to_nat (1 - 1)%Z < length (seasonal.std_dev_flow
                                    (seasonal.setup_seasonal_average_file (-1)%Z
                                       one_step_365)))%nat /\
    ((length (seasonal.qout one_step_365) = 365%nat /\
      seasonal.average_flow bin_1_stored !! Z.to_nat (1 - 1)
        = Some (map head_or_zero streamflow_array) /\
      seasonal.std_dev_flow bin_1_stored !! Z.to_nat (1 - 1)
        = Some (map (fun _ => 0) streamflow_array)) \/
     (exists values,
        streamflow_array = [values] /\
        seasonal.average_flow bin_1_stored !! Z.to_nat (1 - 1)
          = Some (replicate 365 (head_or_zero values)) /\
        seasonal.std_dev_flow bin_1_stored !! Z.to_nat (1 - 1)
          = Some (replicate 365 ((fun _ => 0) values)))) /\
    seasonal.rivid bin_1_stored
      = seasonal.rivid (seasonal.setup_seasonal_average_file (-1) one_step_365) /\
    forall r, r <> Z.to_nat (1 - 1) ->
      seasonal.average_flow bin_1_stored !! r
        = seasonal.average_flow (seasonal.setup_seasonal_average_file (-1) one_step_365) !! r /\
      seasonal.std_dev_flow bin_1_stored !! r
        = seasonal.std_dev_flow (seasonal.setup_seasonal_average_file (-1) one_step_365) !! r.
Proof.
  apply (single_seasonal_average_fills_identifier_row head_or_zero (fun _ => 0)
           one_step_365 1 (seasonal.setup_seasonal_average_file (-1) one_step_365)
           bin_1_stored).
  - lia.
  - vm_compute; reflexivity.
Defined.

Lemma compare_reports_same_iff_rows_after_first_agree_witness :
  exists rep,
    rapid.compare_qout_values Z_ne [[1; 2]; [3; 4]; [5; 6]] [[9; 2]; [3; 0]; [0; 0]]
    = Ok rep /\
    match rep with
    | rapid.Same =>
        forall r, row_differs Z_ne [[1; 2]; [3; 4]; [5; 6]]
                    [[9; 2]; [3; 0]; [0; 0]] r -> r = 0%nat
    | rapid.Different n un_where_diff index d1_example d2_example =>
        (exists r, r <> 0%nat /\
           row_differs Z_ne [[1; 2]; [3; 4]; [5; 6]] [[9; 2]; [3; 0]; [0; 0]] r) /\
        (forall r, r ∈ un_where_diff <->
           row_differs Z_ne [[1; 2]; [3; 4]; [5; 6]] [[9; 2]; [3; 0]; [0; 0]] r) /\
        StronglySorted lt un_where_diff /\
        n = length un_where_diff /\
        row_differs Z_ne [[1; 2]; [3; 4]; [5; 6]] [[9; 2]; [3; 0]; [0; 0]] index /\
        (forall r, row_differs Z_ne [[1; 2]; [3; 4]; [5; 6]]
                     [[9; 2]; [3; 0]; [0; 0]] r -> (index <= r)%nat) /\
        [[1; 2]; [3; 4]; [5; 6]] !! index = Some d1_example /\
        [[9; 2]; [3; 0]; [0; 0]] !! index = Some d2_example
    end.
Proof.
  apply (compare_reports_same_iff_rows_after_first_agree Z_ne
           [[1; 2]; [3; 4]; [5; 6]] [[9; 2]; [3; 0]; [0; 0]] 2).
  - reflexivity.
  - decide_true.
  - decide_true.
Defined.

Lemma update_reach_number_data_counts_witness :
  (forall column basin_path riv_bas_id_table,
     mapM (fun row => let* cell := np.item row 2 in example_int_of_float cell)
       [["10"; "20"; "1"; "0"]; ["20"; "0"; "3"; "10"]]%string = Ok column ->
     [["10"; "20"; "1"; "0"]; ["20"; "0"; "3"; "10"]]%string <> [] ->
     manager.getattr example_manager "riv_bas_id_file" = Ok basin_path ->
     example_csv_to_list basin_path = Ok riv_bas_id_table ->
     exists max_up,
       manager.update_reach_number_data example_csv_to_list example_int_of_float
         example_manager =
       (<["IS_riv_bas"%string := manager.VInt (Z.of_nat (length riv_bas_id_table))]>
          (<["IS_max_up"%string := manager.VInt max_up]>
             (<["IS_riv_tot"%string :=
                  manager.VInt (Z.of_nat (length
                    [["10"; "20"; "1"; "0"]; ["20"; "0"; "3"; "10"]]%string))]>
                example_manager)),
        Ok tt) /\
       max_up ∈ column /\ forall x, x ∈ column -> x <= max_up) /\
  ([["10"; "20"; "1"; "0"]; ["20"; "0"; "3"; "10"]]%string = [] ->
   manager.update_reach_number_data example_csv_to_list example_int_of_float
     example_manager =
   (<["IS_riv_tot"%string := manager.VInt 0]> example_manager,
    Raise (ValueError "max() arg is an empty sequence"))).
Proof.
  apply (update_reach_number_data_counts example_csv_to_list example_int_of_float
           example_manager (manager.VStr "rapid_connect.csv")).
  - vm_compute; reflexivity.
  - reflexivity.
Defined.


Lemma namelist_line_assigns_equals_sign_witness :
  manager.update_from_line (list_to_map manager.defaults) ("ZS_TauR" +:+ " = " +:+ "900")
  = (manager.setattr (list_to_map manager.defaults) "ZS_TauR" (manager.VStr "="),
     Ok tt).
Proof.
  apply (namelist_line_assigns_equals_sign (list_to_map manager.defaults)
           "ZS_TauR" "900" (manager.VInt 0)).
  - reflexivity.
  - reflexivity.
  - reflexivity.
  - vm_compute; reflexivity.
  - reflexivity.
Defined.

Lemma constructor_accepts_public_names_witness :
  ((exists self,
      manager.__init__ "posix" nothing_exists posix_join 4
        (manager.VStr "/usr/local/bin/rapid") (manager.VInt 1) (manager.VBool true) ""
        [("ZS_TauR", manager.VInt 10800); ("run", manager.VInt 5)]%string = Ok self) <->
   Forall (fun kv => fst kv ∈ map fst manager.defaults ++ public_methods)
     [("ZS_TauR", manager.VInt 10800); ("run", manager.VInt 5)]%string) /\
  (forall self,
     manager.__init__ "posix" nothing_exists posix_join 4
       (manager.VStr "/usr/local/bin/rapid") (manager.VInt 1) (manager.VBool true) ""
       [("ZS_TauR", manager.VInt 10800); ("run", manager.VInt 5)]%string = Ok self ->
     self !! "_rapid_executable_location"%string
       = Some (manager.VStr "/usr/local/bin/rapid") /\
     self !! "_num_processors"%string
       = Some (if manager.eq_True (manager.VBool true)
               then manager.VInt 4 else manager.VInt 1) /\
     forall key v, (key, v) ∈ manager.defaults ->
       key ∉ map fst [("ZS_TauR", manager.VInt 10800); ("run", manager.VInt 5)]%string ->
       self !! key = Some v).
Proof.
  apply (constructor_accepts_public_names "posix" nothing_exists posix_join 4
           (manager.VStr "/usr/local/bin/rapid") (manager.VInt 1)
           (manager.VBool true) ""
           [("ZS_TauR", manager.VInt 10800); ("run", manager.VInt 5)]%string).
  reflexivity.
Defined.
